(** * Shopkeeper Sales Analyzer: the data pipeline of [project.py]

    A shallow embedding of the dashboard's pipeline (column mapping,
    numeric coercion, revenue, filters, KPIs, aggregates, trend, CSV export)
    and the properties its specification states about it.

    Modelling choices, all taken from how the script uses pandas and
    Streamlit:
    - a column has a dtype and so has each of its cells: int64 (an
      integer, its arithmetic wrapping modulo 2^64), float64 (a
      [spec_float] of IEEE binary64, precision 53 and exponent bound 1024,
      NaN being the missing marker of numeric and text columns), text, or
      datetime64 (NaT being its missing marker); [read_csv] gives a column
      one dtype, so the cells of a column are of one kind, missing values
      apart;
    - a DataFrame is its header (a list of labels, duplicates allowed)
      and its rows in order; a Series is the list of the cells of a column;
    - a label is the UTF-8 text of the header, byte by byte; on such
      texts equality of bytes is equality of characters and the order of
      bytes is the order of characters;
    - what belongs to the libraries and not to the script is taken as a
      parameter: the text parsers behind [pd.to_numeric] and
      [pd.to_datetime] (the latter reads a column as a whole: it infers one
      format for it), the order in which a sum of float64 values is
      associated ([Series.sum] and [groupby().sum()] each have their own),
      the printers of floats and timestamps and the layout of the CSV text;
    - the script stops where a library call raises: a lookup of a label
      that no column or several columns bear, [st.slider] on bounds that
      are not one below the other, a format of a Series, a preview of a
      table with a duplicated label. *)

From Stdlib Require Import ZArith Bool List Sorted Ascii String DecimalString.
From Stdlib Require Import OrderedTypeEx.
From Stdlib Require Import Floats.SpecFloat.
From stdpp Require Import gmap strings list.

Local Open Scope string_scope.
Local Open Scope Z_scope.
Local Open Scope list_scope.

(** ** float64 *)

Module F64.

Definition prec : Z := 53.
Definition emax : Z := 1024.

Definition nan : spec_float := S754_nan.
Definition zero : spec_float := S754_zero false.

Definition is_nan (x : spec_float) : bool :=
  match x with S754_nan => true | _ => false end.

Definition is_finite (x : spec_float) : bool :=
  match x with S754_zero _ | S754_finite _ _ _ => true | _ => false end.

Definition mul : spec_float -> spec_float -> spec_float := SFmul prec emax.
Definition add : spec_float -> spec_float -> spec_float := SFadd prec emax.
Definition div : spec_float -> spec_float -> spec_float := SFdiv prec emax.

Definition leb : spec_float -> spec_float -> bool := SFleb.
Definition ltb : spec_float -> spec_float -> bool := SFltb.
Definition eqb : spec_float -> spec_float -> bool := SFeqb.

(** The float of an integer, rounded to nearest even. *)
Definition of_Z (z : Z) : spec_float := binary_normalize prec emax z 0 false.

(** [x <= y] as IEEE orders them: never true of a NaN. *)
Definition le (x y : spec_float) : Prop :=
  SFcompare x y = Some Lt \/ SFcompare x y = Some Eq.

End F64.

(** ** int64 *)

Module I64.

Definition min_value : Z := - 2 ^ 63.
Definition max_value : Z := 2 ^ 63 - 1.

(** The 64-bit two's complement integer congruent to [z]. *)
Definition wrap (z : Z) : Z := (z + 2 ^ 63) mod 2 ^ 64 - 2 ^ 63.

Definition add (a b : Z) : Z := wrap (a + b).
Definition mul (a b : Z) : Z := wrap (a * b).

End I64.

(** ** Timestamps *)

Record Date := mkDate { year : Z; month : Z; day : Z }.

(** A [pd.Timestamp] without a time zone: a calendar day and the
    nanoseconds elapsed since its midnight. *)
Record Timestamp := mkTimestamp { ts_date : Date; ts_nanos : Z }.

Definition lex (c1 c2 : comparison) : comparison :=
  match c1 with Eq => c2 | _ => c1 end.

Definition date_compare (a b : Date) : comparison :=
  lex (year a ?= year b) (lex (month a ?= month b) (day a ?= day b)).

Definition ts_compare (a b : Timestamp) : comparison :=
  lex (date_compare (ts_date a) (ts_date b)) (ts_nanos a ?= ts_nanos b).

Definition ts_leb (a b : Timestamp) : bool :=
  match ts_compare a b with Gt => false | _ => true end.

Definition ts_ltb (a b : Timestamp) : bool :=
  match ts_compare a b with Lt => true | _ => false end.

(** [Timestamp.date()] *)
Definition date_of (t : Timestamp) : Date := ts_date t.

(** [pd.to_datetime(d)] of a [datetime.date]: that day at midnight. *)
Definition midnight (d : Date) : Timestamp := mkTimestamp d 0.

(** [.dt.to_period("M").dt.to_timestamp()]: the first day of the month,
    at midnight. *)
Definition month_start (t : Timestamp) : Timestamp :=
  mkTimestamp (mkDate (year (ts_date t)) (month (ts_date t)) 1) 0.

(** ** Cells, Series and DataFrames *)

Inductive cell :=
| CStr (s : string)       (* text of an object column *)
| CInt (z : Z)            (* int64 *)
| CNum (x : spec_float)   (* float64; NaN is the missing value *)
| CTime (t : Timestamp)   (* datetime64 *)
| CNaT.                   (* missing datetime *)

Definition missing : cell := CNum F64.nan.

(** [pd.isna] *)
Definition isna (c : cell) : bool :=
  match c with
  | CNum x => F64.is_nan x
  | CNaT => true
  | _ => false
  end.

Definition is_int (c : cell) : bool :=
  match c with CInt _ => true | _ => false end.

Definition int_of (c : cell) : Z :=
  match c with CInt z => z | _ => 0 end.

(** A cell of a numeric column. *)
Definition is_number (c : cell) : bool :=
  match c with CInt _ | CNum _ => true | _ => false end.

(** The float of a numeric cell: [float(x)], and the cast numpy applies
    to an int64 that meets a float64. *)
Definition num (c : cell) : spec_float :=
  match c with
  | CNum x => x
  | CInt z => F64.of_Z z
  | _ => F64.nan
  end.

(** The timestamp held by a datetime cell. *)
Definition time_of (c : cell) : option Timestamp :=
  match c with CTime t => Some t | _ => None end.

(** Equality of values as the hash tables behind [isin] and [unique]
    see it: missing values match each other, [0.0] matches [-0.0]. The
    values compared are of one column, hence of one kind. *)
Definition cell_eqb (a b : cell) : bool :=
  match a, b with
  | CStr s, CStr t => String.eqb s t
  | CInt x, CInt y => Z.eqb x y
  | CNum x, CNum y => (F64.is_nan x && F64.is_nan y) || F64.eqb x y
  | CTime s, CTime t => match ts_compare s t with Eq => true | _ => false end
  | CNaT, CNaT => true
  | _, _ => false
  end.

Definition kind_rank (c : cell) : nat :=
  match c with
  | CInt _ => 0
  | CNum _ => 1
  | CTime _ | CNaT => 2
  | CStr _ => 3
  end.

(** The order [sorted] and the group keys use. A column holds cells of
    one kind once its missing values are dropped; cells of different
    kinds are ranked by kind so that the function is total. *)
Definition cell_ltb (a b : cell) : bool :=
  match a, b with
  | CStr s, CStr t => String.ltb s t
  | CInt x, CInt y => Z.ltb x y
  | CNum x, CNum y => F64.ltb x y
  | CTime s, CTime t => ts_ltb s t
  | _, _ => Nat.ltb (kind_rank a) (kind_rank b)
  end.

Definition Series := list cell.
Definition Row := list cell.

Record DataFrame := mkFrame { columns : list string; rows : list Row }.

(** Every row has one cell per column. *)
Definition rectangular (df : DataFrame) : Prop :=
  Forall (fun r => length r = length (columns df)) (rows df).

(** The cell of row [r] under the first column labelled [name]. *)
Fixpoint cell_at (name : string) (cols : list string) (r : Row) : cell :=
  match cols, r with
  | c :: cs, x :: xs => if String.eqb c name then x else cell_at name cs xs
  | _, _ => missing
  end.

(** The values of the first column labelled [name]. *)
Definition column (df : DataFrame) (name : string) : Series :=
  map (cell_at name (columns df)) (rows df).

Definition count_label (name : string) (cols : list string) : nat :=
  length (List.filter (String.eqb name) cols).

(** ** Errors *)

Inductive error :=
| KeyError (label : string)
| TypeError
| ValueError
| AttributeError
| StreamlitAPIException.

Definition result (A : Type) : Type := error + A.

Definition bind {A B} (m : result A) (k : A -> result B) : result B :=
  match m with
  | inl e => inl e
  | inr a => k a
  end.

Notation "'let*' x ':=' e 'in' k" := (bind e (fun x => k))
  (at level 10, x name, e at level 200, k at level 200).

(** What [df[name]] evaluates to: a Series when one column bears the
    label, a DataFrame of the columns that do when several bear it. *)
Inductive selection :=
| OneColumn (s : Series)
| SubFrame (width : nat).

Definition getitem (df : DataFrame) (name : string) : result selection :=
  match count_label name (columns df) with
  | O => inl (KeyError name)
  | S O => inr (OneColumn (column df name))
  | S (S n) => inr (SubFrame (S (S n)))
  end.

(** [df[name] = series]: the column labelled [name] takes the values,
    or a new last column is added when there is none. When several
    columns bear the label pandas broadcasts the values to each of them;
    the script never reads such columns: it stops at its next use of the
    label (lines 100 and 116). *)
Definition set_cell (name : string) (cols : list string) (r : Row) (v : cell) : Row :=
  map (fun cx : string * cell => if String.eqb (fst cx) name then v else snd cx)
      (combine cols r).

Definition has_label (name : string) (cols : list string) : bool :=
  existsb (String.eqb name) cols.

Definition put_cell (name : string) (cols : list string) (r : Row) (v : cell) : Row :=
  if has_label name cols then set_cell name cols r v else r ++ [v].

Definition put_label (name : string) (cols : list string) : list string :=
  if has_label name cols then cols else cols ++ [name].

Fixpoint map2 {A B C} (f : A -> B -> C) (l : list A) (k : list B) : list C :=
  match l, k with
  | a :: l', b :: k' => f a b :: map2 f l' k'
  | _, _ => []
  end.

Definition setitem (df : DataFrame) (name : string) (s : Series) : DataFrame :=
  mkFrame (put_label name (columns df))
          (map2 (put_cell name (columns df)) (rows df) s).

(** A boolean mask applied to the rows: [df[mask]]. *)
Definition boolean_index (df : DataFrame) (mask : list bool) : DataFrame :=
  mkFrame (columns df) (map fst (List.filter snd (combine (rows df) mask))).

Definition mask_and : list bool -> list bool -> list bool := map2 andb.

(** ** Series operations *)

Definition dropna (s : Series) : Series :=
  List.filter (fun c => negb (isna c)) s.

(** [Series.unique()]: the values in order of first appearance. *)
Definition unique (s : Series) : Series :=
  fold_left (fun seen c => if existsb (cell_eqb c) seen then seen else seen ++ [c]) s [].

(** Stable insertion sort: [precedes x y] says that [x] may stand before [y]. *)
Fixpoint insert_by {A} (precedes : A -> A -> bool) (x : A) (l : list A) : list A :=
  match l with
  | [] => [x]
  | y :: t => if precedes x y then x :: y :: t else y :: insert_by precedes x t
  end.

Definition sort_by {A} (precedes : A -> A -> bool) (l : list A) : list A :=
  fold_right (insert_by precedes) [] l.

(** Python's [sorted] on the values of a column. *)
Definition sorted (s : Series) : Series :=
  sort_by (fun a b => negb (cell_ltb b a)) s.

(** [Series.isin(values)] *)
Definition isin (s : Series) (values : list cell) : list bool :=
  map (fun c => existsb (cell_eqb c) values) s.

(** [Series.between(lo, hi, inclusive="both")]: [(lo <= s) & (s <= hi)],
    the bounds being floats. *)
Definition between (s : Series) (lo hi : spec_float) : list bool :=
  map (fun c => F64.leb lo (num c) && F64.leb (num c) hi) s.

(** [float(Series.min())] and [float(Series.max())]: missing values are
    skipped, and the result is missing when nothing is left. *)
Definition pick (better : spec_float -> spec_float -> bool)
    (acc : spec_float) (c : cell) : spec_float :=
  let x := num c in
  if F64.is_nan x then acc
  else if F64.is_nan acc then x
  else if better x acc then x else acc.

Definition series_min (s : Series) : spec_float :=
  fold_left (pick F64.ltb) s F64.nan.

Definition series_max (s : Series) : spec_float :=
  fold_left (pick (fun x acc => F64.ltb acc x)) s F64.nan.

(** The sum of the cells of a numeric column, in its dtype: the int64
    sum of an int64 column, wrapping; the float64 sum of a float64 column,
    as the library given adds its values, the missing ones taken for
    nothing. *)
Definition sum_cells (float_sum : list spec_float -> spec_float) (s : Series) : cell :=
  if forallb is_int s
  then CInt (fold_left (fun acc c => I64.add acc (int_of c)) s 0)
  else CNum (float_sum (map num s)).

(** [min()] and [max()] of a datetime column, NaT skipped. *)
Definition pick_time (better : Timestamp -> Timestamp -> bool)
    (acc : option Timestamp) (c : cell) : option Timestamp :=
  match time_of c, acc with
  | None, _ => acc
  | Some t, None => Some t
  | Some t, Some a => if better t a then Some t else Some a
  end.

Definition time_min (s : Series) : option Timestamp :=
  fold_left (pick_time ts_ltb) s None.

Definition time_max (s : Series) : option Timestamp :=
  fold_left (pick_time (fun t a => ts_ltb a t)) s None.

(** ** Column mapping (lines 31-63) *)

Record ColumnMapping := mkMapping {
  region_col : string;
  product_col : string;
  price_col : string;
  quantity_col : string;
  date_col : string
}.

Definition no_date : string := "(none)".

Definition has_date (m : ColumnMapping) : bool :=
  negb (String.eqb (date_col m) no_date).

(** The selectbox defaults: the column of that very name when there is
    one, the first column otherwise. *)
Definition default_col (name : string) (cols : list string) : string :=
  if has_label name cols then name else List.hd name cols.

Definition default_mapping (cols : list string) : ColumnMapping :=
  mkMapping (default_col "Region" cols) (default_col "Product" cols)
            (default_col "Price" cols) (default_col "Quantity" cols) no_date.

(** The dict literal handed to [rename]: a key written twice keeps the
    value written last. *)
Definition rename_dict (m : ColumnMapping) : gmap string string :=
  <[quantity_col m := "Quantity"]>
    (<[price_col m := "Price"]>
       (<[product_col m := "Product"]>
          (<[region_col m := "Region"]> ∅))).

Definition rename_label (d : gmap string string) (c : string) : string :=
  default c (d !! c).

(** [raw_df.rename(columns=d)] *)
Definition rename (df : DataFrame) (d : gmap string string) : DataFrame :=
  mkFrame (map (rename_label d) (columns df)) (rows df).

(** ** Trimmed headers (lines 22-25) *)

Definition byte (n : nat) : ascii := ascii_of_nat n.

(** The characters [str.strip()] removes, those [str.isspace] accepts, in
    UTF-8: U+0009 to U+000D, U+001C to U+0020, U+0085, U+00A0, U+1680,
    U+2000 to U+200A, U+2028, U+2029, U+202F, U+205F and U+3000. *)
Definition whitespace : list (list ascii) :=
  map (fun n => [byte n]) [9; 10; 11; 12; 13; 28; 29; 30; 31; 32]%nat
  ++ [[byte 194; byte 133]; [byte 194; byte 160]; [byte 225; byte 154; byte 128]]
  ++ map (fun n => [byte 226; byte 128; byte n])
         [128; 129; 130; 131; 132; 133; 134; 135; 136; 137; 138; 168; 169; 175]%nat
  ++ [[byte 226; byte 129; byte 159]; [byte 227; byte 128; byte 128]].

(** The text after the prefix [p], when the text starts with it. *)
Fixpoint drop_prefix (p l : list ascii) : option (list ascii) :=
  match p, l with
  | [], _ => Some l
  | a :: p', b :: l' => if Ascii.eqb a b then drop_prefix p' l' else None
  | _ :: _, [] => None
  end.

(** The text after its first character, when that is one of [chars]. *)
Definition drop_one (chars : list (list ascii)) (l : list ascii) : option (list ascii) :=
  fold_right (fun p found => match drop_prefix p l with
                             | Some rest => Some rest
                             | None => found
                             end) None chars.

(** Characters of [chars] dropped from the start, at most [fuel] of them. *)
Fixpoint drop_leading (chars : list (list ascii)) (fuel : nat) (l : list ascii) : list ascii :=
  match fuel with
  | O => l
  | S fuel' =>
      match drop_one chars l with
      | Some rest => drop_leading chars fuel' rest
      | None => l
      end
  end.

Definition lstrip_bytes (l : list ascii) : list ascii :=
  drop_leading whitespace (length l) l.

(** From the end: the same on the text read backwards. *)
Definition rstrip_bytes (l : list ascii) : list ascii :=
  rev (drop_leading (map (@rev ascii) whitespace) (length l) (rev l)).

Definition lstrip (s : string) : string :=
  string_of_list_ascii (lstrip_bytes (list_ascii_of_string s)).

Definition rstrip (s : string) : string :=
  string_of_list_ascii (rstrip_bytes (list_ascii_of_string s)).

Definition strip (s : string) : string := rstrip (lstrip s).

Definition normalize_columns (frame : DataFrame) : DataFrame :=
  mkFrame (map strip (columns frame)) (rows frame).

(** ** Filters and widgets *)

Record FilterSpec := mkFilters {
  region_filter : list cell;
  product_filter : list cell;
  price_range : spec_float * spec_float;
  qty_range : spec_float * spec_float
}.

(** What the user does with the widgets: the filters picked starting from
    the defaults offered, the date range picked from the default one
    ([None] while the picker holds no complete pair), and the Top-N. *)
Record Widgets := mkWidgets {
  pick_filters : FilterSpec -> FilterSpec;
  pick_dates : Date * Date -> option (Date * Date);
  top_n : nat
}.

(** Nothing touched: every widget keeps its default. *)
Definition untouched : Widgets := mkWidgets (fun d => d) Some 10%nat.

Definition or_zero (x : spec_float) : spec_float :=
  if F64.is_nan x then F64.zero else x.

(** [df["Region"].dropna().unique()], then [sorted] (lines 74-75). *)
Definition distinct_values (sel : selection) : result Series :=
  match sel with
  | OneColumn s => inr (sorted (unique (dropna s)))
  | SubFrame _ => inl AttributeError
  end.

(** The defaults of the filter widgets (lines 74-85). *)
Definition default_filters (df : DataFrame) : result FilterSpec :=
  let* region := getitem df "Region" in
  let* region_values := distinct_values region in
  let* product := getitem df "Product" in
  let* product_values := distinct_values product in
  let price_min := or_zero (series_min (column df "Price")) in
  let price_max := or_zero (series_max (column df "Price")) in
  let qty_min := or_zero (series_min (column df "Quantity")) in
  let qty_max := or_zero (series_max (column df "Quantity")) in
  inr (mkFilters region_values product_values (price_min, price_max) (qty_min, qty_max)).

(** [st.slider(label, min_value, max_value, (min_value, max_value))]
    (lines 87-88): Streamlit raises unless [min_value] is below
    [max_value] and both are finite. *)
Definition slider_accepts (min_value max_value : spec_float) : bool :=
  F64.ltb min_value max_value && F64.is_finite min_value && F64.is_finite max_value.

Definition st_slider (bounds : spec_float * spec_float) : result unit :=
  if slider_accepts (fst bounds) (snd bounds) then inr tt else inl StreamlitAPIException.

(** The categorical and numeric filters (lines 90-95). *)
Definition apply_filters (df : DataFrame) (spec : FilterSpec) : DataFrame :=
  boolean_index df
    (mask_and
       (mask_and
          (mask_and (isin (column df "Region") (region_filter spec))
                    (isin (column df "Product") (product_filter spec)))
          (between (column df "Price") (fst (price_range spec)) (snd (price_range spec))))
       (between (column df "Quantity") (fst (qty_range spec)) (snd (qty_range spec)))).

(** [series >= t] and [series <= t] on a datetime column: false on NaT. *)
Definition time_ge (s : Series) (t : Timestamp) : list bool :=
  map (fun c => match time_of c with Some u => ts_leb t u | None => false end) s.

Definition time_le (s : Series) (t : Timestamp) : list bool :=
  map (fun c => match time_of c with Some u => ts_leb u t | None => false end) s.

(** Lines 103-107: the picked days become timestamps and bound the dates. *)
Definition apply_date_filter (filtered_df : DataFrame) (date_range : Date * Date) : DataFrame :=
  let start_date := midnight (fst date_range) in
  let end_date := midnight (snd date_range) in
  boolean_index filtered_df
    (mask_and (time_ge (column filtered_df "Date") start_date)
              (time_le (column filtered_df "Date") end_date)).

(** Lines 98-100, when several columns are labelled Date: [min()] of the
    DataFrame they form is a Series, and the truth value that [and] asks
    of [pd.notna] of a Series raises. *)
Definition date_guard (m : ColumnMapping) (filtered_df : DataFrame) : result unit :=
  if has_date m then
    let* dates := getitem filtered_df "Date" in
    match dates with
    | OneColumn _ => inr tt
    | SubFrame _ => inl ValueError
    end
  else inr tt.

(** Lines 97-107, on a table in which one column is labelled Date. *)
Definition date_step (m : ColumnMapping) (ui : Widgets) (filtered_df : DataFrame) : DataFrame :=
  if has_date m then
    match time_min (column filtered_df "Date"), time_max (column filtered_df "Date") with
    | Some date_min, Some date_max =>
        match pick_dates ui (date_of date_min, date_of date_max) with
        | Some date_range => apply_date_filter filtered_df date_range
        | None => filtered_df
        end
    | _, _ => filtered_df
    end
  else filtered_df.

(** ** Data quality (line 123): [filtered_df.isna().sum()] *)

Definition nth_column (df : DataFrame) (i : nat) : Series :=
  map (fun r => nth i r missing) (rows df).

Definition count_missing (s : Series) : nat := length (List.filter isna s).

Definition missing_report (df : DataFrame) : list (string * nat) :=
  map (fun ic : nat * string => (snd ic, count_missing (nth_column df (fst ic))))
      (combine (seq 0 (length (columns df))) (columns df)).

(** The count the report shows for the first column labelled [name]. *)
Definition missing_of (df : DataFrame) (name : string) : nat :=
  count_missing (column df name).

(** Line 128: [st.dataframe] hands the table to Arrow, which refuses a
    header in which a label occurs twice. *)
Fixpoint has_duplicates (cols : list string) : bool :=
  match cols with
  | [] => false
  | c :: rest => has_label c rest || has_duplicates rest
  end.

Definition st_dataframe (df : DataFrame) : result unit :=
  if has_duplicates (columns df) then inl ValueError else inr tt.

(** ** Groups (lines 133-158) *)

(** Groups are kept in ascending order of their key, as [groupby] sorts
    them; a row adds its value after those of its group. *)
Fixpoint add_to_group {K} (ltb : K -> K -> bool) (k : K) (v : cell)
    (groups : list (K * Series)) : list (K * Series) :=
  match groups with
  | [] => [(k, [v])]
  | (k', vs) :: rest =>
      if ltb k k' then (k, [v]) :: groups
      else if ltb k' k then (k', vs) :: add_to_group ltb k v rest
      else (k', vs ++ [v]) :: rest
  end.

(** [groupby(key)[value]]: rows whose key is missing belong to no group. *)
Definition groupby {K} (ltb : K -> K -> bool) (keys : list (option K)) (values : Series)
    : list (K * Series) :=
  fold_left (fun groups kv =>
               match fst kv with
               | Some k => add_to_group ltb k (snd kv) groups
               | None => groups
               end)
            (combine keys values) [].

Definition group_key (c : cell) : option cell :=
  if isna c then None else Some c.

(** [x] may stand before [y] when a column of sums is sorted in
    descending order: missing sums last, floats by their order, integers
    by theirs (of two integers with the same float the larger first). *)
Definition desc_cells (x y : cell) : bool :=
  F64.is_nan (num y)
  || F64.ltb (num y) (num x)
  || (F64.eqb (num y) (num x) && (int_of y <=? int_of x)).

(** [sort_values("Revenue", ascending=False)] *)
Definition sort_values_desc {K} (groups : list (K * cell)) : list (K * cell) :=
  sort_by (fun a b => desc_cells (snd a) (snd b)) groups.

(** A sum as a chart or a metric shows it: a float. *)
Definition shown {K} (entry : K * cell) : K * spec_float := (fst entry, num (snd entry)).

(** ** Printing *)

(** [str] of an integer. *)
Definition decimal (z : Z) : string := NilZero.string_of_int (Z.to_int z).

(** ** The script *)

Record Metrics := mkMetrics {
  total_revenue : spec_float;
  total_units : spec_float;
  avg_price : spec_float;
  avg_units : spec_float
}.

(** Everything the page shows. *)
Record Dashboard := mkDashboard {
  canonical : DataFrame;
  filtered : DataFrame;
  kpis : Metrics;
  data_quality : list (string * nat);
  top_products : list (cell * spec_float);
  by_region : list (cell * spec_float);
  trend : option (list (Timestamp * spec_float))
}.

Section Pipeline.

(** The services of the libraries: how [pd.to_numeric] reads a text (NaN
    when it is no number); what [pd.to_datetime] reads at a position of a
    column, given the whole column ([None] where it reads no date); how
    [Series.sum] and [groupby().sum()] add float64 values, the missing
    ones taken for nothing; how [to_csv] prints a float, and a timestamp
    of a column; how it lays its records out as text. *)
Variable str_to_float : string -> spec_float.
Variable to_timestamp : Series -> nat -> option Timestamp.
Variable nansum : list spec_float -> spec_float.
Variable group_nansum : list spec_float -> spec_float.
Variable float_repr : spec_float -> string.
Variable time_repr : Series -> Timestamp -> string.
Variable write_csv : list (list string) -> string.

(** [pd.to_numeric(_, errors="coerce")] on one cell: a number is kept in
    its dtype, a text is read as a float. *)
Definition to_numeric (c : cell) : cell :=
  match c with
  | CInt z => CInt z
  | CNum x => CNum x
  | CStr s => CNum (str_to_float s)
  | CTime _ | CNaT => missing
  end.

(** [safe_numeric]: [pd.to_numeric] refuses a DataFrame. *)
Definition safe_numeric (sel : selection) : result Series :=
  match sel with
  | OneColumn s => inr (map to_numeric s)
  | SubFrame _ => inl TypeError
  end.

(** [pd.to_datetime(_, errors="coerce")]: a DataFrame is taken for
    year/month/day columns, which these are not. *)
Definition to_datetime (sel : selection) : result Series :=
  match sel with
  | OneColumn s =>
      inr (map (fun i => match to_timestamp s i with
                         | Some t => CTime t
                         | None => CNaT
                         end) (seq 0 (length s)))
  | SubFrame _ => inl ValueError
  end.

(** [price * quantity] on one row: the int64 product of two int64, the
    float64 product otherwise. *)
Definition cell_mul (a b : cell) : cell :=
  match a, b with
  | CInt x, CInt y => CInt (I64.mul x y)
  | _, _ => CNum (F64.mul (num a) (num b))
  end.

Definition series_mul (p q : Series) : Series := map2 cell_mul p q.

(** Lines 56-71: the canonical table. *)
Definition prepare (raw_df : DataFrame) (m : ColumnMapping) : result DataFrame :=
  let df := rename raw_df (rename_dict m) in
  let* price := getitem df "Price" in
  let* price := safe_numeric price in
  let df := setitem df "Price" price in
  let* quantity := getitem df "Quantity" in
  let* quantity := safe_numeric quantity in
  let df := setitem df "Quantity" quantity in
  let df := setitem df "Revenue" (series_mul (column df "Price") (column df "Quantity")) in
  if has_date m then
    let* dates := getitem raw_df (date_col m) in
    let* dates := to_datetime dates in
    inr (setitem df "Date" dates)
  else inr df.

(** Lines 28-107: the canonical table and the filtered one. *)
Definition filtered_table (csv : DataFrame) (m : ColumnMapping) (ui : Widgets)
    : result (DataFrame * DataFrame) :=
  let raw_df := normalize_columns csv in
  let* df := prepare raw_df m in
  let* defaults := default_filters df in
  let* price_slider := st_slider (price_range defaults) in
  let* qty_slider := st_slider (qty_range defaults) in
  let filtered_df := apply_filters df (pick_filters ui defaults) in
  let* dates := date_guard m filtered_df in
  inr (df, date_step m ui filtered_df).

(** [Series.sum()] *)
Definition series_sum (s : Series) : cell := sum_cells nansum s.

(** [Series.mean()]: the float sum of the values present over their
    count, and NaN when the count is zero. *)
Definition series_mean (s : Series) : spec_float :=
  match dropna s with
  | [] => F64.nan
  | present => F64.div (nansum (map num s)) (F64.of_Z (Z.of_nat (length present)))
  end.

(** The value an f-string formats: a Series has none. *)
Definition formatted (sel : selection) : result Series :=
  match sel with
  | OneColumn s => inr s
  | SubFrame _ => inl TypeError
  end.

(** Key metrics (lines 110-119), each as the float its format shows. *)
Definition metrics (filtered_df : DataFrame) : result Metrics :=
  let* revenue := getitem filtered_df "Revenue" in
  let* quantity := getitem filtered_df "Quantity" in
  let* price := getitem filtered_df "Price" in
  let* revenue := formatted revenue in
  let* quantity := formatted quantity in
  let* price := formatted price in
  inr (mkMetrics (num (series_sum revenue)) (num (series_sum quantity))
                 (series_mean price) (series_mean quantity)).

(** [groupby(key, as_index=False)[value].sum()], each sum in the dtype of
    the values. *)
Definition groupby_cells {K} (ltb : K -> K -> bool) (keys : list (option K))
    (values : Series) : list (K * cell) :=
  map (fun g => (fst g, sum_cells group_nansum (snd g))) (groupby ltb keys values).

Definition groupby_sum {K} (ltb : K -> K -> bool) (keys : list (option K))
    (values : Series) : list (K * spec_float) :=
  map shown (groupby_cells ltb keys values).

Definition revenue_by (filtered_df : DataFrame) (label : string) : list (cell * spec_float) :=
  map shown
    (sort_values_desc
       (groupby_cells cell_ltb (map group_key (column filtered_df label))
                      (column filtered_df "Revenue"))).

(** Lines 133-138. *)
Definition prod_rev (filtered_df : DataFrame) (n : nat) : list (cell * spec_float) :=
  firstn n (revenue_by filtered_df "Product").

(** Lines 143-147. *)
Definition region_rev (filtered_df : DataFrame) : list (cell * spec_float) :=
  revenue_by filtered_df "Region".

(** Lines 153-158. *)
Definition trend_df (filtered_df : DataFrame) : list (Timestamp * spec_float) :=
  let dated :=
    boolean_index filtered_df
      (map (fun c => negb (isna c)) (column filtered_df "Date")) in
  let Month := map (fun c => option_map month_start (time_of c)) (column dated "Date") in
  groupby_sum ts_ltb Month (column dated "Revenue").

(** Lines 28-167: the page, from the parsed upload, the columns the user
    maps and what the user does with the widgets. *)
Definition dashboard (csv : DataFrame) (m : ColumnMapping) (ui : Widgets)
    : result Dashboard :=
  let* tables := filtered_table csv m ui in
  let df := fst tables in
  let filtered_df := snd tables in
  let* kpis := metrics filtered_df in
  let* preview := st_dataframe filtered_df in
  inr (mkDashboard df filtered_df kpis
         (missing_report filtered_df)
         (prod_rev filtered_df (top_n ui))
         (region_rev filtered_df)
         (if has_date m then Some (trend_df filtered_df) else None)).

(** Lines 171-176: [filtered_df.to_csv(index=False)]. A cell is printed
    by its dtype, a missing one as the empty field; the format of a
    timestamp is chosen for its column. *)
Definition csv_value (col : Series) (c : cell) : string :=
  match c with
  | CStr s => s
  | CInt z => decimal z
  | CNum x => if F64.is_nan x then EmptyString else float_repr x
  | CTime t => time_repr col t
  | CNaT => EmptyString
  end.

Definition csv_header (df : DataFrame) : list string := columns df.

Definition csv_record (df : DataFrame) (r : Row) : list string :=
  map (fun ic : nat * cell => csv_value (nth_column df (fst ic)) (snd ic))
      (combine (seq 0 (length r)) r).

Definition csv_records (df : DataFrame) : list (list string) :=
  map (csv_record df) (rows df).

Definition to_csv (df : DataFrame) : string :=
  write_csv (csv_header df :: csv_records df).

(** The text behind the download button. *)
Definition download (d : Dashboard) : string := to_csv (filtered d).

End Pipeline.

(** ** Days of the calendar *)

Definition is_leap (y : Z) : bool :=
  ((y mod 4 =? 0) && negb (y mod 100 =? 0)) || (y mod 400 =? 0).

Definition days_in_month (y m : Z) : Z :=
  if m =? 2 then (if is_leap y then 29 else 28)
  else if (m =? 4) || (m =? 6) || (m =? 9) || (m =? 11) then 30
  else 31.

Definition valid_date (d : Date) : bool :=
  (1 <=? month d) && (month d <=? 12)
  && (1 <=? day d) && (day d <=? days_in_month (year d) (month d)).

(** Days since 1 January 1970, and back. *)
Definition days_from_civil (d : Date) : Z :=
  let y := if month d <=? 2 then year d - 1 else year d in
  let era := y / 400 in
  let yoe := y - era * 400 in
  let mp := if 2 <? month d then month d - 3 else month d + 9 in
  let doy := (153 * mp + 2) / 5 + day d - 1 in
  let doe := yoe * 365 + yoe / 4 - yoe / 100 + doy in
  era * 146097 + doe - 719468.

Definition civil_from_days (n : Z) : Date :=
  let z := n + 719468 in
  let era := z / 146097 in
  let doe := z - era * 146097 in
  let yoe := (doe - doe / 1460 + doe / 36524 - doe / 146096) / 365 in
  let doy := doe - (365 * yoe + yoe / 4 - yoe / 100) in
  let mp := (5 * doy + 2) / 153 in
  let d := doy - (153 * mp + 2) / 5 + 1 in
  let m := if mp <? 10 then mp + 3 else mp - 9 in
  mkDate (if m <=? 2 then yoe + era * 400 + 1 else yoe + era * 400) m d.

Definition nanos_per_day : Z := 86400000000000.

(** Nanoseconds since the epoch, the int64 behind a [pd.Timestamp]. *)
Definition epoch_nanos (t : Timestamp) : Z :=
  days_from_civil (ts_date t) * nanos_per_day + ts_nanos t.

Definition of_epoch_nanos (z : Z) : Timestamp :=
  mkTimestamp (civil_from_days (z / nanos_per_day)) (z mod nanos_per_day).

(** A timestamp fits in an int64, whose least value stands for NaT. *)
Definition in_bounds (t : Timestamp) : bool :=
  (I64.min_value <? epoch_nanos t) && (epoch_nanos t <=? I64.max_value).

(** ** Plain readers and printers, to run the script on written-out tables

    Stand-ins for the services of the libraries, exact on the texts and
    numbers of the tables below and used on these only. Readers of
    unsigned decimal integers and of times written [YYYY-MM-DD] or
    [YYYY-MM-DD HH:MM:SS]; they read nothing in the other texts of the
    tables ([abc], [soon]), as the libraries do. A sum that adds from left
    to right: on the small whole numbers of the tables every order of the
    additions gives the same float. A printer that writes a float with all
    its decimals, which is [repr] on a small whole number ([20.0]), and one
    that writes a timestamp to the second. *)

Definition digit_of (a : ascii) : option Z :=
  let n := Z.of_nat (nat_of_ascii a) in
  if (48 <=? n) && (n <=? 57) then Some (n - 48) else None.

Fixpoint digits_value (s : string) (acc : Z) : option Z :=
  match s with
  | EmptyString => Some acc
  | String a t =>
      match digit_of a with
      | Some d => digits_value t (10 * acc + d)
      | None => None
      end
  end.

Definition parse_digits (s : string) : option Z :=
  match s with
  | EmptyString => None
  | _ => digits_value s 0
  end.

Definition parse_decimal (s : string) : spec_float :=
  match parse_digits s with
  | Some z => F64.of_Z z
  | None => F64.nan
  end.

Definition text_at (i n : nat) (s : string) : string := substring i n s.

(** [YYYY-MM-DD], a day of the calendar. *)
Definition parse_day (s : string) : option Date :=
  match parse_digits (text_at 0 4 s), parse_digits (text_at 5 2 s),
        parse_digits (text_at 8 2 s) with
  | Some y, Some mo, Some d =>
      if (String.length s =? 10)%nat
         && String.eqb (text_at 4 1 s) "-" && String.eqb (text_at 7 1 s) "-"
         && valid_date (mkDate y mo d)
      then Some (mkDate y mo d) else None
  | _, _, _ => None
  end.

(** [HH:MM:SS], in nanoseconds since midnight. *)
Definition parse_clock (s : string) : option Z :=
  match parse_digits (text_at 0 2 s), parse_digits (text_at 3 2 s),
        parse_digits (text_at 6 2 s) with
  | Some h, Some mi, Some sec =>
      if (String.length s =? 8)%nat
         && String.eqb (text_at 2 1 s) ":" && String.eqb (text_at 5 1 s) ":"
         && (h <? 24) && (mi <? 60) && (sec <? 60)
      then Some (((h * 60 + mi) * 60 + sec) * 1000000000) else None
  | _, _, _ => None
  end.

(** The two formats [pd.to_datetime] may infer here. *)
Inductive date_format := DayFormat | ClockFormat.

(** A text that is written in the format. *)
Definition read_text (f : date_format) (s : string) : option Timestamp :=
  match f with
  | DayFormat => option_map midnight (parse_day s)
  | ClockFormat =>
      if (String.length s =? 19)%nat && String.eqb (text_at 10 1 s) " " then
        match parse_day (text_at 0 10 s), parse_clock (text_at 11 8 s) with
        | Some d, Some n => Some (mkTimestamp d n)
        | _, _ => None
        end
      else None
  end.

(** What [errors="coerce"] leaves of a cell read in the format. *)
Definition read_as (f : date_format) (c : cell) : option Timestamp :=
  match c with
  | CStr s =>
      match read_text f s with
      | Some t => if in_bounds t then Some t else None
      | None => None
      end
  | _ => None
  end.

Definition guess_format (s : string) : option date_format :=
  match read_text DayFormat s, read_text ClockFormat s with
  | Some _, _ => Some DayFormat
  | None, Some _ => Some ClockFormat
  | None, None => None
  end.

Definition first_present (s : Series) : option cell :=
  List.find (fun c => negb (isna c)) s.

(** A column of texts is read in the format of its first text, each text
    on its own when that has neither format; a column of integers holds
    nanoseconds since the epoch. *)
Definition read_dates (s : Series) (i : nat) : option Timestamp :=
  match nth_error s i, first_present s with
  | Some c, Some (CStr first) =>
      match guess_format first with
      | Some f => read_as f c
      | None =>
          match read_as DayFormat c with
          | Some t => Some t
          | None => read_as ClockFormat c
          end
      end
  | Some (CInt z), Some (CInt _) =>
      if z =? I64.min_value then None else Some (of_epoch_nanos z)
  | _, _ => None
  end.

Definition plain_sum (values : list spec_float) : spec_float :=
  fold_left (fun acc x => if F64.is_nan x then acc else F64.add acc x) values F64.zero.

Fixpoint zeros (k : nat) : string :=
  match k with
  | O => EmptyString
  | S k' => String "0" (zeros k')
  end.

(** The text left-padded with zeros to [k] characters. *)
Definition pad (k : nat) (s : string) : string :=
  (zeros (k - String.length s) ++ s)%string.

Fixpoint strip_zeros (s : string) : string :=
  match s with
  | String a t =>
      match strip_zeros t with
      | EmptyString => if Ascii.eqb a "0" then EmptyString else String a EmptyString
      | t' => String a t'
      end
  | EmptyString => s
  end.

(** [m / 10^k] written with a decimal point. *)
Definition fixed_point (m : Z) (k : nat) : string :=
  let digits := pad (S k) (decimal m) in
  let whole := (String.length digits - k)%nat in
  let fraction := strip_zeros (substring whole k digits) in
  (substring 0 whole digits ++ "."
   ++ match fraction with EmptyString => "0" | _ => fraction end)%string.

(** A finite float [m * 2^e] is the decimal [m * 5^(-e) / 10^(-e)]. *)
Definition print_float (x : spec_float) : string :=
  match x with
  | S754_zero s => if s then "-0.0" else "0.0"
  | S754_infinity s => if s then "-inf" else "inf"
  | S754_nan => "nan"
  | S754_finite s m e =>
      let magnitude :=
        if (0 <=? e)%Z then fixed_point (Z.pos m * 2 ^ e) 0
        else fixed_point (Z.pos m * 5 ^ (- e)) (Z.to_nat (- e)) in
      if s then String "-" magnitude else magnitude
  end.

Definition all_midnight (col : Series) : bool :=
  forallb (fun c => match time_of c with
                    | Some t => ts_nanos t =? 0
                    | None => true
                    end) col.

(** The day alone when every timestamp of the column is a midnight. *)
Definition print_time (col : Series) (t : Timestamp) : string :=
  let d := ts_date t in
  let seconds := ts_nanos t / 1000000000 in
  let day_text :=
    (pad 4 (decimal (year d)) ++ "-" ++ pad 2 (decimal (month d)) ++ "-"
     ++ pad 2 (decimal (day d)))%string in
  if all_midnight col then day_text
  else (day_text ++ " " ++ pad 2 (decimal (seconds / 3600)) ++ ":"
        ++ pad 2 (decimal (seconds / 60 mod 60)) ++ ":"
        ++ pad 2 (decimal (seconds mod 60)))%string.

(** ** The masks, row by row

    The script builds its masks column by column; these are the same
    tests read off one row, in which the properties are stated. *)

Definition Region (df : DataFrame) (r : Row) : cell := cell_at "Region" (columns df) r.
Definition Product (df : DataFrame) (r : Row) : cell := cell_at "Product" (columns df) r.
Definition Price (df : DataFrame) (r : Row) : cell := cell_at "Price" (columns df) r.
Definition Quantity (df : DataFrame) (r : Row) : cell := cell_at "Quantity" (columns df) r.
Definition Revenue (df : DataFrame) (r : Row) : cell := cell_at "Revenue" (columns df) r.
Definition DateOf (df : DataFrame) (r : Row) : cell := cell_at "Date" (columns df) r.

Definition keeps (df : DataFrame) (spec : FilterSpec) (r : Row) : bool :=
  existsb (cell_eqb (Region df r)) (region_filter spec)
  && existsb (cell_eqb (Product df r)) (product_filter spec)
  && (F64.leb (fst (price_range spec)) (num (Price df r))
      && F64.leb (num (Price df r)) (snd (price_range spec)))
  && (F64.leb (fst (qty_range spec)) (num (Quantity df r))
      && F64.leb (num (Quantity df r)) (snd (qty_range spec))).

Definition in_date_range (df : DataFrame) (date_range : Date * Date) (r : Row) : bool :=
  match time_of (DateOf df r) with
  | Some t => ts_leb (midnight (fst date_range)) t && ts_leb t (midnight (snd date_range))
  | None => false
  end.

(** A cell is one of the selected values. *)
Definition selected (c : cell) (values : list cell) : Prop :=
  exists v, In v values /\ cell_eqb c v = true.

(** A numeric cell lies in [[lo, hi]], bounds included. *)
Definition within (lo : spec_float) (c : cell) (hi : spec_float) : Prop :=
  F64.le lo (num c) /\ F64.le (num c) hi.

(** The header after [rename]. *)
Definition renamed_header (raw_df : DataFrame) (m : ColumnMapping) : list string :=
  map (rename_label (rename_dict m)) (columns raw_df).

(** The header of the canonical table (lines 56-71): the renamed header,
    then Revenue, then Date when a date column is mapped, each added at
    the end unless a column already bears the label. *)
Definition canonical_header (raw_df : DataFrame) (m : ColumnMapping) : list string :=
  if has_date m then put_label "Date" (put_label "Revenue" (renamed_header raw_df m))
  else put_label "Revenue" (renamed_header raw_df m).

(** Sums in descending order, the missing ones last: of two sums the
    later one is missing or at most the earlier one. *)
Definition descending (sums : list spec_float) : Prop :=
  StronglySorted (fun x y => F64.is_nan y = true \/ F64.le y x) sums.

(** Timestamps in strictly ascending order. *)
Definition ascending (ts : list Timestamp) : Prop :=
  StronglySorted (fun a b => ts_ltb a b = true) ts.

(** The bytes of a label. *)
Definition bytes (s : string) : list ascii := list_ascii_of_string s.

(** ** Tables written out *)

(** An integer cell, as [read_csv] types a column of integers. *)
Definition whole (z : Z) : cell := CInt z.

(** The two rows of the specification's scenario, as [read_csv] types
    them: Price is text since ["abc"] is no number, Quantity is int64. *)
Definition two_rows : DataFrame :=
  mkFrame ["Region"; "Product"; "Price"; "Quantity"]
    [ [CStr "East"; CStr "Pen"; CStr "2"; whole 10];
      [CStr "West"; CStr "Pen"; CStr "abc"; whole 5] ].

(** Two sales, the later one on 31 January 2024 at half past ten. *)
Definition two_dated_sales : DataFrame :=
  mkFrame ["Region"; "Product"; "Price"; "Quantity"; "When"]
    [ [CStr "East"; CStr "Pen"; whole 2; whole 10; CStr "2024-01-30 09:00:00"];
      [CStr "West"; CStr "Ink"; whole 3; whole 4; CStr "2024-01-31 10:30:00"] ].

Definition late_sale : Row :=
  [CStr "West"; CStr "Ink"; whole 3; whole 4; CStr "2024-01-31 10:30:00"; whole 12;
   CTime (mkTimestamp (mkDate 2024 1 31) 37800000000000)].

Definition map_when : ColumnMapping :=
  mkMapping "Region" "Product" "Price" "Quantity" "When".

(** A table with its columns in another order and one more column. *)
Definition with_notes : DataFrame :=
  mkFrame ["Product"; "Region"; "Price"; "Quantity"; "Notes"]
    [ [CStr "Pen"; CStr "East"; whole 2; whole 10; CStr "paid"];
      [CStr "Ink"; CStr "West"; whole 3; whole 4; CStr "due"] ].

(** A table with two columns that are both called Revenue once the
    header is trimmed. *)
Definition two_revenues : DataFrame :=
  mkFrame ["Region"; "Product"; "Price"; "Quantity"; "Revenue"; " Revenue"]
    [ [CStr "East"; CStr "Pen"; whole 2; whole 10; whole 20; whole 20];
      [CStr "West"; CStr "Ink"; whole 3; whole 4; whole 12; whole 12] ].


(** ** Roles of the column mapping *)

Inductive role := RegionRole | ProductRole | PriceRole | QuantityRole.

(** The position of a role's entry in the dict literal of [rename]. *)
Definition rank (p : role) : nat :=
  match p with
  | RegionRole => 0 | ProductRole => 1 | PriceRole => 2 | QuantityRole => 3
  end%nat.

Definition source (m : ColumnMapping) (p : role) : string :=
  match p with
  | RegionRole => region_col m
  | ProductRole => product_col m
  | PriceRole => price_col m
  | QuantityRole => quantity_col m
  end.

Definition canon (p : role) : string :=
  match p with
  | RegionRole => "Region"
  | ProductRole => "Product"
  | PriceRole => "Price"
  | QuantityRole => "Quantity"
  end.

(** The canonical columns in the order the script first reads them
    (lines 65, 66, 74 and 75). *)
Definition access_order : list string := ["Price"; "Quantity"; "Region"; "Product"].

(** A table that has a Price column already, with a mapping that picks
    column A for Region and for Product, and column B for Price. *)
Definition colliding : DataFrame :=
  mkFrame ["A"; "B"; "C"; "Price"]
    [ [CStr "East"; whole 2; whole 10; whole 3] ].

Definition pick_A_twice : ColumnMapping :=
  mkMapping "A" "A" "B" "C" no_date.

(** The same mapping on a table without that column. *)
Definition plain : DataFrame :=
  mkFrame ["A"; "B"; "C"]
    [ [CStr "East"; whole 2; whole 10] ].

(** The canonical table of [two_rows] and the defaults of its widgets,
    as the script computes them. *)
Definition two_rows_mapping : ColumnMapping := default_mapping (columns two_rows).

Definition two_rows_canonical : DataFrame :=
  Eval vm_compute in
    match prepare parse_decimal read_dates two_rows two_rows_mapping with
    | inr df => df
    | inl _ => mkFrame [] []
    end.

Definition two_rows_defaults : FilterSpec :=
  Eval vm_compute in
    match default_filters two_rows_canonical with
    | inr spec => spec
    | inl _ => mkFilters [] [] (F64.zero, F64.zero) (F64.zero, F64.zero)
    end.

(** The user clears the Region selection. *)
Definition no_region : Widgets :=
  mkWidgets (fun d => mkFilters [] (product_filter d) (price_range d) (qty_range d))
            Some 10%nat.

Definition no_page : Dashboard :=
  mkDashboard (mkFrame [] []) (mkFrame [] []) (mkMetrics F64.nan F64.nan F64.nan F64.nan)
    [] [] [] None.

(** The page of [with_notes], every widget left alone. *)
Definition with_notes_page : Dashboard :=
  Eval vm_compute in
    match dashboard parse_decimal read_dates plain_sum plain_sum with_notes
            (default_mapping (columns with_notes)) untouched with
    | inr d => d
    | inl _ => no_page
    end.

(** ** Rows without gaps *)

(** Region, Product, Price and Quantity are all present in the row. *)
Definition complete (df : DataFrame) (r : Row) : bool :=
  negb (isna (Region df r)) && negb (isna (Product df r))
  && negb (isna (Price df r)) && negb (isna (Quantity df r)).

(** The row has a timestamp under Date. *)
Definition dated (df : DataFrame) (r : Row) : bool :=
  match time_of (DateOf df r) with Some _ => true | None => false end.

(** Three sales, two with a day and one with a date that does not parse,
    and their canonical table with the Date role mapped to [When]. *)
Definition three_sales : DataFrame :=
  mkFrame ["Region"; "Product"; "Price"; "Quantity"; "When"]
    [ [CStr "East"; CStr "Pen"; whole 2; whole 10; CStr "2024-01-05"];
      [CStr "West"; CStr "Ink"; whole 3; whole 4; CStr "soon"];
      [CStr "East"; CStr "Ink"; whole 3; whole 1; CStr "2024-02-01"] ].


Definition three_sales_canonical : DataFrame :=
  Eval vm_compute in
    match prepare parse_decimal read_dates three_sales map_when with
    | inr df => df
    | inl _ => mkFrame [] []
    end.

Definition three_sales_defaults : FilterSpec :=
  Eval vm_compute in
    match default_filters three_sales_canonical with
    | inr spec => spec
    | inl _ => mkFilters [] [] (F64.zero, F64.zero) (F64.zero, F64.zero)
    end.


(** ** Months and groups *)

Definition ts_eqb (a b : Timestamp) : bool :=
  match ts_compare a b with Eq => true | _ => false end.

(** The row has a date in the month that starts at [first_day]. *)
Definition in_month (df : DataFrame) (first_day : Timestamp) (r : Row) : bool :=
  match time_of (DateOf df r) with
  | Some t => ts_eqb (month_start t) first_day
  | None => false
  end.

(** The values of the rows whose key is [k], in order. *)
Definition group_values {K} (same : K -> K -> bool) (k : K) (kvs : list (option K * cell))
    : Series :=
  map snd (List.filter (fun kv : option K * cell =>
                          match fst kv with
                          | Some k' => same k' k
                          | None => false
                          end) kvs).

(** The text held by a text cell. *)
Definition text_of (c : cell) : option string :=
  match c with CStr s => Some s | _ => None end.

(** The rows whose cell under [label] equals [key]. *)
Definition in_group (df : DataFrame) (label : string) (key : cell) (r : Row) : bool :=
  cell_eqb (cell_at label (columns df) r) key.

(** A group keyed by a text. *)
Definition as_text_group (g : string * Series) : cell * Series := (CStr (fst g), snd g).

(** ** The age calculator ([ass2.py], lines 15-18) *)

(** Years of 365 days, months of 30 days and days, from a number of
    days; [//] and [%] by a positive number are [Z.div] and [Z.modulo].
    These lines are reached only past line 7, [dt.date(1947)], a call
    that lacks its month and day. *)
Definition age_breakdown (age : Z) : Z * Z * Z :=
  let year := age / 365 in
  let month := (age mod 365) / 30 in
  let day := (age mod 365) mod 30 in
  (year, month, day).

(** * Properties *)

(** ** float64 comparisons *)

Lemma leb_le (x y : spec_float) : F64.leb x y = true <-> F64.le x y.
Proof.
  unfold F64.leb, SFleb, F64.le.
  destruct (SFcompare x y) as [[ | | ] | ]; split; intros H;
    try reflexivity; try discriminate; auto;
    destruct H as [H | H]; discriminate.
Qed.

Lemma leb_nan_r (x : spec_float) : F64.leb x F64.nan = false.
Proof. destruct x; reflexivity. Qed.

Lemma leb_nan_l (x : spec_float) : F64.leb F64.nan x = false.
Proof. reflexivity. Qed.

Lemma is_nan_true (x : spec_float) : F64.is_nan x = true -> x = F64.nan.
Proof. destruct x; simpl; intros H; try discriminate; reflexivity. Qed.

Lemma isna_num (c : cell) : isna c = true -> num c = F64.nan.
Proof.
  destruct c as [s | z | x | t | ]; simpl; intros H; try discriminate; try reflexivity.
  apply is_nan_true; assumption.
Qed.

(** ** The float of an integer is a number *)

Lemma shr_1_nonneg (mrs : shr_record) : 0 <= shr_m mrs -> 0 <= shr_m (shr_1 mrs).
Proof.
  destruct mrs as [m r s]. simpl. intros H.
  destruct m as [ | [p | p | ] | p]; simpl; lia.
Qed.

Lemma iter_shr_1_nonneg (p : positive) (mrs : shr_record) :
  0 <= shr_m mrs -> 0 <= shr_m (SpecFloat.iter_pos shr_1 p mrs).
Proof.
  revert mrs. induction p as [p IH | p IH | ]; intros mrs H; simpl.
  - apply IH, IH, shr_1_nonneg, H.
  - apply IH, IH, H.
  - apply shr_1_nonneg, H.
Qed.

Lemma shr_nonneg (mrs : shr_record) (e n : Z) :
  0 <= shr_m mrs -> 0 <= shr_m (fst (shr mrs e n)).
Proof.
  intros H. unfold shr. destruct n as [ | p | p]; simpl; [exact H | | exact H].
  apply iter_shr_1_nonneg, H.
Qed.

Lemma shr_fexp_nonneg (m e : Z) (l : location) :
  0 <= m -> 0 <= shr_m (fst (shr_fexp F64.prec F64.emax m e l)).
Proof.
  intros H. unfold shr_fexp. apply shr_nonneg.
  destruct l as [ | [ | | ]]; simpl; exact H.
Qed.

Lemma round_nearest_even_nonneg (m : Z) (l : location) :
  0 <= m -> 0 <= round_nearest_even m l.
Proof.
  intros H. unfold round_nearest_even.
  destruct l as [ | [ | | ]]; try destruct (Z.even m); lia.
Qed.

Lemma binary_round_aux_not_nan (sx : bool) (mx ex : Z) (lx : location) :
  0 <= mx -> F64.is_nan (binary_round_aux F64.prec F64.emax sx mx ex lx) = false.
Proof.
  intros H. unfold binary_round_aux.
  pose proof (shr_fexp_nonneg mx ex lx H) as H1.
  destruct (shr_fexp F64.prec F64.emax mx ex lx) as [mrs' e']. simpl in H1.
  pose proof (shr_fexp_nonneg _ e' loc_Exact
                (round_nearest_even_nonneg _ (loc_of_shr_record mrs') H1)) as H2.
  destruct (shr_fexp F64.prec F64.emax _ e' loc_Exact) as [mrs'' e'']. simpl in H2.
  destruct (shr_m mrs'') as [ | m | m]; [reflexivity | | lia].
  destruct (e'' <=? F64.emax - F64.prec); reflexivity.
Qed.

Lemma of_Z_not_nan (z : Z) : F64.is_nan (F64.of_Z z) = false.
Proof.
  unfold F64.of_Z, binary_normalize. destruct z as [ | m | m]; [reflexivity | | ];
    unfold binary_round;
    destruct (shl_align m 0 _) as [mz ez]; apply binary_round_aux_not_nan; lia.
Qed.

(** A cell of a numeric column that is not missing holds a number. *)
Lemma number_present (c : cell) :
  is_number c = true -> isna c = false -> F64.is_nan (num c) = false.
Proof.
  destruct c as [s | z | x | t | ]; simpl; try discriminate; intros _ H.
  - apply of_Z_not_nan.
  - exact H.
Qed.

(** What is missing for [pd.isna] is missing as a number. *)
Lemma num_present (c : cell) : F64.is_nan (num c) = false -> isna c = false.
Proof.
  destruct c as [s | z | x | t | ]; simpl; try discriminate; auto.
Qed.

(** ** Lists, masks and rows *)

Lemma map2_map {A B C D} (f : B -> C -> D) (g : A -> B) (h : A -> C) (l : list A) :
  map2 f (map g l) (map h l) = map (fun x => f (g x) (h x)) l.
Proof.
  induction l as [ | x l IH]; simpl; [reflexivity | ].
  rewrite IH; reflexivity.
Qed.

Lemma map2_map_r {A B C} (f : A -> B -> C) (g : A -> B) (l : list A) :
  map2 f l (map g l) = map (fun x => f x (g x)) l.
Proof.
  rewrite <- (map_id l) at 1. apply map2_map.
Qed.

Lemma boolean_index_map (df : DataFrame) (f : Row -> bool) :
  rows (boolean_index df (map f (rows df))) = List.filter f (rows df).
Proof.
  unfold boolean_index; simpl.
  induction (rows df) as [ | r l IH]; simpl; [reflexivity | ].
  destruct (f r); simpl; rewrite IH; reflexivity.
Qed.

Lemma filter_sublist {A} (f : A -> bool) (l : list A) :
  sublist (List.filter f l) l.
Proof.
  induction l as [ | x l IH]; simpl.
  - constructor.
  - destruct (f x); [apply sublist_skip | apply sublist_cons]; exact IH.
Qed.

Lemma apply_filters_rows (df : DataFrame) (spec : FilterSpec) :
  rows (apply_filters df spec) = List.filter (keeps df spec) (rows df).
Proof.
  unfold apply_filters, mask_and, isin, between, column.
  rewrite !map_map, !map2_map.
  apply boolean_index_map.
Qed.

Lemma existsb_selected (c : cell) (values : list cell) :
  existsb (cell_eqb c) values = true <-> selected c values.
Proof. unfold selected. apply existsb_exists. Qed.

Lemma keeps_spec (df : DataFrame) (spec : FilterSpec) (r : Row) :
  keeps df spec r = true <->
  selected (Region df r) (region_filter spec)
  /\ selected (Product df r) (product_filter spec)
  /\ within (fst (price_range spec)) (Price df r) (snd (price_range spec))
  /\ within (fst (qty_range spec)) (Quantity df r) (snd (qty_range spec)).
Proof.
  unfold keeps, within.
  rewrite !andb_true_iff, !existsb_selected, !leb_le. tauto.
Qed.

(** On text, being selected is being listed. *)
Lemma selected_text (s : string) (values : list cell) :
  selected (CStr s) values <-> In (CStr s) values.
Proof.
  unfold selected; split.
  - intros [v [Hin Heq]]. destruct v as [t | z | x | t | ]; simpl in Heq; try discriminate.
    apply String.eqb_eq in Heq. subst t. exact Hin.
  - intros Hin. exists (CStr s). split; [exact Hin | ]. simpl. apply String.eqb_refl.
Qed.

(** A row that passes the filters has its Price and its Quantity. *)
Lemma keeps_not_missing (df : DataFrame) (spec : FilterSpec) (r : Row) :
  keeps df spec r = true ->
  isna (Price df r) = false /\ isna (Quantity df r) = false.
Proof.
  unfold keeps. rewrite !andb_true_iff. intros [[[_ _] [Hp _]] [Hq _]].
  split.
  - destruct (isna (Price df r)) eqn:E; [ | reflexivity].
    apply isna_num in E. rewrite E, leb_nan_r in Hp. discriminate.
  - destruct (isna (Quantity df r)) eqn:E; [ | reflexivity].
    apply isna_num in E. rewrite E, leb_nan_r in Hq. discriminate.
Qed.

(** So the data-quality table, computed on the filtered table, never
    counts a missing Price or Quantity. *)
Lemma filtered_price_never_missing (df : DataFrame) (spec : FilterSpec) :
  missing_of (apply_filters df spec) "Price" = 0%nat
  /\ missing_of (apply_filters df spec) "Quantity" = 0%nat.
Proof.
  unfold missing_of, count_missing, column.
  change (columns (apply_filters df spec)) with (columns df).
  rewrite apply_filters_rows.
  induction (rows df) as [ | r l [IHp IHq]]; simpl; [auto | ].
  destruct (keeps df spec r) eqn:K; simpl; [ | auto].
  destruct (keeps_not_missing _ _ _ K) as [Hp Hq].
  unfold Price in Hp. unfold Quantity in Hq. rewrite Hp, Hq. auto.
Qed.

(** C1. The categorical and numeric filters keep a subsequence of the
    rows, in their order: exactly the rows whose Region and Product are
    among the selected values and whose Price and Quantity lie between
    the bounds, bounds included. A row whose Price or Quantity is missing
    is never kept, whatever the bounds. *)
Theorem filter_engine_keeps_matching_rows (df : DataFrame) (spec : FilterSpec) :
  columns (apply_filters df spec) = columns df
  /\ sublist (rows (apply_filters df spec)) (rows df)
  /\ rows (apply_filters df spec) = List.filter (keeps df spec) (rows df)
  /\ (forall r,
        In r (rows (apply_filters df spec)) <->
        In r (rows df)
        /\ selected (Region df r) (region_filter spec)
        /\ selected (Product df r) (product_filter spec)
        /\ within (fst (price_range spec)) (Price df r) (snd (price_range spec))
        /\ within (fst (qty_range spec)) (Quantity df r) (snd (qty_range spec)))
  /\ (forall r,
        isna (Price df r) = true \/ isna (Quantity df r) = true ->
        ~ In r (rows (apply_filters df spec))).
Proof.
  rewrite apply_filters_rows.
  split; [reflexivity | ].
  split; [apply filter_sublist | ].
  split; [reflexivity | ].
  split.
  - intros r. rewrite filter_In, keeps_spec. tauto.
  - intros r Hna Hin. apply filter_In in Hin. destruct Hin as [_ Hk].
    destruct (keeps_not_missing _ _ _ Hk) as [Hp Hq].
    destruct Hna as [Hna | Hna]; congruence.
Qed.

(** ** Reading and writing columns *)

Lemma has_label_count (n : string) (cols : list string) :
  has_label n cols = negb (Nat.eqb (count_label n cols) 0).
Proof.
  unfold has_label, count_label.
  induction cols as [ | c cols IH]; simpl; [reflexivity | ].
  destruct (String.eqb n c); simpl; [reflexivity | exact IH].
Qed.

Lemma count_label_put_other (n n' : string) (cols : list string) :
  n' <> n -> count_label n' (put_label n cols) = count_label n' cols.
Proof.
  intros Hne. unfold put_label, count_label.
  destruct (has_label n cols); [reflexivity | ].
  rewrite List.filter_app, length_app; simpl.
  destruct (String.eqb n' n) eqn:E; simpl; [ | lia].
  apply String.eqb_eq in E. contradiction.
Qed.

Lemma length_put_cell (n : string) (cols : list string) (r : Row) (v : cell) :
  length r = length cols ->
  length (put_cell n cols r v) = length (put_label n cols).
Proof.
  intros Hlen. unfold put_cell, put_label, set_cell.
  destruct (has_label n cols).
  - rewrite length_map, length_combine. lia.
  - rewrite !length_app; simpl. lia.
Qed.

Lemma cell_at_set_same (n : string) (cols : list string) (r : Row) (v : cell) :
  length r = length cols -> has_label n cols = true ->
  cell_at n cols (set_cell n cols r v) = v.
Proof.
  revert r. induction cols as [ | c cols IH]; intros r Hlen Hhas.
  - discriminate.
  - destruct r as [ | x r]; [discriminate | ].
    unfold set_cell; simpl. destruct (String.eqb c n) eqn:E; [reflexivity | ].
    apply IH; [simpl in Hlen; lia | ].
    unfold has_label in Hhas; simpl in Hhas.
    rewrite String.eqb_sym, E in Hhas. exact Hhas.
Qed.

Lemma cell_at_set_other (n n' : string) (cols : list string) (r : Row) (v : cell) :
  n' <> n -> cell_at n' cols (set_cell n cols r v) = cell_at n' cols r.
Proof.
  intros Hne. revert r. induction cols as [ | c cols IH]; intros r.
  - reflexivity.
  - destruct r as [ | x r]; [reflexivity | ].
    unfold set_cell; simpl. destruct (String.eqb c n') eqn:E'.
    + apply String.eqb_eq in E'. subst c.
      destruct (String.eqb n' n) eqn:E; [ | reflexivity].
      apply String.eqb_eq in E. contradiction.
    + apply IH.
Qed.

Lemma cell_at_app_same (n : string) (cols : list string) (r : Row) (v : cell) :
  length r = length cols -> has_label n cols = false ->
  cell_at n (cols ++ [n]) (r ++ [v]) = v.
Proof.
  revert r. induction cols as [ | c cols IH]; intros r Hlen Hhas.
  - destruct r; [ | discriminate]. simpl. rewrite String.eqb_refl. reflexivity.
  - destruct r as [ | x r]; [discriminate | ].
    unfold has_label in Hhas; simpl in Hhas. apply orb_false_iff in Hhas.
    destruct Hhas as [E Hhas]. simpl. rewrite String.eqb_sym, E.
    apply IH; [simpl in Hlen; lia | exact Hhas].
Qed.

Lemma cell_at_app_other (n n' : string) (cols : list string) (r : Row) (v : cell) :
  n' <> n -> length r = length cols ->
  cell_at n' (cols ++ [n]) (r ++ [v]) = cell_at n' cols r.
Proof.
  intros Hne. revert r. induction cols as [ | c cols IH]; intros r Hlen.
  - destruct r; [ | discriminate]. simpl.
    destruct (String.eqb n n') eqn:E; [ | reflexivity].
    apply String.eqb_eq in E. subst n'. contradiction.
  - destruct r as [ | x r]; [discriminate | ].
    simpl. destruct (String.eqb c n'); [reflexivity | ].
    apply IH. simpl in Hlen; lia.
Qed.

Lemma cell_at_put_same (n : string) (cols : list string) (r : Row) (v : cell) :
  length r = length cols ->
  cell_at n (put_label n cols) (put_cell n cols r v) = v.
Proof.
  intros Hlen. unfold put_label, put_cell.
  destruct (has_label n cols) eqn:Hhas.
  - apply cell_at_set_same; assumption.
  - apply cell_at_app_same; assumption.
Qed.

Lemma cell_at_put_other (n n' : string) (cols : list string) (r : Row) (v : cell) :
  n' <> n -> length r = length cols ->
  cell_at n' (put_label n cols) (put_cell n cols r v) = cell_at n' cols r.
Proof.
  intros Hne Hlen. unfold put_label, put_cell.
  destruct (has_label n cols).
  - apply cell_at_set_other; assumption.
  - apply cell_at_app_other; assumption.
Qed.

Lemma in_map2 {A B C} (f : A -> B -> C) (l : list A) (k : list B) (z : C) :
  In z (map2 f l k) -> exists x y, In x l /\ In y k /\ z = f x y.
Proof.
  revert k. induction l as [ | a l IH]; intros k Hin; [contradiction | ].
  destruct k as [ | b k]; [contradiction | ].
  simpl in Hin. destruct Hin as [Hz | Hin].
  - exists a, b. simpl. auto.
  - destruct (IH k Hin) as [x [y [Hx [Hy Hz]]]]. exists x, y. simpl. auto.
Qed.

Lemma length_map2 {A B C} (f : A -> B -> C) (l : list A) (k : list B) :
  length l = length k -> length (map2 f l k) = length l.
Proof.
  revert k. induction l as [ | a l IH]; intros k Hlen; [reflexivity | ].
  destruct k as [ | b k]; [discriminate | ].
  simpl. f_equal. apply IH. simpl in Hlen. lia.
Qed.

(** Writing a column changes that column only, in every row. *)
Lemma setitem_rows (df : DataFrame) (n : string) (s : Series) (r' : Row) :
  rectangular df ->
  In r' (rows (setitem df n s)) ->
  exists r v,
    In r (rows df) /\ In v s
    /\ length r' = length (columns (setitem df n s))
    /\ cell_at n (columns (setitem df n s)) r' = v
    /\ forall n', n' <> n ->
         cell_at n' (columns (setitem df n s)) r' = cell_at n' (columns df) r.
Proof.
  intros Hrect Hin. simpl in Hin.
  apply in_map2 in Hin. destruct Hin as [r [v [Hr [Hv Heq]]]].
  exists r, v. subst r'. simpl.
  assert (Hlen : length r = length (columns df)).
  { unfold rectangular in Hrect. rewrite List.Forall_forall in Hrect. apply Hrect, Hr. }
  split; [exact Hr | ]. split; [exact Hv | ].
  split; [apply length_put_cell; exact Hlen | ].
  split; [apply cell_at_put_same; exact Hlen | ].
  intros n' Hne. apply cell_at_put_other; assumption.
Qed.

(** The same when the values written are computed from the rows. *)
Lemma setitem_map_rows (df : DataFrame) (n : string) (f : Row -> cell) (r' : Row) :
  rectangular df ->
  In r' (rows (setitem df n (map f (rows df)))) ->
  exists r,
    In r (rows df)
    /\ cell_at n (columns (setitem df n (map f (rows df)))) r' = f r
    /\ forall n', n' <> n ->
         cell_at n' (columns (setitem df n (map f (rows df)))) r'
         = cell_at n' (columns df) r.
Proof.
  intros Hrect Hin. simpl in Hin. rewrite map2_map_r in Hin.
  apply in_map_iff in Hin. destruct Hin as [r [Heq Hr]].
  exists r. subst r'. simpl.
  assert (Hlen : length r = length (columns df)).
  { unfold rectangular in Hrect. rewrite List.Forall_forall in Hrect. apply Hrect, Hr. }
  split; [exact Hr | ].
  split; [apply cell_at_put_same; exact Hlen | ].
  intros n' Hne. apply cell_at_put_other; assumption.
Qed.

Lemma rectangular_setitem (df : DataFrame) (n : string) (s : Series) :
  rectangular df -> rectangular (setitem df n s).
Proof.
  intros Hrect. unfold rectangular. rewrite List.Forall_forall. intros r' Hin.
  destruct (setitem_rows df n s r' Hrect Hin) as [r [v [_ [_ [Hlen _]]]]].
  exact Hlen.
Qed.

Lemma rectangular_rename (df : DataFrame) (d : gmap string string) :
  rectangular df -> rectangular (rename df d).
Proof.
  unfold rectangular; simpl. rewrite length_map. trivial.
Qed.

Lemma rectangular_boolean_index (df : DataFrame) (mask : list bool) :
  rectangular df -> rectangular (boolean_index df mask).
Proof.
  unfold rectangular; simpl. rewrite !List.Forall_forall.
  intros Hrect r Hin. apply in_map_iff in Hin.
  destruct Hin as [[r0 b] [Heq Hin]]. simpl in Heq. subst r0.
  apply List.filter_In in Hin. destruct Hin as [Hin _].
  apply in_combine_l in Hin. apply Hrect, Hin.
Qed.

Lemma getitem_inr (df : DataFrame) (n : string) (sel : selection) :
  getitem df n = inr sel ->
  (count_label n (columns df) = 1%nat /\ sel = OneColumn (column df n))
  \/ (exists k, count_label n (columns df) = S (S k) /\ sel = SubFrame (S (S k))).
Proof.
  unfold getitem. destruct (count_label n (columns df)) as [ | [ | k]];
    intros H; inversion H; subst; eauto.
Qed.

(** ** The canonical table *)



Section Canonical.

Variable str_to_float : string -> spec_float.
Variable to_timestamp : Series -> nat -> option Timestamp.

Lemma to_numeric_number (c : cell) : is_number (to_numeric str_to_float c) = true.
Proof. destruct c; reflexivity. Qed.

Lemma put_label_present (n : string) (cols : list string) :
  count_label n cols = 1%nat -> put_label n cols = cols.
Proof.
  intros H. unfold put_label. rewrite has_label_count, H. reflexivity.
Qed.

(** When [prepare] succeeds, Price and Quantity were each borne by one
    renamed column, the header is the canonical one, and on a rectangular
    table every row holds numbers under Price and Quantity and their
    product under Revenue. *)
Lemma prepare_inr (raw_df : DataFrame) (m : ColumnMapping) (df : DataFrame) :
  prepare str_to_float to_timestamp raw_df m = inr df ->
  count_label "Price" (map (rename_label (rename_dict m)) (columns raw_df)) = 1%nat
  /\ count_label "Quantity" (map (rename_label (rename_dict m)) (columns raw_df)) = 1%nat
  /\ columns df = canonical_header raw_df m
  /\ (rectangular raw_df ->
      rectangular df
      /\ forall r, In r (rows df) ->
           is_number (Price df r) = true /\ is_number (Quantity df r) = true
           /\ Revenue df r = cell_mul (Price df r) (Quantity df r)).
Proof.
  intros H. unfold prepare in H.
  set (df0 := rename raw_df (rename_dict m)) in *.
  destruct (getitem df0 "Price") as [e | sel] eqn:G1; [discriminate | ].
  apply getitem_inr in G1. destruct G1 as [[C1 ->] | [k [_ ->]]]; [ | discriminate].
  unfold bind at 1 2 in H. unfold safe_numeric at 1 in H.
  set (df1 := setitem df0 "Price" (map (to_numeric str_to_float) (column df0 "Price"))) in *.
  destruct (getitem df1 "Quantity") as [e | sel] eqn:G2; [discriminate | ].
  apply getitem_inr in G2. destruct G2 as [[C2 ->] | [k [_ ->]]]; [ | discriminate].
  unfold bind at 1 2 in H. unfold safe_numeric at 1 in H.
  set (df2 := setitem df1 "Quantity" (map (to_numeric str_to_float) (column df1 "Quantity"))) in *.
  set (df3 := setitem df2 "Revenue"
                (series_mul (column df2 "Price") (column df2 "Quantity"))) in *.
  assert (E1 : columns df1 = columns df0) by (apply put_label_present; exact C1).
  assert (E2 : columns df2 = columns df0).
  { change (columns df2) with (put_label "Quantity" (columns df1)).
    rewrite (put_label_present _ _ C2). exact E1. }
  rewrite E1 in C2.
  assert (Hhdr : columns df3 = put_label "Revenue" (columns df0)).
  { change (columns df3) with (put_label "Revenue" (columns df2)).
    rewrite E2. reflexivity. }
  assert (Hcols : columns df = canonical_header raw_df m).
  { unfold canonical_header. destruct (has_date m).
    - destruct (getitem raw_df (date_col m)) as [e | sel]; [discriminate | ].
      unfold bind in H. destruct (to_datetime to_timestamp sel) as [e | dates]; [discriminate | ].
      inversion H; subst df.
      change (columns (setitem df3 "Date" dates)) with (put_label "Date" (columns df3)).
      rewrite Hhdr. reflexivity.
    - inversion H; subst df. exact Hhdr. }
  split; [exact C1 | ]. split; [exact C2 | ]. split; [exact Hcols | ].
  intros Hrect.
  assert (R0 : rectangular df0) by (apply rectangular_rename; exact Hrect).
  assert (R1 : rectangular df1) by (apply rectangular_setitem; exact R0).
  assert (R2 : rectangular df2) by (apply rectangular_setitem; exact R1).
  assert (R3 : rectangular df3) by (apply rectangular_setitem; exact R2).
  assert (F1 : forall r, In r (rows df1) ->
                 is_number (cell_at "Price" (columns df1) r) = true).
  { intros r Hin. unfold df1, column in Hin |- *. rewrite map_map in Hin |- *.
    destruct (setitem_map_rows _ _ _ _ R0 Hin) as [r0 [_ [Hv _]]].
    rewrite Hv. apply to_numeric_number. }
  assert (F2 : forall r, In r (rows df2) ->
                 is_number (cell_at "Price" (columns df2) r) = true
                 /\ is_number (cell_at "Quantity" (columns df2) r) = true).
  { intros r Hin. unfold df2, column in Hin |- *. rewrite map_map in Hin |- *.
    destruct (setitem_map_rows _ _ _ _ R1 Hin) as [r1 [Hr1 [Hv Ho]]].
    split.
    - rewrite Ho by discriminate. apply F1, Hr1.
    - rewrite Hv. apply to_numeric_number. }
  assert (F3 : forall r, In r (rows df3) ->
                 is_number (cell_at "Price" (columns df3) r) = true
                 /\ is_number (cell_at "Quantity" (columns df3) r) = true
                 /\ cell_at "Revenue" (columns df3) r
                    = cell_mul (cell_at "Price" (columns df3) r)
                               (cell_at "Quantity" (columns df3) r)).
  { intros r Hin. unfold df3, series_mul, column in Hin |- *.
    rewrite map2_map in Hin |- *.
    destruct (setitem_map_rows _ _ _ _ R2 Hin) as [r2 [Hr2 [Hv Ho]]].
    destruct (F2 r2 Hr2) as [Hp Hq].
    rewrite !Ho by discriminate. rewrite Hv. auto. }
  destruct (has_date m).
  - destruct (getitem raw_df (date_col m)) as [e | sel]; [discriminate | ].
    unfold bind in H. destruct (to_datetime to_timestamp sel) as [e | dates]; [discriminate | ].
    inversion H; subst df. split; [apply rectangular_setitem; exact R3 | ].
    intros r Hin. destruct (setitem_rows _ _ _ _ R3 Hin) as [r3 [v [Hr3 [_ [_ [_ Ho]]]]]].
    unfold Price, Quantity, Revenue.
    rewrite !Ho by discriminate. apply F3, Hr3.
  - inversion H; subst df. split; [exact R3 | ].
    intros r Hin. apply F3, Hin.
Qed.


End Canonical.

(** ** The order of float64 *)

Ltac compare_cases :=
  change (Pos.compare_cont Eq) with Pos.compare in *;
  repeat match goal with
         | |- context [Z.compare ?a ?b] => destruct (Z.compare_spec a b); try lia
         | |- context [Pos.compare ?a ?b] => destruct (Pos.compare_spec a b); try lia
         end.

Ltac float_cases x :=
  let s := fresh "s" in
  destruct x as [s | s | | s ? ?]; try destruct s.

Lemma leb_total (x y : spec_float) :
  F64.is_nan x = false -> F64.is_nan y = false ->
  F64.leb x y = false -> F64.leb y x = true.
Proof.
  unfold F64.leb, SFleb.
  float_cases x; float_cases y; simpl; try discriminate; try reflexivity;
    intros _ _; compare_cases; simpl; congruence.
Qed.

Lemma leb_trans (x y z : spec_float) :
  F64.leb x y = true -> F64.leb y z = true -> F64.leb x z = true.
Proof.
  unfold F64.leb, SFleb.
  float_cases x; float_cases y; simpl; try discriminate;
    float_cases z; simpl; try discriminate; try reflexivity;
    compare_cases; simpl; congruence.
Qed.

Lemma leb_refl (x : spec_float) : F64.is_nan x = false -> F64.leb x x = true.
Proof.
  unfold F64.leb, SFleb. float_cases x; simpl; try discriminate; try reflexivity;
    intros _; rewrite Z.compare_refl; change (Pos.compare_cont Eq) with Pos.compare;
    rewrite Pos.compare_refl; reflexivity.
Qed.

Lemma eqb_refl (x : spec_float) : F64.is_nan x = false -> F64.eqb x x = true.
Proof.
  unfold F64.eqb, SFeqb. float_cases x; simpl; try discriminate; try reflexivity;
    intros _; rewrite Z.compare_refl; change (Pos.compare_cont Eq) with Pos.compare;
    rewrite Pos.compare_refl; reflexivity.
Qed.

Lemma ltb_leb (x y : spec_float) : F64.ltb x y = true -> F64.leb x y = true.
Proof.
  unfold F64.ltb, SFltb, F64.leb, SFleb.
  destruct (SFcompare x y) as [[ | | ] | ]; intros H; try discriminate; reflexivity.
Qed.

Lemma eqb_leb (x y : spec_float) : F64.eqb x y = true -> F64.leb x y = true.
Proof.
  unfold F64.eqb, SFeqb, F64.leb, SFleb.
  destruct (SFcompare x y) as [[ | | ] | ]; intros H; try discriminate; reflexivity.
Qed.

Lemma ltb_false_leb (x y : spec_float) :
  F64.is_nan x = false -> F64.is_nan y = false ->
  F64.ltb x y = false -> F64.leb y x = true.
Proof.
  intros Nx Ny H. destruct (F64.leb x y) eqn:E.
  - unfold F64.ltb, SFltb in H. unfold F64.leb, SFleb in E |- *.
    revert H E.
    float_cases x; float_cases y; simpl in *; try discriminate; try reflexivity;
      compare_cases; simpl; congruence.
  - apply leb_total; assumption.
Qed.

Lemma leb_not_nan (x y : spec_float) :
  F64.leb x y = true -> F64.is_nan x = false /\ F64.is_nan y = false.
Proof.
  destruct x, y; simpl; intros H; try discriminate; auto.
Qed.

Lemma eqb_not_nan (x y : spec_float) :
  F64.eqb x y = true -> F64.is_nan x = false /\ F64.is_nan y = false.
Proof.
  destruct x, y; simpl; intros H; try discriminate; auto.
Qed.

Lemma ltb_not_nan (x y : spec_float) :
  F64.ltb x y = true -> F64.is_nan x = false /\ F64.is_nan y = false.
Proof.
  destruct x, y; simpl; intros H; try discriminate; auto.
Qed.

Lemma ltb_irrefl (x : spec_float) : F64.ltb x x = false.
Proof.
  unfold F64.ltb, SFltb. float_cases x; simpl; try reflexivity;
    rewrite Z.compare_refl; change (Pos.compare_cont Eq) with Pos.compare;
    rewrite Pos.compare_refl; reflexivity.
Qed.

Lemma ltb_trans (x y z : spec_float) :
  F64.ltb x y = true -> F64.ltb y z = true -> F64.ltb x z = true.
Proof.
  unfold F64.ltb, SFltb.
  float_cases x; float_cases y; simpl; try discriminate;
    float_cases z; simpl; try discriminate; try reflexivity;
    compare_cases; simpl; congruence.
Qed.

Lemma eqb_sym (x y : spec_float) : F64.eqb x y = F64.eqb y x.
Proof.
  unfold F64.eqb, SFeqb.
  float_cases x; float_cases y; simpl; try reflexivity;
    compare_cases; simpl; congruence.
Qed.

Lemma eqb_trans (x y z : spec_float) :
  F64.eqb x y = true -> F64.eqb y z = true -> F64.eqb x z = true.
Proof.
  unfold F64.eqb, SFeqb.
  float_cases x; float_cases y; simpl; try discriminate;
    float_cases z; simpl; try discriminate; try reflexivity;
    compare_cases; simpl; congruence.
Qed.

Lemma ltb_eqb_trans (x y z : spec_float) :
  F64.ltb x y = true -> F64.eqb y z = true -> F64.ltb x z = true.
Proof.
  unfold F64.ltb, SFltb, F64.eqb, SFeqb.
  float_cases x; float_cases y; simpl; try discriminate;
    float_cases z; simpl; try discriminate; try reflexivity;
    compare_cases; simpl; congruence.
Qed.

Lemma eqb_ltb_trans (x y z : spec_float) :
  F64.eqb x y = true -> F64.ltb y z = true -> F64.ltb x z = true.
Proof.
  unfold F64.ltb, SFltb, F64.eqb, SFeqb.
  float_cases x; float_cases y; simpl; try discriminate;
    float_cases z; simpl; try discriminate; try reflexivity;
    compare_cases; simpl; congruence.
Qed.

(** Two floats neither of which is below the other are equal. *)
Lemma not_ltb_eqb (x y : spec_float) :
  F64.is_nan x = false -> F64.is_nan y = false ->
  F64.ltb x y = false -> F64.ltb y x = false -> F64.eqb x y = true.
Proof.
  unfold F64.ltb, SFltb, F64.eqb, SFeqb.
  float_cases x; float_cases y; simpl; try discriminate; try reflexivity;
    intros _ _; compare_cases; simpl; congruence.
Qed.

(** ** The order of a sorted column of sums *)

Lemma desc_cells_total (x y : cell) :
  desc_cells x y = false -> desc_cells y x = true.
Proof.
  unfold desc_cells. intros H.
  apply orb_false_iff in H. destruct H as [H H3].
  apply orb_false_iff in H. destruct H as [Ny H2].
  destruct (F64.is_nan (num x)) eqn:Nx; [reflexivity | ].
  destruct (F64.ltb (num x) (num y)) eqn:L; [reflexivity | ]. simpl.
  pose proof (not_ltb_eqb _ _ Nx Ny L H2) as E. rewrite E. simpl.
  rewrite eqb_sym, E in H3. simpl in H3. lia.
Qed.

Lemma desc_cells_trans (x y z : cell) :
  desc_cells x y = true -> desc_cells y z = true -> desc_cells x z = true.
Proof.
  unfold desc_cells. intros Hxy Hyz.
  destruct (F64.is_nan (num z)) eqn:Nz; [reflexivity | ]. simpl in *.
  assert (Ny : F64.is_nan (num y) = false).
  { apply orb_true_iff in Hyz. destruct Hyz as [L | E].
    - apply ltb_not_nan in L. tauto.
    - apply andb_true_iff in E. destruct E as [E _]. apply eqb_not_nan in E. tauto. }
  rewrite Ny in Hxy. simpl in Hxy.
  apply orb_true_iff in Hxy. apply orb_true_iff in Hyz. apply orb_true_iff.
  destruct Hyz as [L1 | E1], Hxy as [L2 | E2].
  - left. apply (ltb_trans _ _ _ L1 L2).
  - left. apply andb_true_iff in E2. destruct E2 as [E2 _].
    apply (ltb_eqb_trans _ _ _ L1 E2).
  - left. apply andb_true_iff in E1. destruct E1 as [E1 _].
    apply (eqb_ltb_trans _ _ _ E1 L2).
  - right. apply andb_true_iff in E1. apply andb_true_iff in E2.
    destruct E1 as [E1 T1], E2 as [E2 T2].
    rewrite (eqb_trans _ _ _ E1 E2). simpl. lia.
Qed.

(** Seen as floats, the later of two sums is missing or at most the
    earlier one. *)
Lemma desc_cells_spec (x y : cell) :
  desc_cells x y = true -> F64.is_nan (num y) = true \/ F64.le (num y) (num x).
Proof.
  unfold desc_cells. intros H.
  apply orb_true_iff in H. destruct H as [H | H].
  - apply orb_true_iff in H. destruct H as [H | H]; [left; exact H | ].
    right. apply leb_le, ltb_leb, H.
  - apply andb_true_iff in H. destruct H as [H _]. right. apply leb_le, eqb_leb, H.
Qed.

(** On integers the order is the order of the integers. *)
Lemma desc_cells_int (a b : Z) :
  desc_cells (CInt a) (CInt b) = true -> F64.eqb (F64.of_Z b) (F64.of_Z a) = true -> b <= a.
Proof.
  unfold desc_cells. simpl. intros H E.
  rewrite of_Z_not_nan in H. simpl in H. rewrite E in H.
  apply orb_true_iff in H. destruct H as [H | H]; [ | simpl in H; lia].
  exfalso. assert (F : F64.ltb (F64.of_Z b) (F64.of_Z b) = true).
  { apply (ltb_eqb_trans _ _ _ H). rewrite eqb_sym. exact E. }
  rewrite ltb_irrefl in F. discriminate.
Qed.

(** ** Sorting *)

Section Sorting.

Context {A : Type} (precedes : A -> A -> bool).
Hypothesis precedes_total : forall x y, precedes x y = false -> precedes y x = true.
Hypothesis precedes_trans :
  forall x y z, precedes x y = true -> precedes y z = true -> precedes x z = true.

Let ordered (x y : A) : Prop := precedes x y = true.

Lemma insert_by_perm (x : A) (l : list A) :
  Permutation (insert_by precedes x l) (x :: l).
Proof.
  induction l as [ | y t IH]; simpl; [reflexivity | ].
  destruct (precedes x y); [reflexivity | ].
  rewrite IH. apply perm_swap.
Qed.

Lemma sort_by_perm (l : list A) : Permutation (sort_by precedes l) l.
Proof.
  induction l as [ | x l IH]; simpl; [reflexivity | ].
  rewrite insert_by_perm, IH. reflexivity.
Qed.

Lemma insert_by_sorted (x : A) (l : list A) :
  StronglySorted ordered l -> StronglySorted ordered (insert_by precedes x l).
Proof.
  induction l as [ | y t IH]; intros Hs; simpl.
  - constructor; constructor.
  - inversion Hs as [ | ? ? Ht Hy]; subst.
    destruct (precedes x y) eqn:E.
    + constructor; [exact Hs | ]. constructor; [exact E | ].
      rewrite List.Forall_forall in Hy |- *. intros z Hz.
      apply (precedes_trans x y z); [exact E | apply Hy, Hz].
    + constructor; [apply IH, Ht | ].
      rewrite List.Forall_forall in Hy |- *. intros z Hz.
      apply (Permutation_in _ (insert_by_perm x t)) in Hz.
      destruct Hz as [<- | Hz]; [apply precedes_total, E | apply Hy, Hz].
Qed.

Lemma sort_by_sorted (l : list A) : StronglySorted ordered (sort_by precedes l).
Proof.
  induction l as [ | x l IH]; simpl; [constructor | ].
  apply insert_by_sorted, IH.
Qed.

End Sorting.

Lemma StronglySorted_firstn {A} (R : A -> A -> Prop) (n : nat) (l : list A) :
  StronglySorted R l -> StronglySorted R (firstn n l).
Proof.
  revert n. induction l as [ | x l IH]; intros n Hs.
  - rewrite firstn_nil. constructor.
  - destruct n as [ | n]; simpl; [constructor | ].
    inversion Hs as [ | ? ? Hl Hx]; subst.
    constructor; [apply IH, Hl | ].
    apply Forall_take, Hx.
Qed.

Lemma StronglySorted_map {A B} (f : A -> B) (R : B -> B -> Prop) (l : list A) :
  StronglySorted (fun a b => R (f a) (f b)) l -> StronglySorted R (map f l).
Proof.
  induction 1 as [ | x l Hl IH Hx]; simpl; constructor; [exact IH | ].
  rewrite List.Forall_forall in Hx |- *. intros z Hz.
  apply in_map_iff in Hz. destruct Hz as [a [<- Ha]]. apply Hx, Ha.
Qed.

Lemma StronglySorted_weaken {A} (R S : A -> A -> Prop) (l : list A) :
  (forall x y, R x y -> S x y) -> StronglySorted R l -> StronglySorted S l.
Proof.
  intros HRS. induction 1 as [ | x l Hl IH Hx]; constructor; [exact IH | ].
  eapply List.Forall_impl; [ | exact Hx]. intros y. apply HRS.
Qed.

Lemma sort_values_desc_sorted {K} (groups : list (K * cell)) :
  StronglySorted (fun a b : K * cell => desc_cells (snd a) (snd b) = true)
    (sort_values_desc groups).
Proof.
  unfold sort_values_desc.
  apply (sort_by_sorted (fun a b : K * cell => desc_cells (snd a) (snd b))).
  - intros a b. apply desc_cells_total.
  - intros a b c. apply desc_cells_trans.
Qed.

Lemma sort_values_desc_descending {K} (groups : list (K * cell)) :
  descending (map snd (map shown (sort_values_desc groups))).
Proof.
  unfold descending. rewrite map_map. apply StronglySorted_map.
  eapply StronglySorted_weaken; [ | apply sort_values_desc_sorted].
  intros a b H. simpl. apply desc_cells_spec, H.
Qed.

Section Aggregates.

Variable group_nansum : list spec_float -> spec_float.

(** C5. The Product aggregate is sorted by summed Revenue in descending
    order and has at most N entries, for every N (so for the 5 to 30 of
    the slider); the Region aggregate is sorted in the same order. Both
    list the groups of the table, each once: the sort only permutes them. *)
Theorem aggregates_sorted_descending (filtered_df : DataFrame) (n : nat) :
  descending (map snd (prod_rev group_nansum filtered_df n))
  /\ (length (prod_rev group_nansum filtered_df n) <= n)%nat
  /\ prod_rev group_nansum filtered_df n
     = firstn n (revenue_by group_nansum filtered_df "Product")
  /\ descending (map snd (region_rev group_nansum filtered_df))
  /\ (forall label,
        Permutation (revenue_by group_nansum filtered_df label)
          (groupby_sum group_nansum cell_ltb (map group_key (column filtered_df label))
                       (column filtered_df "Revenue"))).
Proof.
  unfold prod_rev, region_rev, revenue_by.
  split.
  { rewrite <- firstn_map. apply StronglySorted_firstn, sort_values_desc_descending. }
  split; [apply firstn_le_length | ].
  split; [reflexivity | ].
  split; [apply sort_values_desc_descending | ].
  intros label. unfold groupby_sum. apply Permutation_map, sort_by_perm.
Qed.

End Aggregates.

(** ** The order of timestamps *)

Lemma ts_ltb_spec (a b : Timestamp) :
  ts_ltb a b = true <->
  year (ts_date a) < year (ts_date b)
  \/ (year (ts_date a) = year (ts_date b)
      /\ (month (ts_date a) < month (ts_date b)
          \/ (month (ts_date a) = month (ts_date b)
              /\ (day (ts_date a) < day (ts_date b)
                  \/ (day (ts_date a) = day (ts_date b)
                      /\ ts_nanos a < ts_nanos b))))).
Proof.
  unfold ts_ltb, ts_compare, date_compare, lex.
  destruct a as [[ya ma da] na], b as [[yb mb db] nb]; simpl.
  destruct (Z.compare_spec ya yb); [ | split; [lia | reflexivity] | split; [discriminate | lia]].
  destruct (Z.compare_spec ma mb); [ | split; [lia | reflexivity] | split; [discriminate | lia]].
  destruct (Z.compare_spec da db); [ | split; [lia | reflexivity] | split; [discriminate | lia]].
  destruct (Z.compare_spec na nb); split; try discriminate; try reflexivity; lia.
Qed.

Lemma ts_ltb_irrefl (a : Timestamp) : ts_ltb a a = false.
Proof.
  destruct (ts_ltb a a) eqn:E; [ | reflexivity].
  apply ts_ltb_spec in E. lia.
Qed.

Lemma ts_ltb_trans (a b c : Timestamp) :
  ts_ltb a b = true -> ts_ltb b c = true -> ts_ltb a c = true.
Proof.
  rewrite !ts_ltb_spec. lia.
Qed.

(** ** Grouping *)

Section Groups.

Context {K : Type} (ltb : K -> K -> bool).
Hypothesis ltb_irrefl : forall k, ltb k k = false.
Hypothesis ltb_trans : forall a b c, ltb a b = true -> ltb b c = true -> ltb a c = true.

Let before (a b : K) : Prop := ltb a b = true.

Lemma add_to_group_keys (k : K) (v : cell) (groups : list (K * Series)) (k0 : K) :
  In k0 (map fst (add_to_group ltb k v groups)) -> k0 = k \/ In k0 (map fst groups).
Proof.
  induction groups as [ | [k' acc] rest IH]; simpl.
  - intros [<- | []]. left; reflexivity.
  - destruct (ltb k k'); [ | destruct (ltb k' k)]; simpl.
    + intros [<- | [<- | H]]; auto.
    + intros [<- | H]; auto. destruct (IH H); auto.
    + intros [<- | H]; auto.
Qed.

Lemma add_to_group_sorted (k : K) (v : cell) (groups : list (K * Series)) :
  StronglySorted before (map fst groups) ->
  StronglySorted before (map fst (add_to_group ltb k v groups)).
Proof.
  induction groups as [ | [k' acc] rest IH]; simpl; intros Hs.
  - constructor; constructor.
  - inversion Hs as [ | ? ? Hrest Hk']; subst.
    destruct (ltb k k') eqn:E1; [ | destruct (ltb k' k) eqn:E2]; simpl.
    + constructor; [exact Hs | ]. constructor; [exact E1 | ].
      rewrite List.Forall_forall in Hk' |- *. intros z Hz.
      apply (ltb_trans k k' z); [exact E1 | apply Hk', Hz].
    + constructor; [apply IH, Hrest | ].
      rewrite List.Forall_forall in Hk' |- *. intros z Hz.
      destruct (add_to_group_keys _ _ _ _ Hz) as [-> | Hz']; [exact E2 | apply Hk', Hz'].
    + exact Hs.
Qed.

Lemma groupby_from_sorted (rows_kv : list (option K * cell)) (groups : list (K * Series)) :
  StronglySorted before (map fst groups) ->
  StronglySorted before
    (map fst (fold_left (fun g (kv : option K * cell) =>
                           match fst kv with
                           | Some k => add_to_group ltb k (snd kv) g
                           | None => g
                           end) rows_kv groups)).
Proof.
  revert groups. induction rows_kv as [ | [[k | ] v] l IH]; intros groups Hs; simpl.
  - exact Hs.
  - apply IH, add_to_group_sorted, Hs.
  - apply IH, Hs.
Qed.

Lemma groupby_from_keys (rows_kv : list (option K * cell)) (groups : list (K * Series)) (k0 : K) :
  In k0 (map fst (fold_left (fun g (kv : option K * cell) =>
                               match fst kv with
                               | Some k => add_to_group ltb k (snd kv) g
                               | None => g
                               end) rows_kv groups)) ->
  In k0 (map fst groups) \/ In (Some k0) (map fst rows_kv).
Proof.
  revert groups. induction rows_kv as [ | [[k | ] v] l IH]; intros groups; simpl.
  - auto.
  - intros H. destruct (IH _ H) as [H' | H']; [ | auto].
    destruct (add_to_group_keys _ _ _ _ H') as [-> | H'']; auto.
  - intros H. destruct (IH _ H); auto.
Qed.

Lemma groupby_sorted (keys : list (option K)) (values : Series) :
  StronglySorted before (map fst (groupby ltb keys values)).
Proof.
  unfold groupby. apply groupby_from_sorted. constructor.
Qed.

Lemma groupby_keys (keys : list (option K)) (values : Series) (k : K) :
  In k (map fst (groupby ltb keys values)) -> In (Some k) keys.
Proof.
  unfold groupby. intros H.
  destruct (groupby_from_keys _ _ _ H) as [[] | H'].
  apply in_map_iff in H'. destruct H' as [[k' v] [Hk Hin]].
  simpl in Hk. subst k'. apply (in_combine_l _ _ _ _ Hin).
Qed.

Lemma sorted_NoDup (l : list K) : StronglySorted before l -> List.NoDup l.
Proof.
  induction 1 as [ | x l Hl IH Hx]; constructor; [ | exact IH].
  intros Hin. rewrite List.Forall_forall in Hx.
  specialize (Hx x Hin). unfold before in Hx. rewrite ltb_irrefl in Hx. discriminate.
Qed.

Lemma groupby_no_key (keys : list (option K)) (values : Series) :
  List.Forall (fun k => k = None) keys -> groupby ltb keys values = [].
Proof.
  unfold groupby. revert values.
  induction keys as [ | k keys IH]; intros values Hall; [reflexivity | ].
  destruct values as [ | v values]; [reflexivity | ].
  inversion Hall as [ | ? ? Hk Hrest]; subst. simpl. apply IH, Hrest.
Qed.

End Groups.

(** Summing the groups keeps their keys. *)
Lemma groupby_cells_keys {K} (group_nansum : list spec_float -> spec_float)
    (ltb : K -> K -> bool) (keys : list (option K)) (values : Series) :
  map fst (groupby_cells group_nansum ltb keys values) = map fst (groupby ltb keys values).
Proof. unfold groupby_cells. rewrite map_map. reflexivity. Qed.

Lemma groupby_sum_keys {K} (group_nansum : list spec_float -> spec_float)
    (ltb : K -> K -> bool) (keys : list (option K)) (values : Series) :
  map fst (groupby_sum group_nansum ltb keys values) = map fst (groupby ltb keys values).
Proof. unfold groupby_sum, groupby_cells. rewrite !map_map. reflexivity. Qed.

Section Trend.

Variable group_nansum : list spec_float -> spec_float.

(** C6. The monthly trend lists its months in strictly ascending order,
    so none twice; each is the first day of a month at midnight, the
    month of some dated row. No row with a usable Date, no trend point. *)
Theorem trend_sorted_by_month (filtered_df : DataFrame) :
  ascending (map fst (trend_df group_nansum filtered_df))
  /\ List.NoDup (map fst (trend_df group_nansum filtered_df))
  /\ (forall first_day, In first_day (map fst (trend_df group_nansum filtered_df)) ->
        exists r t, In r (rows filtered_df)
                    /\ DateOf filtered_df r = CTime t /\ first_day = month_start t)
  /\ ((forall r, In r (rows filtered_df) -> time_of (DateOf filtered_df r) = None) ->
      trend_df group_nansum filtered_df = []).
Proof.
  assert (Hs : ascending (map fst (trend_df group_nansum filtered_df))).
  { unfold ascending, trend_df. rewrite groupby_sum_keys.
    apply groupby_sorted. apply ts_ltb_trans. }
  split; [exact Hs | ].
  split; [apply (sorted_NoDup ts_ltb ts_ltb_irrefl), Hs | ].
  split.
  - intros mo Hin. unfold trend_df in Hin. rewrite groupby_sum_keys in Hin.
    apply groupby_keys in Hin.
    unfold column in Hin. rewrite !map_map in Hin.
    apply in_map_iff in Hin. destruct Hin as [r [Hkey Hr]].
    rewrite boolean_index_map in Hr. apply List.filter_In in Hr.
    destruct Hr as [Hr _]. simpl in Hkey.
    destruct (cell_at "Date" (columns filtered_df) r) as [ | | | t | ] eqn:E;
      simpl in Hkey; try discriminate.
    exists r, t. inversion Hkey. auto.
  - intros Hnone. unfold trend_df, groupby_sum, groupby_cells.
    rewrite groupby_no_key; [reflexivity | ].
    rewrite List.Forall_forall. intros k Hk.
    unfold column in Hk. rewrite !map_map in Hk.
    apply in_map_iff in Hk. destruct Hk as [r [<- Hr]].
    rewrite boolean_index_map in Hr. apply List.filter_In in Hr.
    destruct Hr as [Hr _]. cbn [boolean_index columns].
    specialize (Hnone r Hr). unfold DateOf in Hnone. rewrite Hnone. reflexivity.
Qed.

End Trend.

(** ** The page *)

Lemma columns_date_step (m : ColumnMapping) (ui : Widgets) (df : DataFrame) :
  columns (date_step m ui df) = columns df.
Proof.
  unfold date_step.
  destruct (has_date m); [ | reflexivity].
  destruct (time_min _); [ | reflexivity].
  destruct (time_max _); [ | reflexivity].
  destruct (pick_dates _ _); reflexivity.
Qed.

Lemma rectangular_date_step (m : ColumnMapping) (ui : Widgets) (df : DataFrame) :
  rectangular df -> rectangular (date_step m ui df).
Proof.
  intros H. unfold date_step.
  destruct (has_date m); [ | exact H].
  destruct (time_min _); [ | exact H].
  destruct (time_max _); [ | exact H].
  destruct (pick_dates _ _); [ | exact H].
  apply rectangular_boolean_index, H.
Qed.

Lemma rectangular_normalize (csv : DataFrame) :
  rectangular csv -> rectangular (normalize_columns csv).
Proof.
  unfold rectangular; simpl. rewrite length_map. trivial.
Qed.

Lemma st_slider_inr (bounds : spec_float * spec_float) (u : unit) :
  st_slider bounds = inr u -> slider_accepts (fst bounds) (snd bounds) = true.
Proof.
  unfold st_slider. destruct (slider_accepts _ _); [reflexivity | discriminate].
Qed.

Lemma st_slider_accepts (bounds : spec_float * spec_float) :
  slider_accepts (fst bounds) (snd bounds) = true -> st_slider bounds = inr tt.
Proof. unfold st_slider. intros ->. reflexivity. Qed.

Lemma st_slider_refuses (bounds : spec_float * spec_float) :
  slider_accepts (fst bounds) (snd bounds) = false ->
  st_slider bounds = inl StreamlitAPIException.
Proof. unfold st_slider. intros ->. reflexivity. Qed.

(** A slider accepts its bounds only when one is below the other. *)
Lemma slider_accepts_below (lo hi : spec_float) :
  slider_accepts lo hi = true -> F64.ltb lo hi = true.
Proof.
  unfold slider_accepts. rewrite !andb_true_iff. tauto.
Qed.

Lemma has_duplicates_NoDup (cols : list string) :
  has_duplicates cols = false <-> List.NoDup cols.
Proof.
  induction cols as [ | c cols IH]; simpl.
  - split; [constructor | reflexivity].
  - rewrite orb_false_iff, IH. split.
    + intros [Hc Hn]. constructor; [ | exact Hn].
      intros Hin. unfold has_label in Hc.
      assert (E : existsb (String.eqb c) cols = true).
      { apply existsb_exists. exists c. split; [exact Hin | apply String.eqb_refl]. }
      congruence.
    + intros Hn. inversion Hn as [ | ? ? Hc Hn']; subst. split; [ | exact Hn'].
      unfold has_label. destruct (existsb (String.eqb c) cols) eqn:E; [ | reflexivity].
      apply existsb_exists in E. destruct E as [c' [Hin E]].
      apply String.eqb_eq in E. subst c'. contradiction.
Qed.

Lemma count_label_NoDup (name : string) (cols : list string) :
  List.NoDup cols -> (count_label name cols <= 1)%nat.
Proof.
  unfold count_label. induction 1 as [ | c cols Hc Hn IH]; simpl; [lia | ].
  destruct (String.eqb name c) eqn:E; simpl; [ | exact IH].
  apply String.eqb_eq in E. subst c.
  assert (Z : length (List.filter (String.eqb name) cols) = 0%nat).
  { destruct (List.filter (String.eqb name) cols) as [ | x l] eqn:F; [reflexivity | ].
    exfalso. assert (Hx : In x (List.filter (String.eqb name) cols)) by (rewrite F; simpl; auto).
    apply List.filter_In in Hx. destruct Hx as [Hin Hx].
    apply String.eqb_eq in Hx. subst x. contradiction. }
  lia.
Qed.

Lemma nth_error_numbered {A} (l : list A) (k j : nat) (x : A) :
  nth_error l j = Some x -> nth_error (combine (seq k (length l)) l) j = Some ((k + j)%nat, x).
Proof.
  revert k j. induction l as [ | a l IH]; intros k j H.
  - destruct j; discriminate.
  - destruct j as [ | j]; simpl in *.
    + inversion H; subst. f_equal. f_equal. lia.
    + rewrite (IH (S k) j H). f_equal. f_equal. lia.
Qed.

Section Page.

Variable str_to_float : string -> spec_float.
Variable to_timestamp : Series -> nat -> option Timestamp.
Variable nansum : list spec_float -> spec_float.
Variable group_nansum : list spec_float -> spec_float.
Variable float_repr : spec_float -> string.
Variable time_repr : Series -> Timestamp -> string.

(** What it takes to reach the key metrics (lines 28-107): a canonical
    table, defaults for the widgets, two sliders that accept their
    bounds, and one Date column when dates are mapped. *)
Lemma filtered_table_inv (csv : DataFrame) (m : ColumnMapping) (ui : Widgets)
    (df filtered_df : DataFrame) :
  filtered_table str_to_float to_timestamp csv m ui = inr (df, filtered_df) ->
  exists defaults,
    prepare str_to_float to_timestamp (normalize_columns csv) m = inr df
    /\ default_filters df = inr defaults
    /\ slider_accepts (fst (price_range defaults)) (snd (price_range defaults)) = true
    /\ slider_accepts (fst (qty_range defaults)) (snd (qty_range defaults)) = true
    /\ date_guard m (apply_filters df (pick_filters ui defaults)) = inr tt
    /\ filtered_df = date_step m ui (apply_filters df (pick_filters ui defaults)).
Proof.
  intros H. unfold filtered_table in H.
  destruct (prepare _ _ _ _) as [e | df'] eqn:Hp; [discriminate | ].
  unfold bind at 1 in H.
  destruct (default_filters df') as [e | defaults] eqn:Hd; [discriminate | ].
  unfold bind at 1 in H.
  destruct (st_slider (price_range defaults)) as [e | u1] eqn:S1; [discriminate | ].
  unfold bind at 1 in H.
  destruct (st_slider (qty_range defaults)) as [e | u2] eqn:S2; [discriminate | ].
  unfold bind at 1 in H.
  destruct (date_guard m _) as [e | [ ]] eqn:G; [discriminate | ].
  unfold bind in H. inversion H; subst. exists defaults.
  repeat split; auto; eapply st_slider_inr; eassumption.
Qed.

Lemma filtered_table_inr (csv : DataFrame) (m : ColumnMapping) (ui : Widgets)
    (df : DataFrame) (defaults : FilterSpec) :
  prepare str_to_float to_timestamp (normalize_columns csv) m = inr df ->
  default_filters df = inr defaults ->
  slider_accepts (fst (price_range defaults)) (snd (price_range defaults)) = true ->
  slider_accepts (fst (qty_range defaults)) (snd (qty_range defaults)) = true ->
  date_guard m (apply_filters df (pick_filters ui defaults)) = inr tt ->
  filtered_table str_to_float to_timestamp csv m ui
  = inr (df, date_step m ui (apply_filters df (pick_filters ui defaults))).
Proof.
  intros Hp Hd S1 S2 G. unfold filtered_table.
  rewrite Hp. unfold bind at 1. rewrite Hd. unfold bind at 1.
  rewrite (st_slider_accepts _ S1). unfold bind at 1.
  rewrite (st_slider_accepts _ S2). unfold bind at 1.
  rewrite G. reflexivity.
Qed.

(** The header of the filtered table is the canonical one. *)
Lemma filtered_table_columns (csv : DataFrame) (m : ColumnMapping) (ui : Widgets)
    (df filtered_df : DataFrame) :
  filtered_table str_to_float to_timestamp csv m ui = inr (df, filtered_df) ->
  columns filtered_df = columns df
  /\ columns df = canonical_header (normalize_columns csv) m
  /\ count_label "Price" (columns df) = 1%nat
  /\ count_label "Quantity" (columns df) = 1%nat
  /\ (rectangular csv -> rectangular df /\ rectangular filtered_df).
Proof.
  intros H. destruct (filtered_table_inv _ _ _ _ _ H) as [defaults [Hp [_ [_ [_ [_ ->]]]]]].
  destruct (prepare_inr _ _ _ _ _ Hp) as [C1 [C2 [Hcols Hrect]]].
  split; [rewrite columns_date_step; reflexivity | ].
  split; [exact Hcols | ].
  assert (Hcount : forall name, name <> "Revenue" -> name <> "Date" ->
            count_label name (columns df)
            = count_label name (map (rename_label (rename_dict m))
                                    (columns (normalize_columns csv)))).
  { intros name N1 N2. rewrite Hcols. unfold canonical_header, renamed_header.
    destruct (has_date m); rewrite ?count_label_put_other by assumption; reflexivity. }
  split; [rewrite Hcount by discriminate; exact C1 | ].
  split; [rewrite Hcount by discriminate; exact C2 | ].
  intros Hcsv. destruct (Hrect (rectangular_normalize _ Hcsv)) as [Hr _].
  split; [exact Hr | ].
  apply rectangular_date_step, rectangular_boolean_index, Hr.
Qed.

(** What a page is made of. *)
Lemma dashboard_inv (csv : DataFrame) (m : ColumnMapping) (ui : Widgets)
    (d : Dashboard) :
  dashboard str_to_float to_timestamp nansum group_nansum csv m ui = inr d ->
  filtered_table str_to_float to_timestamp csv m ui = inr (canonical d, filtered d)
  /\ metrics nansum (filtered d) = inr (kpis d)
  /\ List.NoDup (columns (filtered d))
  /\ data_quality d = missing_report (filtered d).
Proof.
  intros H. unfold dashboard in H.
  destruct (filtered_table _ _ _ _ _) as [e | [df filtered_df]] eqn:Hf; [discriminate | ].
  unfold bind at 1 in H. cbn [fst snd] in H.
  destruct (metrics nansum filtered_df) as [e | k] eqn:Hk; [discriminate | ].
  unfold bind at 1 in H.
  destruct (st_dataframe filtered_df) as [e | u] eqn:Hs; [discriminate | ].
  unfold bind in H. inversion H; subst d; simpl.
  repeat split; auto.
  apply has_duplicates_NoDup. unfold st_dataframe in Hs.
  destruct (has_duplicates (columns filtered_df)); [discriminate | reflexivity].
Qed.

Lemma dashboard_table_error (csv : DataFrame) (m : ColumnMapping) (ui : Widgets)
    (e : error) :
  filtered_table str_to_float to_timestamp csv m ui = inl e ->
  dashboard str_to_float to_timestamp nansum group_nansum csv m ui = inl e.
Proof. intros H. unfold dashboard. rewrite H. reflexivity. Qed.

(** Revenue is in the canonical header. *)
Lemma count_Revenue (raw_df : DataFrame) (m : ColumnMapping) :
  (1 <= count_label "Revenue" (canonical_header raw_df m))%nat.
Proof.
  unfold canonical_header.
  assert (H : (1 <= count_label "Revenue" (put_label "Revenue" (renamed_header raw_df m)))%nat).
  { unfold put_label. rewrite has_label_count.
    destruct (count_label "Revenue" (renamed_header raw_df m)) as [ | k] eqn:E; simpl.
    - unfold count_label. rewrite List.filter_app, length_app. simpl. lia.
    - rewrite E. lia. }
  destruct (has_date m); [ | exact H].
  rewrite count_label_put_other by discriminate. exact H.
Qed.

Lemma metrics_no_rows (df : DataFrame) :
  rows df = [] ->
  count_label "Price" (columns df) = 1%nat ->
  count_label "Quantity" (columns df) = 1%nat ->
  (count_label "Revenue" (columns df) = 1%nat ->
   metrics nansum df = inr (mkMetrics F64.zero F64.zero F64.nan F64.nan))
  /\ ((2 <= count_label "Revenue" (columns df))%nat ->
      metrics nansum df = inl TypeError).
Proof.
  intros Hrows HP HQ. unfold metrics, getitem, column. rewrite Hrows, HP, HQ.
  split.
  - intros ->. reflexivity.
  - intros H. destruct (count_label "Revenue" (columns df)) as [ | [ | k]]; try lia.
    reflexivity.
Qed.

(** C4, as the script has it. When the filters leave no row the key
    metrics are computed all the same, as long as one column only is
    labelled Revenue: total Revenue and total Quantity are zero, mean
    Price and mean Quantity are NaN, which is not zero and compares equal
    to nothing. With two columns labelled Revenue the total is a Series,
    which line 116 cannot format: a [TypeError], rows or no rows. *)
Theorem empty_result_metrics (csv : DataFrame) (m : ColumnMapping)
    (ui : Widgets) (df filtered_df : DataFrame) :
  filtered_table str_to_float to_timestamp csv m ui = inr (df, filtered_df) ->
  rows filtered_df = [] ->
  (count_label "Revenue" (columns filtered_df) = 1%nat ->
   metrics nansum filtered_df = inr (mkMetrics F64.zero F64.zero F64.nan F64.nan))
  /\ (count_label "Revenue" (columns filtered_df) <> 1%nat ->
      metrics nansum filtered_df = inl TypeError)
  /\ F64.nan <> F64.zero
  /\ F64.eqb F64.nan F64.zero = false.
Proof.
  intros Hrun Hempty.
  destruct (filtered_table_columns _ _ _ _ _ Hrun) as [Hf [Hcols [HP [HQ _]]]].
  rewrite <- Hf in HP, HQ.
  destruct (metrics_no_rows filtered_df Hempty HP HQ) as [H1 H2].
  split; [exact H1 | ].
  split; [ | split; [discriminate | reflexivity]].
  intros Hne. apply H2.
  pose proof (count_Revenue (normalize_columns csv) m) as Hge.
  rewrite <- Hcols, <- Hf in Hge. lia.
Qed.

Lemma csv_record_field (df : DataFrame) (r : Row) (j : nat) (c : cell) :
  nth_error r j = Some c ->
  nth_error (csv_record float_repr time_repr df r) j
  = Some (csv_value float_repr time_repr (nth_column df j) c).
Proof.
  intros H. unfold csv_record.
  rewrite nth_error_map, (nth_error_numbered r 0 j c H). reflexivity.
Qed.

(** C9, as the script has it. The header row of the export is the
    uploaded header, trimmed, in its own order and with every column kept,
    the mapped columns bearing their canonical names; Revenue comes after
    it and Date after Revenue when a date column is mapped, unless a
    column already bears that label; no label occurs twice. There is one
    record per row of the filtered table, in order, with one field per
    column, in the order of the header: a text is written as it is, an
    integer as its numeral, a missing value as the empty field, a float
    and a timestamp as the library prints them. *)
Theorem export_header_and_rows (csv : DataFrame) (m : ColumnMapping)
    (ui : Widgets) (d : Dashboard) :
  dashboard str_to_float to_timestamp nansum group_nansum csv m ui = inr d ->
  csv_header (filtered d) = canonical_header (normalize_columns csv) m
  /\ List.NoDup (csv_header (filtered d))
  /\ length (csv_records float_repr time_repr (filtered d)) = length (rows (filtered d))
  /\ (rectangular csv ->
      List.Forall (fun fields => length fields = length (csv_header (filtered d)))
        (csv_records float_repr time_repr (filtered d)))
  /\ (forall i j r c,
        nth_error (rows (filtered d)) i = Some r ->
        nth_error r j = Some c ->
        exists fields field,
          nth_error (csv_records float_repr time_repr (filtered d)) i = Some fields
          /\ nth_error fields j = Some field
          /\ (forall s, c = CStr s -> field = s)
          /\ (forall z, c = CInt z -> field = decimal z)
          /\ (isna c = true -> field = EmptyString)
          /\ (forall x, c = CNum x -> F64.is_nan x = false -> field = float_repr x)
          /\ (forall t, c = CTime t ->
                field = time_repr (nth_column (filtered d) j) t)).
Proof.
  intros Hrun.
  destruct (dashboard_inv _ _ _ _ Hrun) as [Htab [_ [Hnodup _]]].
  destruct (filtered_table_columns _ _ _ _ _ Htab) as [Hf [Hcols [_ [_ Hrect]]]].
  split; [unfold csv_header; rewrite Hf; exact Hcols | ].
  split; [exact Hnodup | ].
  split; [unfold csv_records; apply length_map | ].
  split.
  - intros Hcsv. destruct (Hrect Hcsv) as [_ Hfr].
    unfold csv_records, csv_header. rewrite List.Forall_forall. intros fields Hin.
    apply in_map_iff in Hin. destruct Hin as [r [<- Hin]].
    unfold csv_record. rewrite length_map, length_combine, length_seq, Nat.min_id.
    unfold rectangular in Hfr. rewrite List.Forall_forall in Hfr. apply Hfr, Hin.
  - intros i j r c Hi Hj.
    exists (csv_record float_repr time_repr (filtered d) r),
           (csv_value float_repr time_repr (nth_column (filtered d) j) c).
    split; [unfold csv_records; apply map_nth_error, Hi | ].
    split; [apply csv_record_field, Hj | ].
    split; [intros s ->; reflexivity | ].
    split; [intros z ->; reflexivity | ].
    split.
    { destruct c as [s | z | x | t | ]; simpl; try discriminate; [ | reflexivity].
      intros ->. reflexivity. }
    split; [intros x -> N; simpl; rewrite N; reflexivity | ].
    intros t ->. reflexivity.
Qed.

End Page.

(** ** Colliding roles *)

Lemma rename_label_spec (m : ColumnMapping) (c : string) :
  rename_label (rename_dict m) c
  = if decide (quantity_col m = c) then "Quantity"
    else if decide (price_col m = c) then "Price"
    else if decide (product_col m = c) then "Product"
    else if decide (region_col m = c) then "Region"
    else c.
Proof.
  unfold rename_label, rename_dict.
  rewrite !lookup_insert.
  repeat case_decide; rewrite ?lookup_empty; reflexivity.
Qed.

Lemma count_label_zero (name : string) (cols : list string) :
  count_label name cols = 0%nat <-> forall c, In c cols -> c <> name.
Proof.
  unfold count_label. induction cols as [ | c cols IH]; simpl.
  - split; [intros _ c [] | reflexivity].
  - destruct (String.eqb name c) eqn:E; simpl.
    + apply String.eqb_eq in E. subst c. split; [discriminate | ].
      intros H. exfalso. apply (H name); auto.
    + apply String.eqb_neq in E. rewrite IH. split.
      * intros H c' [<- | Hin]; [congruence | apply H, Hin].
      * intros H c' Hin. apply H. auto.
Qed.

Lemma count_label_pos (name : string) (cols : list string) :
  In name cols -> count_label name cols <> 0%nat.
Proof.
  intros Hin H. rewrite count_label_zero in H. apply (H name Hin). reflexivity.
Qed.

(** The canonical name of a role whose source column is also the source
    of a later role is borne by no renamed column, unless another column
    of the table bears it already. *)
Lemma lost_label_absent (raw_df : DataFrame) (m : ColumnMapping) (p p' : role) :
  (rank p < rank p')%nat ->
  source m p = source m p' ->
  (forall c, In c (columns raw_df) -> c = canon p -> c = source m p) ->
  count_label (canon p) (renamed_header raw_df m) = 0%nat.
Proof.
  intros Hrank Hsame Hother. apply count_label_zero.
  intros c' Hin. unfold renamed_header in Hin.
  apply in_map_iff in Hin. destruct Hin as [c [<- Hc]].
  rewrite rename_label_spec. specialize (Hother c Hc).
  destruct p, p'; simpl in *; try lia;
    repeat case_decide; try discriminate; try congruence;
    intros Heq; apply Hother in Heq; congruence.
Qed.

(** A role whose source column no later role shares gives its
    canonical name to that column. *)
Lemma kept_label_present (raw_df : DataFrame) (m : ColumnMapping) (p : role) :
  In (source m p) (columns raw_df) ->
  (forall p', (rank p < rank p')%nat -> source m p' <> source m p) ->
  In (canon p) (renamed_header raw_df m).
Proof.
  intros Hin Hlater. unfold renamed_header.
  apply in_map_iff. exists (source m p). split; [ | exact Hin].
  rewrite rename_label_spec.
  pose proof (Hlater ProductRole) as HP.
  pose proof (Hlater PriceRole) as HR.
  pose proof (Hlater QuantityRole) as HQ.
  destruct p; simpl in *; repeat case_decide; try reflexivity; try congruence;
    exfalso; (apply HP; [lia | assumption]) || (apply HR; [lia | assumption])
             || (apply HQ; [lia | assumption]).
Qed.

Section Collisions.

Variable str_to_float : string -> spec_float.
Variable to_timestamp : Series -> nat -> option Timestamp.
Variable nansum : list spec_float -> spec_float.
Variable group_nansum : list spec_float -> spec_float.

Lemma prepare_KeyError_Price (raw_df : DataFrame) (m : ColumnMapping) :
  count_label "Price" (renamed_header raw_df m) = 0%nat ->
  prepare str_to_float to_timestamp raw_df m = inl (KeyError "Price").
Proof.
  intros H. unfold prepare, getitem.
  change (columns (rename raw_df (rename_dict m))) with (renamed_header raw_df m).
  rewrite H. reflexivity.
Qed.

Lemma prepare_KeyError_Quantity (raw_df : DataFrame) (m : ColumnMapping) :
  count_label "Price" (renamed_header raw_df m) = 1%nat ->
  count_label "Quantity" (renamed_header raw_df m) = 0%nat ->
  prepare str_to_float to_timestamp raw_df m = inl (KeyError "Quantity").
Proof.
  intros H1 H2. unfold prepare, getitem at 1.
  change (columns (rename raw_df (rename_dict m))) with (renamed_header raw_df m).
  rewrite H1. unfold bind at 1 2. unfold safe_numeric at 1.
  unfold getitem at 1.
  change (columns (setitem ?df "Price" ?s)) with (put_label "Price" (columns df)).
  change (columns (rename raw_df (rename_dict m))) with (renamed_header raw_df m).
  rewrite count_label_put_other by discriminate. rewrite H2. reflexivity.
Qed.

Lemma prepare_succeeds (raw_df : DataFrame) (m : ColumnMapping) :
  count_label "Price" (renamed_header raw_df m) = 1%nat ->
  count_label "Quantity" (renamed_header raw_df m) = 1%nat ->
  (has_date m = true -> count_label (date_col m) (columns raw_df) = 1%nat) ->
  exists df, prepare str_to_float to_timestamp raw_df m = inr df.
Proof.
  intros H1 H2 H3. unfold prepare, getitem at 1.
  change (columns (rename raw_df (rename_dict m))) with (renamed_header raw_df m).
  rewrite H1. unfold bind at 1 2. unfold safe_numeric at 1.
  unfold getitem at 1.
  change (columns (setitem ?df "Price" ?s)) with (put_label "Price" (columns df)).
  change (columns (rename raw_df (rename_dict m))) with (renamed_header raw_df m).
  rewrite count_label_put_other by discriminate. rewrite H2.
  unfold bind at 1 2. unfold safe_numeric at 1.
  destruct (has_date m); [ | eexists; reflexivity].
  unfold getitem. rewrite H3 by reflexivity. simpl. eexists; reflexivity.
Qed.

Lemma default_filters_KeyError_Region (df : DataFrame) :
  count_label "Region" (columns df) = 0%nat ->
  default_filters df = inl (KeyError "Region").
Proof.
  intros H. unfold default_filters, getitem. rewrite H. reflexivity.
Qed.

Lemma default_filters_KeyError_Product (df : DataFrame) :
  count_label "Region" (columns df) = 1%nat ->
  count_label "Product" (columns df) = 0%nat ->
  default_filters df = inl (KeyError "Product").
Proof.
  intros H1 H2. unfold default_filters, getitem. rewrite H1, H2. reflexivity.
Qed.

Lemma default_filters_fails (df : DataFrame) :
  count_label "Region" (columns df) = 0%nat \/ count_label "Product" (columns df) = 0%nat ->
  exists e, default_filters df = inl e.
Proof.
  intros [H | H]; unfold default_filters, getitem.
  - rewrite H. eexists; reflexivity.
  - destruct (count_label "Region" (columns df)) as [ | [ | k]];
      try (eexists; reflexivity).
    rewrite H. eexists; reflexivity.
Qed.

Lemma count_canonical_header (raw_df : DataFrame) (m : ColumnMapping) (name : string) :
  name <> "Revenue" -> name <> "Date" ->
  count_label name (canonical_header raw_df m) = count_label name (renamed_header raw_df m).
Proof.
  intros H1 H2. unfold canonical_header.
  destruct (has_date m); rewrite ?count_label_put_other by assumption; reflexivity.
Qed.

Lemma dashboard_prepare_error (csv : DataFrame) (m : ColumnMapping)
    (ui : Widgets) (e : error) :
  prepare str_to_float to_timestamp (normalize_columns csv) m = inl e ->
  dashboard str_to_float to_timestamp nansum group_nansum csv m ui = inl e.
Proof. intros H. unfold dashboard, filtered_table. rewrite H. reflexivity. Qed.

Lemma dashboard_defaults_error (csv : DataFrame) (m : ColumnMapping)
    (ui : Widgets) (df : DataFrame) (e : error) :
  prepare str_to_float to_timestamp (normalize_columns csv) m = inr df ->
  default_filters df = inl e ->
  dashboard str_to_float to_timestamp nansum group_nansum csv m ui = inl e.
Proof.
  intros H1 H2. unfold dashboard, filtered_table. rewrite H1. cbn [bind]. rewrite H2.
  reflexivity.
Qed.

(** A canonical column that no renamed column bears stops the script. *)
Lemma dashboard_fails (csv : DataFrame) (m : ColumnMapping)
    (ui : Widgets) (name : string) :
  In name access_order ->
  count_label name
    (renamed_header (normalize_columns csv) m) = 0%nat ->
  exists e, dashboard str_to_float to_timestamp nansum group_nansum csv m ui = inl e.
Proof.
  intros Hname Hzero.
  destruct (prepare str_to_float to_timestamp (normalize_columns csv)
              m) as [e | df] eqn:Hp.
  - exists e. apply dashboard_prepare_error, Hp.
  - destruct (prepare_inr _ _ _ _ _ Hp) as [C1 [C2 [Hcols _]]].
    fold (renamed_header (normalize_columns csv) m)
      in C1, C2.
    destruct (default_filters_fails df) as [e He].
    + rewrite Hcols, !count_canonical_header by discriminate.
      simpl in Hname. destruct Hname as [<- | [<- | [<- | [<- | []]]]]; auto; congruence.
    + exists e. apply (dashboard_defaults_error _ _ _ df); assumption.
Qed.

(** The first canonical column that is absent, the ones read before it
    each borne by one column, is reported by a [KeyError]. *)
Lemma dashboard_KeyError (csv : DataFrame) (m : ColumnMapping)
    (ui : Widgets) (pre post : list string) (name : string) :
  access_order = pre ++ name :: post ->
  (forall x, In x pre ->
     count_label x (renamed_header (normalize_columns csv)
                      m) = 1%nat) ->
  count_label name
    (renamed_header (normalize_columns csv) m) = 0%nat ->
  (has_date m = true ->
   count_label (date_col m)
     (columns (normalize_columns csv)) = 1%nat) ->
  dashboard str_to_float to_timestamp nansum group_nansum csv m ui = inl (KeyError name).
Proof.
  set (raw_df := normalize_columns csv).
  intros Horder Hpre Hzero Hdate. unfold access_order in Horder.
  destruct pre as [ | a [ | b [ | c [ | x [ | y pre]]]]]; simpl in Horder;
    inversion Horder; subst; clear Horder.
  - apply dashboard_prepare_error, prepare_KeyError_Price, Hzero.
  - apply dashboard_prepare_error, prepare_KeyError_Quantity; [ | exact Hzero].
    apply Hpre; simpl; auto.
  - destruct (prepare_succeeds raw_df m) as [df Hp]; [apply Hpre; simpl; auto .. | exact Hdate | ].
    apply (dashboard_defaults_error _ _ _ df _ Hp).
    destruct (prepare_inr _ _ _ _ _ Hp) as [_ [_ [Hcols _]]].
    apply default_filters_KeyError_Region.
    rewrite Hcols, count_canonical_header by discriminate. exact Hzero.
  - destruct (prepare_succeeds raw_df m) as [df Hp]; [apply Hpre; simpl; auto .. | exact Hdate | ].
    apply (dashboard_defaults_error _ _ _ df _ Hp).
    destruct (prepare_inr _ _ _ _ _ Hp) as [_ [_ [Hcols _]]].
    apply default_filters_KeyError_Product;
      rewrite Hcols, count_canonical_header by discriminate;
      [apply Hpre; simpl; auto | exact Hzero].
Qed.

End Collisions.

Lemma later_role_wins (m : ColumnMapping) (p p' : role) :
  (rank p < rank p')%nat -> source m p = source m p' ->
  exists q, (rank p < rank q)%nat /\ source m q = source m p
            /\ rename_dict m !! source m p = Some (canon q).
Proof.
  intros Hrank Hsame. unfold rename_dict. rewrite !lookup_insert.
  destruct p, p'; simpl in *; try lia; repeat case_decide; try congruence;
    first [ exists QuantityRole; simpl; split; [lia | split; [congruence | reflexivity]]
          | exists PriceRole; simpl; split; [lia | split; [congruence | reflexivity]]
          | exists ProductRole; simpl; split; [lia | split; [congruence | reflexivity]] ].
Qed.

(** C10, as the script has it. When a role shares its source column
    with a later role of the dict, the dict keeps one entry for that
    column, the later role's; unless another column bears the canonical
    name of the earlier role, no renamed column bears it and the script
    stops with an error instead of a canonical table. The error is the
    [KeyError] of that name when the canonical columns read before it are
    each borne by one column (and the mapped date column by one). When the
    four roles have four different columns of the table, the four
    canonical names are all in the renamed header. *)
Theorem colliding_roles_stop_the_script
    (str_to_float : string -> spec_float) (to_timestamp : Series -> nat -> option Timestamp)
    (nansum group_nansum : list spec_float -> spec_float)
    (csv : DataFrame) (m : ColumnMapping) (ui : Widgets) :
  (forall p p',
     (rank p < rank p')%nat ->
     source m p = source m p' ->
     (forall c, In c (columns (normalize_columns csv)) -> c = canon p -> c = source m p) ->
     (exists q, (rank p < rank q)%nat /\ source m q = source m p
                /\ rename_dict m !! source m p = Some (canon q))
     /\ count_label (canon p) (renamed_header (normalize_columns csv) m) = 0%nat
     /\ (exists e, dashboard str_to_float to_timestamp nansum group_nansum csv m ui = inl e)
     /\ (forall pre post,
           access_order = pre ++ canon p :: post ->
           (forall x, In x pre ->
              count_label x (renamed_header (normalize_columns csv) m) = 1%nat) ->
           (has_date m = true ->
            count_label (date_col m) (columns (normalize_columns csv)) = 1%nat) ->
           dashboard str_to_float to_timestamp nansum group_nansum csv m ui = inl (KeyError (canon p))))
  /\ ((forall p, In (source m p) (columns (normalize_columns csv))) ->
      (forall p p', p <> p' -> source m p <> source m p') ->
      forall p, In (canon p) (renamed_header (normalize_columns csv) m)).
Proof.
  split.
  - intros p p' Hrank Hsame Hother.
    pose proof (lost_label_absent _ _ _ _ Hrank Hsame Hother) as Hzero.
    split; [apply (later_role_wins m p p'); assumption | ].
    split; [exact Hzero | ].
    split.
    + apply (dashboard_fails _ _ _ _ _ _ _ (canon p)); [ | exact Hzero].
      destruct p; simpl; auto.
    + intros pre post Horder Hpre Hdate.
      apply (dashboard_KeyError _ _ _ _ _ _ _ pre post); assumption.
  - intros Hin Hdistinct p. apply kept_label_present; [apply Hin | ].
    intros p' Hrank. apply Hdistinct. intros ->. lia.
Qed.

(** ** The date filter *)

Lemma apply_date_filter_rows (df : DataFrame) (date_range : Date * Date) :
  rows (apply_date_filter df date_range) = List.filter (in_date_range df date_range) (rows df).
Proof.
  unfold apply_date_filter, mask_and, time_ge, time_le, column.
  rewrite !map_map, map2_map.
  rewrite <- boolean_index_map. do 2 f_equal.
  apply map_ext. intros r. unfold in_date_range, DateOf.
  destruct (time_of (cell_at "Date" (columns df) r)); reflexivity.
Qed.

(** What the date filter does: a row is kept exactly when it has a
    timestamp between the midnight that starts the first day and the
    midnight that starts the last day. *)
Lemma date_filter_keeps (df : DataFrame) (date_range : Date * Date) (r : Row) :
  In r (rows (apply_date_filter df date_range)) <->
  In r (rows df)
  /\ exists t, DateOf df r = CTime t
               /\ ts_leb (midnight (fst date_range)) t = true
               /\ ts_leb t (midnight (snd date_range)) = true.
Proof.
  rewrite apply_date_filter_rows, List.filter_In. unfold in_date_range.
  split.
  - intros [Hin Hk]. split; [exact Hin | ].
    destruct (DateOf df r) as [ | | | t | ]; simpl in Hk; try discriminate.
    exists t. apply andb_true_iff in Hk. tauto.
  - intros [Hin [t [-> [H1 H2]]]]. split; [exact Hin | ]. simpl. rewrite H1, H2. reflexivity.
Qed.

(** So a sale made on the last day, but after midnight, is left out. *)
Lemma late_on_last_day_dropped (df : DataFrame) (date_range : Date * Date) (r : Row)
    (t : Timestamp) :
  DateOf df r = CTime t -> date_of t = snd date_range -> 0 < ts_nanos t ->
  ~ In r (rows (apply_date_filter df date_range)).
Proof.
  intros Ht Hday Hnanos Hin. apply date_filter_keeps in Hin.
  destruct Hin as [_ [t' [Ht' [_ Hle]]]]. rewrite Ht in Ht'. inversion Ht'; subst t'.
  unfold ts_leb, ts_compare, date_compare, midnight, lex in Hle.
  unfold date_of in Hday. rewrite <- Hday in Hle. simpl in Hle.
  rewrite !Z.compare_refl in Hle.
  destruct (ts_nanos t ?= 0) eqn:E; try discriminate.
  - apply Z.compare_eq in E. lia.
  - rewrite Z.compare_lt_iff in E. lia.
Qed.

(** C7, on two sales, the later one made on 31 January 2024 at 10:30,
    the Date role mapped and every widget left alone. The categorical and
    numeric filters keep both sales; the date picker offers 30 and 31
    January, the days of the earliest and of the latest sale; the date
    filter, which ends at the midnight that opens 31 January, drops the
    sale made later on that day: the page shows one row and a revenue of
    20, not 32. *)
Theorem sale_on_last_day_is_dropped :
  exists d defaults,
    dashboard parse_decimal read_dates plain_sum plain_sum two_dated_sales map_when untouched
    = inr d
    /\ default_filters (canonical d) = inr defaults
    /\ rows (apply_filters (canonical d) defaults) = rows (canonical d)
    /\ In late_sale (rows (canonical d))
    /\ DateOf (canonical d) late_sale
       = CTime (mkTimestamp (mkDate 2024 1 31) 37800000000000)
    /\ time_min (column (apply_filters (canonical d) defaults) "Date")
       = Some (mkTimestamp (mkDate 2024 1 30) 32400000000000)
    /\ time_max (column (apply_filters (canonical d) defaults) "Date")
       = Some (mkTimestamp (mkDate 2024 1 31) 37800000000000)
    /\ ~ In late_sale (rows (filtered d))
    /\ length (rows (filtered d)) = 1%nat
    /\ total_revenue (kpis d) = F64.of_Z 20.
Proof.
  eexists. eexists.
  split; [vm_compute; reflexivity | ].
  split; [vm_compute; reflexivity | ].
  split; [vm_compute; reflexivity | ].
  split; [vm_compute; auto | ].
  split; [vm_compute; reflexivity | ].
  split; [vm_compute; reflexivity | ].
  split; [vm_compute; reflexivity | ].
  split; [ | split; vm_compute; reflexivity].
  vm_compute. intros [H | []]. discriminate.
Qed.

(** ** The scenario of the two rows *)

(** C3, as the script has it. On the two rows, with the default mapping,
    the canonical table has Revenue [20, missing] and one missing Price.
    Price has one value, 2, so that the bounds of the Price slider are
    both 2.0: [st.slider] raises on line 87, whatever the user does and
    however sums are added, and neither the total Revenue nor the
    data-quality table is shown. *)
Theorem two_rows_scenario :
  prepare parse_decimal read_dates (normalize_columns two_rows) two_rows_mapping
  = inr two_rows_canonical
  /\ column two_rows_canonical "Revenue" = [CNum (F64.of_Z 20); missing]
  /\ missing_of two_rows_canonical "Price" = 1%nat
  /\ default_filters two_rows_canonical = inr two_rows_defaults
  /\ price_range two_rows_defaults = (F64.of_Z 2, F64.of_Z 2)
  /\ st_slider (price_range two_rows_defaults) = inl StreamlitAPIException
  /\ forall nansum group_nansum ui,
       dashboard parse_decimal read_dates nansum group_nansum two_rows two_rows_mapping ui
       = inl StreamlitAPIException.
Proof.
  assert (Hp : prepare parse_decimal read_dates (normalize_columns two_rows) two_rows_mapping
               = inr two_rows_canonical) by (vm_compute; reflexivity).
  assert (Hd : default_filters two_rows_canonical = inr two_rows_defaults)
    by (vm_compute; reflexivity).
  split; [exact Hp | ].
  split; [vm_compute; reflexivity | ].
  split; [vm_compute; reflexivity | ].
  split; [exact Hd | ].
  split; [vm_compute; reflexivity | ].
  split; [vm_compute; reflexivity | ].
  intros nansum group_nansum ui. unfold dashboard, filtered_table.
  rewrite Hp. cbn [bind]. rewrite Hd. cbn [bind]. reflexivity.
Qed.

(** ** The claims on written-out tables *)



(** The three sales with no Region selected. *)
Lemma empty_result_metrics_without_region :
  (count_label "Revenue" (columns (mkFrame (columns three_sales_canonical) [])) = 1%nat ->
   metrics plain_sum (mkFrame (columns three_sales_canonical) [])
   = inr (mkMetrics F64.zero F64.zero F64.nan F64.nan))
  /\ (count_label "Revenue" (columns (mkFrame (columns three_sales_canonical) [])) <> 1%nat ->
      metrics plain_sum (mkFrame (columns three_sales_canonical) []) = inl TypeError)
  /\ F64.nan <> F64.zero
  /\ F64.eqb F64.nan F64.zero = false.
Proof.
  apply (empty_result_metrics parse_decimal read_dates plain_sum three_sales map_when
           no_region three_sales_canonical (mkFrame (columns three_sales_canonical) [])).
  - vm_compute. reflexivity.
  - reflexivity.
Defined.

(** Two columns called Revenue and no Region selected: the filters leave
    no row, and the total Revenue cannot be formatted. *)
Lemma two_revenue_columns_stop_the_metrics :
  exists tables,
    filtered_table parse_decimal read_dates two_revenues
      (default_mapping (columns (normalize_columns two_revenues))) no_region = inr tables
    /\ rows (snd tables) = []
    /\ count_label "Revenue" (columns (snd tables)) = 2%nat
    /\ metrics plain_sum (snd tables) = inl TypeError
    /\ dashboard parse_decimal read_dates plain_sum plain_sum two_revenues
         (default_mapping (columns (normalize_columns two_revenues))) no_region
       = inl TypeError.
Proof.
  eexists. split; [vm_compute; reflexivity | ].
  vm_compute. repeat split; reflexivity.
Qed.

(** A table with one more column, in another order: the exported header
    is not the list of the canonical names. *)
Lemma export_header_is_not_canonical :
  dashboard parse_decimal read_dates plain_sum plain_sum with_notes
    (default_mapping (columns (normalize_columns with_notes))) untouched
  = inr with_notes_page
  /\ csv_header (filtered with_notes_page)
     = ["Product"; "Region"; "Price"; "Quantity"; "Notes"; "Revenue"]
  /\ csv_header (filtered with_notes_page)
     <> ["Region"; "Product"; "Price"; "Quantity"; "Revenue"].
Proof.
  split; [vm_compute; reflexivity | ].
  split; [vm_compute; reflexivity | ].
  vm_compute. discriminate.
Qed.

(** The export of the table with one more column. *)
Lemma export_header_and_rows_with_notes :
  csv_header (filtered with_notes_page)
  = canonical_header (normalize_columns with_notes) (default_mapping (columns with_notes))
  /\ List.NoDup (csv_header (filtered with_notes_page))
  /\ length (csv_records print_float print_time (filtered with_notes_page))
     = length (rows (filtered with_notes_page))
  /\ (rectangular with_notes ->
      List.Forall (fun fields => length fields = length (csv_header (filtered with_notes_page)))
        (csv_records print_float print_time (filtered with_notes_page)))
  /\ (forall i j r c,
        nth_error (rows (filtered with_notes_page)) i = Some r ->
        nth_error r j = Some c ->
        exists fields field,
          nth_error (csv_records print_float print_time (filtered with_notes_page)) i
          = Some fields
          /\ nth_error fields j = Some field
          /\ (forall s, c = CStr s -> field = s)
          /\ (forall z, c = CInt z -> field = decimal z)
          /\ (isna c = true -> field = EmptyString)
          /\ (forall x, c = CNum x -> F64.is_nan x = false -> field = print_float x)
          /\ (forall t, c = CTime t ->
                field = print_time (nth_column (filtered with_notes_page) j) t)).
Proof.
  apply (export_header_and_rows parse_decimal read_dates plain_sum plain_sum
           print_float print_time
           with_notes (default_mapping (columns with_notes)) untouched with_notes_page).
  vm_compute. reflexivity.
Defined.

(** Region and Product mapped to one column, no column named Region or
    Product: the script stops, but on the two Price columns and with a
    [TypeError], before Region is read. *)
Lemma collision_without_KeyError :
  region_col pick_A_twice = product_col pick_A_twice
  /\ (forall c, In c (columns (normalize_columns colliding)) ->
        c <> "Region" /\ c <> "Product")
  /\ dashboard parse_decimal read_dates plain_sum plain_sum colliding pick_A_twice untouched
     = inl TypeError.
Proof.
  split; [reflexivity | ].
  split.
  - intros c Hc. vm_compute in Hc.
    repeat (destruct Hc as [<- | Hc]; [split; discriminate | ]). destruct Hc.
  - vm_compute. reflexivity.
Qed.

(** Region and Product mapped to column A of a table without canonical
    names: Price and Quantity are read, then Region is missed. *)
Lemma colliding_roles_stop_the_script_on_plain :
  dashboard parse_decimal read_dates plain_sum plain_sum plain pick_A_twice untouched
  = inl (KeyError "Region").
Proof.
  destruct (colliding_roles_stop_the_script parse_decimal read_dates plain_sum plain_sum
              plain pick_A_twice untouched) as [Hlost _].
  destruct (Hlost RegionRole ProductRole) as [_ [_ [_ Hkey]]].
  - simpl. lia.
  - reflexivity.
  - intros c Hc Hname. vm_compute in Hc.
    repeat (destruct Hc as [<- | Hc]; [discriminate | ]). destruct Hc.
  - apply (Hkey ["Price"; "Quantity"] ["Product"]).
    + reflexivity.
    + intros x Hx. simpl in Hx.
      repeat (destruct Hx as [<- | Hx]; [vm_compute; reflexivity | ]). destruct Hx.
    + intros Hdate. vm_compute in Hdate. discriminate.
Defined.

(** * Further properties of the script *)

(** ** The smallest and the largest value of a column (lines 80-81) *)

Lemma pick_min_from (s : Series) (acc : spec_float) :
  (F64.is_nan acc = false ->
   F64.is_nan (fold_left (pick F64.ltb) s acc) = false
   /\ F64.leb (fold_left (pick F64.ltb) s acc) acc = true)
  /\ (forall c, In c s -> F64.is_nan (num c) = false ->
        F64.is_nan (fold_left (pick F64.ltb) s acc) = false
        /\ F64.leb (fold_left (pick F64.ltb) s acc) (num c) = true).
Proof.
  revert acc. induction s as [ | c s IH]; intros acc; simpl.
  - split; [ | intros c []]. intros N. split; [exact N | apply leb_refl, N].
  - destruct (IH (pick F64.ltb acc c)) as [IHacc IHin].
    assert (Hstep : F64.is_nan (num c) = false ->
                    F64.is_nan (pick F64.ltb acc c) = false
                    /\ F64.leb (pick F64.ltb acc c) (num c) = true
                    /\ (F64.is_nan acc = false -> F64.leb (pick F64.ltb acc c) acc = true)).
    { intros Nc. unfold pick. rewrite Nc. destruct (F64.is_nan acc) eqn:Na.
      - split; [exact Nc | ]. split; [apply leb_refl, Nc | discriminate].
      - destruct (F64.ltb (num c) acc) eqn:L.
        + split; [exact Nc | ]. split; [apply leb_refl, Nc | intros _; apply ltb_leb, L].
        + split; [exact Na | ]. split; [apply ltb_false_leb; assumption | ].
          intros _. apply leb_refl, Na. }
    split.
    + intros Na. destruct (F64.is_nan (num c)) eqn:Nc.
      * unfold pick in *. rewrite Nc in *. apply IHacc, Na.
      * destruct (Hstep eq_refl) as [Np [_ Hacc]].
        destruct (IHacc Np) as [Nm Hm]. split; [exact Nm | ].
        apply (leb_trans _ _ _ Hm). apply Hacc, Na.
    + intros c' [<- | Hin] Nc'.
      * destruct (Hstep Nc') as [Np [Hc _]].
        destruct (IHacc Np) as [Nm Hm]. split; [exact Nm | ].
        apply (leb_trans _ _ _ Hm Hc).
      * apply IHin; assumption.
Qed.

Lemma pick_max_from (s : Series) (acc : spec_float) :
  (F64.is_nan acc = false ->
   F64.is_nan (fold_left (pick (fun x a => F64.ltb a x)) s acc) = false
   /\ F64.leb acc (fold_left (pick (fun x a => F64.ltb a x)) s acc) = true)
  /\ (forall c, In c s -> F64.is_nan (num c) = false ->
        F64.is_nan (fold_left (pick (fun x a => F64.ltb a x)) s acc) = false
        /\ F64.leb (num c) (fold_left (pick (fun x a => F64.ltb a x)) s acc) = true).
Proof.
  revert acc. induction s as [ | c s IH]; intros acc; simpl.
  - split; [ | intros c []]. intros N. split; [exact N | apply leb_refl, N].
  - destruct (IH (pick (fun x a => F64.ltb a x) acc c)) as [IHacc IHin].
    assert (Hstep : F64.is_nan (num c) = false ->
                    F64.is_nan (pick (fun x a => F64.ltb a x) acc c) = false
                    /\ F64.leb (num c) (pick (fun x a => F64.ltb a x) acc c) = true
                    /\ (F64.is_nan acc = false ->
                        F64.leb acc (pick (fun x a => F64.ltb a x) acc c) = true)).
    { intros Nc. unfold pick. rewrite Nc. destruct (F64.is_nan acc) eqn:Na.
      - split; [exact Nc | ]. split; [apply leb_refl, Nc | discriminate].
      - destruct (F64.ltb acc (num c)) eqn:L.
        + split; [exact Nc | ]. split; [apply leb_refl, Nc | intros _; apply ltb_leb, L].
        + split; [exact Na | ]. split; [apply ltb_false_leb; assumption | ].
          intros _. apply leb_refl, Na. }
    split.
    + intros Na. destruct (F64.is_nan (num c)) eqn:Nc.
      * unfold pick in *. rewrite Nc in *. apply IHacc, Na.
      * destruct (Hstep eq_refl) as [Np [_ Hacc]].
        destruct (IHacc Np) as [Nm Hm]. split; [exact Nm | ].
        apply (leb_trans _ _ _ (Hacc Na) Hm).
    + intros c' [<- | Hin] Nc'.
      * destruct (Hstep Nc') as [Np [Hc _]].
        destruct (IHacc Np) as [Nm Hm]. split; [exact Nm | ].
        apply (leb_trans _ _ _ Hc Hm).
      * apply IHin; assumption.
Qed.

Lemma pick_all_missing (better : spec_float -> spec_float -> bool) (s : Series) :
  (forall c, In c s -> F64.is_nan (num c) = true) ->
  fold_left (pick better) s F64.nan = F64.nan.
Proof.
  induction s as [ | c s IH]; intros Hall; simpl; [reflexivity | ].
  unfold pick at 2. rewrite (Hall c) by (simpl; auto).
  apply IH. intros c' Hin. apply Hall. simpl; auto.
Qed.

(** X1. [min()] and [max()] of a column bound its values: every value
    that is present lies between them, and they are present themselves as
    soon as one value is; on a column with no value both are missing. *)
Theorem min_max_bound_the_column (s : Series) :
  (forall c, In c s -> F64.is_nan (num c) = false ->
     F64.is_nan (series_min s) = false /\ F64.is_nan (series_max s) = false
     /\ F64.le (series_min s) (num c) /\ F64.le (num c) (series_max s))
  /\ ((forall c, In c s -> F64.is_nan (num c) = true) ->
      series_min s = F64.nan /\ series_max s = F64.nan).
Proof.
  split.
  - intros c Hin Nc.
    destruct (pick_min_from s F64.nan) as [_ Hmin].
    destruct (pick_max_from s F64.nan) as [_ Hmax].
    destruct (Hmin c Hin Nc) as [N1 L1]. destruct (Hmax c Hin Nc) as [N2 L2].
    rewrite <- !leb_le. auto.
  - intros Hall. split; apply pick_all_missing, Hall.
Qed.

(** ** The values offered by the multiselects (lines 74-78) *)

Lemma ts_compare_refl (t : Timestamp) : ts_compare t t = Eq.
Proof.
  unfold ts_compare, date_compare, lex. rewrite !Z.compare_refl. reflexivity.
Qed.

Lemma cell_eqb_refl (c : cell) : cell_eqb c c = true.
Proof.
  destruct c as [s | z | x | t | ]; simpl.
  - apply String.eqb_refl.
  - apply Z.eqb_refl.
  - destruct (F64.is_nan x) eqn:N; [reflexivity | ]. simpl. apply eqb_refl, N.
  - rewrite ts_compare_refl. reflexivity.
  - reflexivity.
Qed.

(** A value that matches a present value is present. *)
Lemma cell_eqb_present (c v : cell) :
  cell_eqb c v = true -> isna v = false -> isna c = false.
Proof.
  destruct c as [s | z | x | t | ], v as [s' | z' | y | t' | ]; simpl;
    try discriminate; auto.
  intros H Ny. rewrite Ny, andb_false_r in H. simpl in H.
  apply eqb_not_nan in H. tauto.
Qed.

Lemma unique_from (s seen : Series) :
  let step := fun (seen : Series) c =>
                if existsb (cell_eqb c) seen then seen else seen ++ [c] in
  (forall u, In u (fold_left step s seen) -> In u seen \/ In u s)
  /\ (forall u, In u seen -> In u (fold_left step s seen))
  /\ (forall c, In c s -> existsb (cell_eqb c) (fold_left step s seen) = true).
Proof.
  intros step. revert seen. induction s as [ | c s IH]; intros seen; simpl.
  - repeat split; auto; try (intros ? []).
  - destruct (IH (step seen c)) as [IH1 [IH2 IH3]].
    assert (Hgrow : forall u, In u seen -> In u (step seen c)).
    { intros u Hu. unfold step. destruct (existsb (cell_eqb c) seen); [exact Hu | ].
      apply in_or_app. auto. }
    assert (Hc : existsb (cell_eqb c) (step seen c) = true).
    { unfold step. destruct (existsb (cell_eqb c) seen) eqn:E; [exact E | ].
      rewrite existsb_app. simpl. rewrite cell_eqb_refl. apply orb_true_r. }
    split; [ | split].
    + intros u Hu. destruct (IH1 u Hu) as [H | H]; [ | auto].
      unfold step in H. destruct (existsb (cell_eqb c) seen); [auto | ].
      apply in_app_or in H. destruct H as [H | [<- | []]]; auto.
    + intros u Hu. apply IH2, Hgrow, Hu.
    + intros c' [<- | Hin]; [ | apply IH3, Hin].
      apply existsb_exists in Hc. destruct Hc as [v [Hv Heq]].
      apply existsb_exists. exists v. split; [apply IH2, Hv | exact Heq].
Qed.

(** No two values of [unique] match. *)
Lemma unique_distinct_from (s seen : Series) :
  let step := fun (seen : Series) c =>
                if existsb (cell_eqb c) seen then seen else seen ++ [c] in
  ForallOrdPairs (fun a b => cell_eqb b a = false) seen ->
  ForallOrdPairs (fun a b => cell_eqb b a = false) (fold_left step s seen).
Proof.
  intros step. revert seen. induction s as [ | c s IH]; intros seen Hseen; simpl.
  - exact Hseen.
  - apply IH. unfold step. destruct (existsb (cell_eqb c) seen) eqn:E; [exact Hseen | ].
    clear IH. induction Hseen as [ | a l Ha Hl IHl]; simpl.
    + constructor; constructor.
    + simpl in E. apply orb_false_iff in E. destruct E as [Ea El].
      constructor; [ | apply IHl, El].
      apply List.Forall_app. split; [exact Ha | ]. constructor; [exact Ea | constructor].
Qed.

Lemma default_filters_inr (df : DataFrame) (spec : FilterSpec) :
  default_filters df = inr spec ->
  region_filter spec = sorted (unique (dropna (column df "Region")))
  /\ product_filter spec = sorted (unique (dropna (column df "Product")))
  /\ price_range spec = (or_zero (series_min (column df "Price")),
                         or_zero (series_max (column df "Price")))
  /\ qty_range spec = (or_zero (series_min (column df "Quantity")),
                       or_zero (series_max (column df "Quantity"))).
Proof.
  unfold default_filters. intros H.
  destruct (getitem df "Region") as [e | sel1] eqn:G1; [discriminate | ].
  apply getitem_inr in G1. destruct G1 as [[_ ->] | [k [_ ->]]]; [ | discriminate].
  unfold bind at 1 2 in H. unfold distinct_values at 1 in H.
  destruct (getitem df "Product") as [e | sel2] eqn:G2; [discriminate | ].
  apply getitem_inr in G2. destruct G2 as [[_ ->] | [k [_ ->]]]; [ | discriminate].
  unfold bind, distinct_values in H. inversion H; subst spec; simpl. auto.
Qed.

(** The values a multiselect offers for a column. *)
Lemma offered_values (s : Series) :
  (forall v, In v (sorted (unique (dropna s))) -> In v s /\ isna v = false)
  /\ (forall c, In c s -> isna c = false ->
        existsb (cell_eqb c) (sorted (unique (dropna s))) = true).
Proof.
  destruct (unique_from (dropna s) []) as [U1 [_ U3]].
  split.
  - intros v Hv. unfold sorted in Hv.
    apply (Permutation_in _ (sort_by_perm _ _)) in Hv.
    destruct (U1 v Hv) as [[] | Hd].
    unfold dropna in Hd. apply List.filter_In in Hd. destruct Hd as [Hin Hna].
    split; [exact Hin | ]. apply negb_true_iff, Hna.
  - intros c Hin Hna.
    assert (Hd : In c (dropna s)).
    { unfold dropna. apply List.filter_In. rewrite Hna. auto. }
    specialize (U3 c Hd). apply existsb_exists in U3. destruct U3 as [v [Hv Heq]].
    apply existsb_exists. exists v. split; [ | exact Heq].
    unfold sorted. apply (Permutation_in _ (Permutation_sym (sort_by_perm _ _))), Hv.
Qed.

Lemma ts_compare_antisym (a b : Timestamp) : ts_compare b a = CompOpp (ts_compare a b).
Proof.
  unfold ts_compare, date_compare, lex.
  rewrite (Z.compare_antisym (year (ts_date a))), (Z.compare_antisym (month (ts_date a))),
    (Z.compare_antisym (day (ts_date a))), (Z.compare_antisym (ts_nanos a)).
  destruct (year (ts_date a) ?= year (ts_date b)); simpl; try reflexivity.
  destruct (month (ts_date a) ?= month (ts_date b)); simpl; try reflexivity.
  destruct (day (ts_date a) ?= day (ts_date b)); simpl; reflexivity.
Qed.

Lemma cell_eqb_sym (a b : cell) : cell_eqb a b = cell_eqb b a.
Proof.
  destruct a as [s | z | x | t | ], b as [s' | z' | y | t' | ]; simpl; try reflexivity.
  - apply String.eqb_sym.
  - apply Z.eqb_sym.
  - rewrite (eqb_sym x y), (andb_comm (F64.is_nan x)). reflexivity.
  - rewrite (ts_compare_antisym t t'). destruct (ts_compare t t'); reflexivity.
Qed.

Lemma unique_NoDup (s : Series) :
  List.NoDup (unique s)
  /\ forall a b, In a (unique s) -> In b (unique s) -> a <> b -> cell_eqb a b = false.
Proof.
  assert (H : ForallOrdPairs (fun a b => cell_eqb b a = false) (unique s)).
  { apply (unique_distinct_from s []). constructor. }
  split.
  - induction H as [ | a l Ha Hl IH]; constructor; [ | exact IH].
    intros Hin. rewrite List.Forall_forall in Ha. specialize (Ha a Hin).
    rewrite cell_eqb_refl in Ha. discriminate.
  - intros a b Ha Hb Hne.
    destruct (ForallOrdPairs_In H a b Ha Hb) as [E | [E | E]]; [contradiction | | exact E].
    rewrite cell_eqb_sym. exact E.
Qed.

(** X2. The Region and Product multiselects offer, by default selected,
    the values of the column: each offered value is a present value of the
    column, no value is offered twice and no two offered values are equal,
    and every present value of the column is among them. *)
Theorem multiselects_offer_the_values (df : DataFrame) (spec : FilterSpec) :
  default_filters df = inr spec ->
  (forall v, In v (region_filter spec) ->
     In v (column df "Region") /\ isna v = false)
  /\ (forall v, In v (product_filter spec) ->
        In v (column df "Product") /\ isna v = false)
  /\ List.NoDup (region_filter spec)
  /\ List.NoDup (product_filter spec)
  /\ (forall a b, In a (region_filter spec) -> In b (region_filter spec) ->
        a <> b -> cell_eqb a b = false)
  /\ (forall a b, In a (product_filter spec) -> In b (product_filter spec) ->
        a <> b -> cell_eqb a b = false)
  /\ (forall c, In c (column df "Region") -> isna c = false ->
        selected c (region_filter spec))
  /\ (forall c, In c (column df "Product") -> isna c = false ->
        selected c (product_filter spec)).
Proof.
  intros H. destruct (default_filters_inr _ _ H) as [-> [-> _]].
  destruct (offered_values (column df "Region")) as [R1 R2].
  destruct (offered_values (column df "Product")) as [P1 P2].
  destruct (unique_NoDup (dropna (column df "Region"))) as [RN RD].
  destruct (unique_NoDup (dropna (column df "Product"))) as [PN PD].
  assert (RP := sort_by_perm (fun a b => negb (cell_ltb b a))
                  (unique (dropna (column df "Region")))).
  assert (PP := sort_by_perm (fun a b => negb (cell_ltb b a))
                  (unique (dropna (column df "Product")))).
  split; [exact R1 | ]. split; [exact P1 | ].
  split; [apply (Permutation_NoDup (Permutation_sym RP)), RN | ].
  split; [apply (Permutation_NoDup (Permutation_sym PP)), PN | ].
  split.
  { intros a b Ha Hb. apply RD; eapply Permutation_in; eassumption. }
  split.
  { intros a b Ha Hb. apply PD; eapply Permutation_in; eassumption. }
  split; intros c Hin Hna; apply existsb_selected; auto.
Qed.

(** ** Untouched filters (lines 74-95) *)

Lemma or_zero_present (x : spec_float) : F64.is_nan x = false -> or_zero x = x.
Proof. intros N. unfold or_zero. rewrite N. reflexivity. Qed.

Lemma in_column (df : DataFrame) (name : string) (r : Row) :
  In r (rows df) -> In (cell_at name (columns df) r) (column df name).
Proof. intros H. unfold column. apply in_map, H. Qed.

Lemma default_range_keeps (s : Series) (c : cell) :
  In c s -> F64.is_nan (num c) = false ->
  F64.leb (or_zero (series_min s)) (num c) && F64.leb (num c) (or_zero (series_max s)) = true.
Proof.
  intros Hin N.
  destruct (pick_min_from s F64.nan) as [_ Hmin].
  destruct (pick_max_from s F64.nan) as [_ Hmax].
  destruct (Hmin c Hin N) as [N1 L1]. destruct (Hmax c Hin N) as [N2 L2].
  unfold series_min, series_max. rewrite !or_zero_present by assumption.
  rewrite L1, L2. reflexivity.
Qed.

(** With the defaults of the widgets a row passes the filters exactly
    when nothing is missing in it, provided Price and Quantity are
    numeric cells, as they are in a canonical table. *)
Lemma default_filters_keep (df : DataFrame) (spec : FilterSpec) (r : Row) :
  default_filters df = inr spec ->
  In r (rows df) ->
  is_number (Price df r) = true -> is_number (Quantity df r) = true ->
  keeps df spec r = complete df r.
Proof.
  intros Hd Hin Hp Hq.
  destruct (complete df r) eqn:C.
  - unfold complete in C. rewrite !andb_true_iff, !negb_true_iff in C.
    destruct C as [[[CR CP] CPr] CQ].
    destruct (default_filters_inr _ _ Hd) as [ER [EP [EPr EQ]]].
    unfold keeps. rewrite ER, EP, EPr, EQ. simpl fst. simpl snd.
    destruct (offered_values (column df "Region")) as [_ R2].
    destruct (offered_values (column df "Product")) as [_ P2].
    rewrite (R2 (Region df r)) by (try apply in_column; assumption).
    rewrite (P2 (Product df r)) by (try apply in_column; assumption).
    rewrite (default_range_keeps (column df "Price") (Price df r)),
      (default_range_keeps (column df "Quantity") (Quantity df r)); try reflexivity.
    + apply in_column, Hin.
    + apply number_present; assumption.
    + apply in_column, Hin.
    + apply number_present; assumption.
  - destruct (keeps df spec r) eqn:K; [ | reflexivity].
    destruct (keeps_not_missing _ _ _ K) as [NP NQ].
    destruct (default_filters_inr _ _ Hd) as [ER [EP _]].
    unfold keeps in K. rewrite !andb_true_iff in K. destruct K as [[[KR KP] _] _].
    rewrite ER in KR. rewrite EP in KP.
    apply existsb_exists in KR. destruct KR as [v [Hv Ev]].
    apply existsb_exists in KP. destruct KP as [w [Hw Ew]].
    destruct (offered_values (column df "Region")) as [R1 _].
    destruct (offered_values (column df "Product")) as [P1 _].
    pose proof (cell_eqb_present _ _ Ev (proj2 (R1 v Hv))) as HR.
    pose proof (cell_eqb_present _ _ Ew (proj2 (P1 w Hw))) as HP.
    unfold complete in C. rewrite HR, HP, NP, NQ in C. discriminate.
Qed.

Section Untouched.

Variable str_to_float : string -> spec_float.
Variable to_timestamp : Series -> nat -> option Timestamp.

(** X3. On a canonical table, with the defaults the widgets offer, the
    categorical and numeric filters keep exactly the rows in which
    Region, Product, Price and Quantity are all present: the default
    selections and ranges drop a row only for a missing value. *)
Theorem untouched_filters_keep_complete_rows
    (raw_df : DataFrame) (m : ColumnMapping) (df : DataFrame) (spec : FilterSpec) :
  rectangular raw_df ->
  prepare str_to_float to_timestamp raw_df m = inr df ->
  default_filters df = inr spec ->
  rows (apply_filters df spec) = List.filter (complete df) (rows df).
Proof.
  intros Hrect Hp Hd. rewrite apply_filters_rows.
  destruct (prepare_inr _ _ _ _ _ Hp) as [_ [_ [_ Hrows]]].
  destruct (Hrows Hrect) as [_ Hcells].
  apply filter_ext_in. intros r Hin.
  destruct (Hcells r Hin) as [Hprice [Hqty _]].
  apply (default_filters_keep df spec r Hd Hin); assumption.
Qed.

End Untouched.

(** ** Filters applied again (lines 90-95) *)

Lemma frame_eta (df : DataFrame) : df = mkFrame (columns df) (rows df).
Proof. destruct df; reflexivity. Qed.

Lemma filter_twice {A} (f : A -> bool) (l : list A) :
  List.filter f (List.filter f l) = List.filter f l.
Proof.
  induction l as [ | x l IH]; simpl; [reflexivity | ].
  destruct (f x) eqn:E; simpl; rewrite ?E, IH; reflexivity.
Qed.

Lemma filter_swap {A} (f g : A -> bool) (l : list A) :
  List.filter f (List.filter g l) = List.filter g (List.filter f l).
Proof.
  induction l as [ | x l IH]; simpl; [reflexivity | ].
  destruct (f x) eqn:F, (g x) eqn:G; simpl; rewrite ?F, ?G, IH; reflexivity.
Qed.

(** X4. Filtering a filtered table again with the same selections
    changes nothing, and two settings of the filters give the same table
    whichever is applied first. *)
Theorem filters_idempotent_and_commute (df : DataFrame) (spec spec' : FilterSpec) :
  apply_filters (apply_filters df spec) spec = apply_filters df spec
  /\ apply_filters (apply_filters df spec) spec'
     = apply_filters (apply_filters df spec') spec.
Proof.
  split.
  - rewrite (frame_eta (apply_filters (apply_filters df spec) spec)),
      (frame_eta (apply_filters df spec)).
    f_equal. rewrite (apply_filters_rows (apply_filters df spec)), apply_filters_rows.
    apply filter_twice.
  - rewrite (frame_eta (apply_filters (apply_filters df spec) spec')),
      (frame_eta (apply_filters (apply_filters df spec') spec)).
    f_equal.
    rewrite (apply_filters_rows (apply_filters df spec)),
      (apply_filters_rows (apply_filters df spec')), !apply_filters_rows.
    apply filter_swap.
Qed.

(** ** The date filter, row by row (lines 97-107) *)

(** X5. The date filter keeps a subsequence of the rows: exactly those
    with a timestamp from the midnight that opens the first picked day to
    the midnight that opens the last picked day. A row without a date is
    dropped, and so is a row of the last day later than midnight. *)
Theorem date_filter_keeps_rows_in_range (df : DataFrame) (date_range : Date * Date) :
  columns (apply_date_filter df date_range) = columns df
  /\ sublist (rows (apply_date_filter df date_range)) (rows df)
  /\ (forall r,
        In r (rows (apply_date_filter df date_range)) <->
        In r (rows df)
        /\ exists t, DateOf df r = CTime t
                     /\ ts_leb (midnight (fst date_range)) t = true
                     /\ ts_leb t (midnight (snd date_range)) = true)
  /\ (forall r, time_of (DateOf df r) = None ->
        ~ In r (rows (apply_date_filter df date_range)))
  /\ (forall r t, DateOf df r = CTime t -> date_of t = snd date_range ->
        0 < ts_nanos t -> ~ In r (rows (apply_date_filter df date_range))).
Proof.
  split; [reflexivity | ].
  split; [rewrite apply_date_filter_rows; apply filter_sublist | ].
  split; [intros r; apply date_filter_keeps | ].
  split.
  - intros r Hnone Hin. apply date_filter_keeps in Hin.
    destruct Hin as [_ [t [Ht _]]]. rewrite Ht in Hnone. discriminate.
  - intros r t. apply late_on_last_day_dropped.
Qed.

Lemma pick_time_all_none (better : Timestamp -> Timestamp -> bool) (s : Series) :
  (forall c, In c s -> time_of c = None) -> fold_left (pick_time better) s None = None.
Proof.
  induction s as [ | c s IH]; intros Hall; simpl; [reflexivity | ].
  unfold pick_time at 2. rewrite (Hall c) by (simpl; auto).
  apply IH. intros c' Hin. apply Hall. simpl; auto.
Qed.

(** X6. The date step leaves the table as it is when no date column is
    mapped, when no row has a date, or while the picker holds no complete
    range. *)
Theorem date_step_skipped (m : ColumnMapping) (ui : Widgets) (df : DataFrame) :
  has_date m = false
  \/ (forall r, In r (rows df) -> time_of (DateOf df r) = None)
  \/ (forall offered, pick_dates ui offered = None) ->
  date_step m ui df = df.
Proof.
  intros H. unfold date_step. destruct (has_date m); [ | reflexivity].
  destruct H as [H | [H | H]]; [discriminate | | ].
  - unfold time_min. rewrite pick_time_all_none; [reflexivity | ].
    intros c Hc. unfold column in Hc. apply in_map_iff in Hc.
    destruct Hc as [r [<- Hr]]. apply H, Hr.
  - destruct (time_min _); [ | reflexivity].
    destruct (time_max _); [ | reflexivity].
    rewrite H. reflexivity.
Qed.

(** ** The default range of the date picker (lines 97-107) *)

Lemma ts_leb_ltb (a b : Timestamp) : ts_leb a b = negb (ts_ltb b a).
Proof.
  unfold ts_leb, ts_ltb. rewrite (ts_compare_antisym a b).
  destruct (ts_compare a b); reflexivity.
Qed.

Lemma ts_leb_refl (t : Timestamp) : ts_leb t t = true.
Proof. unfold ts_leb. rewrite ts_compare_refl. reflexivity. Qed.

Lemma ts_leb_trans (a b c : Timestamp) :
  ts_leb a b = true -> ts_leb b c = true -> ts_leb a c = true.
Proof.
  rewrite !ts_leb_ltb, !negb_true_iff.
  intros H1 H2. destruct (ts_ltb c a) eqn:E; [ | reflexivity].
  apply not_true_iff_false in H1. apply not_true_iff_false in H2.
  rewrite ts_ltb_spec in *. lia.
Qed.

Lemma ts_ltb_leb (a b : Timestamp) : ts_ltb a b = true -> ts_leb a b = true.
Proof.
  intros H. rewrite ts_leb_ltb, negb_true_iff.
  destruct (ts_ltb b a) eqn:E; [ | reflexivity].
  rewrite ts_ltb_spec in *. lia.
Qed.

Lemma midnight_of_day (t : Timestamp) : ts_nanos t = 0 -> midnight (date_of t) = t.
Proof. destruct t as [d k]; simpl. intros ->. reflexivity. Qed.

Section Extremes.

(** [better] picks the smaller (or the larger) timestamp; [good x y]
    says that [x] is at least as small (as large) as [y]. *)
Variable better : Timestamp -> Timestamp -> bool.
Variable good : Timestamp -> Timestamp -> bool.
Hypothesis good_refl : forall t, good t t = true.
Hypothesis good_trans : forall a b c, good a b = true -> good b c = true -> good a c = true.
Hypothesis better_good : forall t a, better t a = true -> good t a = true.
Hypothesis worse_good : forall t a, better t a = false -> good a t = true.

Lemma pick_time_from (s : Series) (acc : option Timestamp) :
  (forall a, acc = Some a ->
     exists x, fold_left (pick_time better) s acc = Some x /\ good x a = true)
  /\ (forall c t, In c s -> time_of c = Some t ->
        exists x, fold_left (pick_time better) s acc = Some x /\ good x t = true)
  /\ (forall x, fold_left (pick_time better) s acc = Some x ->
        acc = Some x \/ exists c, In c s /\ time_of c = Some x).
Proof.
  revert acc. induction s as [ | c s IH]; intros acc; simpl.
  - split; [ | split].
    + intros a ->. exists a. auto.
    + intros c t [].
    + auto.
  - destruct (IH (pick_time better acc c)) as [IH1 [IH2 IH3]].
    split; [ | split].
    + intros a ->. unfold pick_time in IH1 |- *.
      destruct (time_of c) as [t | ]; [ | apply IH1; reflexivity].
      destruct (better t a) eqn:B.
      * destruct (IH1 t eq_refl) as [x [Hx Hg]]. exists x. split; [exact Hx | ].
        apply (good_trans _ _ _ Hg). apply better_good, B.
      * apply IH1; reflexivity.
    + intros c' t [<- | Hin] Ht; [ | apply (IH2 c' t Hin Ht)].
      unfold pick_time in IH1 |- *. rewrite Ht in *.
      destruct acc as [a | ]; [ | apply IH1; reflexivity].
      destruct (better t a) eqn:B.
      * apply IH1; reflexivity.
      * destruct (IH1 a eq_refl) as [x [Hx Hg]]. exists x. split; [exact Hx | ].
        apply (good_trans _ _ _ Hg). apply worse_good, B.
    + intros x Hx. destruct (IH3 x Hx) as [H | [c' [Hin Ht]]].
      * unfold pick_time in H. destruct (time_of c) as [t | ] eqn:Ht; [ | auto].
        destruct acc as [a | ].
        -- destruct (better t a); inversion H; subst; eauto.
        -- inversion H; subst. eauto.
      * right. exists c'. auto.
Qed.

End Extremes.

Lemma time_min_spec (s : Series) (c : cell) (t : Timestamp) :
  In c s -> time_of c = Some t ->
  exists x, time_min s = Some x /\ ts_leb x t = true
            /\ exists c', In c' s /\ time_of c' = Some x.
Proof.
  intros Hin Ht.
  destruct (pick_time_from ts_ltb ts_leb ts_leb_refl ts_leb_trans ts_ltb_leb) with
    (s := s) (acc := @None Timestamp) as [_ [H2 H3]].
  { intros a b Hb. rewrite ts_leb_ltb, Hb. reflexivity. }
  destruct (H2 c t Hin Ht) as [x [Hx Hg]]. exists x. split; [exact Hx | ].
  split; [exact Hg | ]. destruct (H3 x Hx) as [H | H]; [discriminate | exact H].
Qed.

Lemma time_max_spec (s : Series) (c : cell) (t : Timestamp) :
  In c s -> time_of c = Some t ->
  exists x, time_max s = Some x /\ ts_leb t x = true
            /\ exists c', In c' s /\ time_of c' = Some x.
Proof.
  intros Hin Ht.
  destruct (pick_time_from (fun u a => ts_ltb a u) (fun x y => ts_leb y x)) with
    (s := s) (acc := @None Timestamp) as [_ [H2 H3]].
  - intros u. apply ts_leb_refl.
  - intros a b c0 H1 H2. apply (ts_leb_trans _ _ _ H2 H1).
  - intros u a Hb. apply ts_ltb_leb, Hb.
  - intros u a Hb. rewrite ts_leb_ltb, Hb. reflexivity.
  - destruct (H2 c t Hin Ht) as [x [Hx Hg]]. exists x. split; [exact Hx | ].
    split; [exact Hg | ]. destruct (H3 x Hx) as [H | H]; [discriminate | exact H].
Qed.

Lemma time_of_CTime (c : cell) (t : Timestamp) : time_of c = Some t -> c = CTime t.
Proof. destruct c; simpl; intros H; inversion H; reflexivity. Qed.

(** X7. When the dates of the table are days (timestamps at midnight)
    and at least one row has one, the range the date picker offers, left
    as it is, keeps every row that has a date and drops the rows that have
    none. *)
Theorem default_date_range_on_days (m : ColumnMapping) (df : DataFrame) :
  has_date m = true ->
  (forall r t, In r (rows df) -> DateOf df r = CTime t -> ts_nanos t = 0) ->
  (exists r, In r (rows df) /\ dated df r = true) ->
  rows (date_step m untouched df) = List.filter (dated df) (rows df).
Proof.
  intros Hdate Hdays [r0 [Hr0 Hd0]].
  unfold dated in Hd0. destruct (time_of (DateOf df r0)) as [t0 | ] eqn:Ht0; [ | discriminate].
  assert (Hcol : forall r t, In r (rows df) -> time_of (DateOf df r) = Some t ->
                   In (DateOf df r) (column df "Date")).
  { intros r t Hr _. apply in_column, Hr. }
  assert (Hmid : forall c x, In c (column df "Date") -> time_of c = Some x ->
                   midnight (date_of x) = x).
  { intros c x Hc Hx. apply midnight_of_day.
    unfold column in Hc. apply in_map_iff in Hc. destruct Hc as [r [<- Hr]].
    apply (Hdays r x Hr). apply time_of_CTime, Hx. }
  destruct (time_min_spec _ _ _ (Hcol r0 t0 Hr0 Ht0) Ht0) as [lo [Elo [_ [clo [Hclo Hlo]]]]].
  destruct (time_max_spec _ _ _ (Hcol r0 t0 Hr0 Ht0) Ht0) as [hi [Ehi [_ [chi [Hchi Hhi]]]]].
  unfold date_step. rewrite Hdate, Elo, Ehi. unfold untouched. cbn [pick_dates].
  rewrite apply_date_filter_rows. apply filter_ext_in. intros r Hr.
  unfold in_date_range, dated. simpl fst. simpl snd.
  destruct (time_of (DateOf df r)) as [t | ] eqn:Ht; [ | reflexivity].
  rewrite (Hmid clo lo Hclo Hlo), (Hmid chi hi Hchi Hhi).
  destruct (time_min_spec _ _ _ (Hcol r t Hr Ht) Ht) as [lo' [Elo' [Hle _]]].
  destruct (time_max_spec _ _ _ (Hcol r t Hr Ht) Ht) as [hi' [Ehi' [Hge _]]].
  rewrite Elo in Elo'. rewrite Ehi in Ehi'. inversion Elo'; inversion Ehi'; subst.
  rewrite Hle, Hge. reflexivity.
Qed.

(** ** Writing a column and reading it back (lines 65-71) *)

Lemma rows_setitem (df : DataFrame) (name : string) (s : Series) :
  length s = length (rows df) ->
  length (rows (setitem df name s)) = length (rows df).
Proof. intros H. simpl. apply length_map2. symmetry. exact H. Qed.

Lemma column_setitem_same (df : DataFrame) (name : string) (s : Series) :
  rectangular df -> length s = length (rows df) ->
  column (setitem df name s) name = s.
Proof.
  unfold rectangular, column. simpl. generalize (columns df) as cols. intros cols.
  revert s. induction (rows df) as [ | r l IH]; intros s Hrect Hlen.
  - destruct s; [reflexivity | discriminate].
  - destruct s as [ | v s]; [discriminate | ]. simpl.
    inversion Hrect as [ | ? ? Hr Hl]; subst.
    rewrite cell_at_put_same by exact Hr. f_equal. apply IH; [exact Hl | ].
    simpl in Hlen. lia.
Qed.

Lemma column_setitem_other (df : DataFrame) (name other : string) (s : Series) :
  other <> name -> rectangular df -> length s = length (rows df) ->
  column (setitem df name s) other = column df other.
Proof.
  intros Hne. unfold rectangular, column. simpl. generalize (columns df) as cols. intros cols.
  revert s. induction (rows df) as [ | r l IH]; intros s Hrect Hlen.
  - destruct s; reflexivity.
  - destruct s as [ | v s]; [discriminate | ]. simpl.
    inversion Hrect as [ | ? ? Hr Hl]; subst.
    rewrite cell_at_put_other by assumption. f_equal. apply IH; [exact Hl | ].
    simpl in Hlen. lia.
Qed.

Lemma count_label_put_same (name : string) (cols : list string) :
  (count_label name cols <= 1)%nat -> count_label name (put_label name cols) = 1%nat.
Proof.
  intros H. unfold put_label. rewrite has_label_count.
  destruct (count_label name cols) as [ | k] eqn:E; simpl.
  - unfold count_label in *. rewrite List.filter_app, length_app, E. simpl.
    rewrite String.eqb_refl. reflexivity.
  - rewrite E. lia.
Qed.

(** X8. After [df[name] = series] on a table where at most one column
    bears the label, [df[name]] reads the series back, the table has as
    many rows as before, and reading any other label gives what it gave
    before the assignment. *)
Theorem setitem_then_getitem (df : DataFrame) (name : string) (s : Series) :
  rectangular df ->
  length s = length (rows df) ->
  (count_label name (columns df) <= 1)%nat ->
  getitem (setitem df name s) name = inr (OneColumn s)
  /\ length (rows (setitem df name s)) = length (rows df)
  /\ rectangular (setitem df name s)
  /\ forall other, other <> name ->
       getitem (setitem df name s) other = getitem df other.
Proof.
  intros Hrect Hlen Hcount.
  split.
  { unfold getitem. change (columns (setitem df name s)) with (put_label name (columns df)).
    rewrite (count_label_put_same _ _ Hcount), column_setitem_same by assumption.
    reflexivity. }
  split; [apply rows_setitem, Hlen | ].
  split; [apply rectangular_setitem, Hrect | ].
  intros other Hne. unfold getitem.
  change (columns (setitem df name s)) with (put_label name (columns df)).
  rewrite count_label_put_other, column_setitem_other by assumption. reflexivity.
Qed.

(** ** What canonicalisation keeps (lines 56-71) *)

Section Kept.

Variable str_to_float : string -> spec_float.
Variable to_timestamp : Series -> nat -> option Timestamp.

Lemma prepare_steps (raw_df : DataFrame) (m : ColumnMapping) (df : DataFrame) :
  prepare str_to_float to_timestamp raw_df m = inr df ->
  let df0 := rename raw_df (rename_dict m) in
  let df1 := setitem df0 "Price" (map (to_numeric str_to_float) (column df0 "Price")) in
  let df2 := setitem df1 "Quantity" (map (to_numeric str_to_float) (column df1 "Quantity")) in
  let df3 := setitem df2 "Revenue" (series_mul (column df2 "Price") (column df2 "Quantity")) in
  (has_date m = false /\ df = df3)
  \/ (has_date m = true
      /\ df = setitem df3 "Date"
                (map (fun i => match to_timestamp (column raw_df (date_col m)) i with
                               | Some t => CTime t
                               | None => CNaT
                               end) (seq 0 (length (column raw_df (date_col m)))))).
Proof.
  intros H. cbv zeta. unfold prepare in H.
  set (df0 := rename raw_df (rename_dict m)) in *.
  destruct (getitem df0 "Price") as [e | sel] eqn:G1; [discriminate | ].
  apply getitem_inr in G1. destruct G1 as [[_ ->] | [k [_ ->]]]; [ | discriminate].
  unfold bind at 1 2 in H. unfold safe_numeric at 1 in H.
  set (df1 := setitem df0 "Price" (map (to_numeric str_to_float) (column df0 "Price"))) in *.
  destruct (getitem df1 "Quantity") as [e | sel] eqn:G2; [discriminate | ].
  apply getitem_inr in G2. destruct G2 as [[_ ->] | [k [_ ->]]]; [ | discriminate].
  unfold bind at 1 2 in H. unfold safe_numeric at 1 in H.
  set (df2 := setitem df1 "Quantity" _) in *.
  set (df3 := setitem df2 "Revenue" _) in *.
  destruct (has_date m).
  - right. split; [reflexivity | ].
    destruct (getitem raw_df (date_col m)) as [e | sel] eqn:G3; [discriminate | ].
    apply getitem_inr in G3. destruct G3 as [[_ ->] | [k [_ ->]]]; [ | discriminate].
    unfold bind, to_datetime in H. inversion H. reflexivity.
  - left. split; [reflexivity | ]. inversion H. reflexivity.
Qed.

Lemma length_column (df : DataFrame) (name : string) :
  length (column df name) = length (rows df).
Proof. unfold column. apply length_map. Qed.

Lemma length_series_mul (p q : Series) :
  length p = length q -> length (series_mul p q) = length p.
Proof. intros H. unfold series_mul. apply length_map2, H. Qed.


End Kept.

(** ** The data-quality table (line 123) *)

Lemma in_combine_seq {A} (l : list A) (k i : nat) (x : A) :
  nth_error l i = Some x -> In ((k + i)%nat, x) (combine (seq k (length l)) l).
Proof.
  revert k i. induction l as [ | a l IH]; intros k i H.
  - destruct i; discriminate.
  - destruct i as [ | i]; simpl in *.
    + inversion H; subst. left. f_equal. lia.
    + right. replace (k + S i)%nat with (S k + i)%nat by lia. apply IH, H.
Qed.

(** The first column labelled [name], by position. *)
Lemma first_column_position (name : string) (cols : list string) :
  In name cols ->
  exists i, nth_error cols i = Some name
            /\ forall r : Row, length r = length cols ->
                 cell_at name cols r = nth i r missing.
Proof.
  induction cols as [ | c cols IH]; intros Hin; [contradiction | ].
  destruct (String.eqb c name) eqn:E.
  - apply String.eqb_eq in E. subst c. exists 0%nat. split; [reflexivity | ].
    intros r Hlen. destruct r; [discriminate | ]. simpl. rewrite String.eqb_refl. reflexivity.
  - destruct Hin as [-> | Hin]; [rewrite String.eqb_refl in E; discriminate | ].
    destruct (IH Hin) as [i [Hi Hcell]]. exists (S i). split; [exact Hi | ].
    intros r Hlen. destruct r as [ | x r]; [discriminate | ]. simpl. rewrite E.
    apply Hcell. simpl in Hlen. lia.
Qed.

Lemma missing_report_entry (df : DataFrame) (name : string) :
  rectangular df -> In name (columns df) ->
  In (name, missing_of df name) (missing_report df).
Proof.
  intros Hrect Hin. destruct (first_column_position _ _ Hin) as [i [Hi Hcell]].
  unfold missing_report. apply in_map_iff. exists (i, name). split.
  - simpl. unfold missing_of, column, nth_column. do 2 f_equal.
    apply map_ext_in. intros r Hr. symmetry. apply Hcell.
    unfold rectangular in Hrect. rewrite List.Forall_forall in Hrect. apply Hrect, Hr.
  - apply (in_combine_seq (columns df) 0 i name Hi).
Qed.

Lemma count_missing_le (s : Series) : (count_missing s <= length s)%nat.
Proof. unfold count_missing. apply List.filter_length_le. Qed.

(** X10. The data-quality table has one line per column of the table,
    in the order of the header; no count exceeds the number of rows; and
    on a rectangular table the line of a label counts the missing cells
    of the column that label reads. *)
Theorem missing_report_lists_every_column (df : DataFrame) :
  map fst (missing_report df) = columns df
  /\ List.Forall (fun line => (snd line <= length (rows df))%nat) (missing_report df)
  /\ (rectangular df ->
      forall name, In name (columns df) ->
        In (name, count_missing (column df name)) (missing_report df)).
Proof.
  split; [ | split].
  - unfold missing_report. rewrite map_map. simpl.
    rewrite <- (map_map snd (fun c : string => c)), map_id.
    generalize 0%nat. induction (columns df) as [ | c cols IH]; intros k; simpl;
      [reflexivity | f_equal; apply IH].
  - unfold missing_report. rewrite List.Forall_forall. intros line Hin.
    apply in_map_iff in Hin. destruct Hin as [[i c] [<- _]]. simpl.
    unfold nth_column. rewrite <- (length_map (fun r : Row => nth i r missing) (rows df)).
    apply count_missing_le.
  - intros Hrect name Hin. apply (missing_report_entry df name Hrect Hin).
Qed.



Lemma count_label_in (name : string) (cols : list string) :
  count_label name cols <> 0%nat -> In name cols.
Proof.
  intros H. destruct (in_dec string_dec name cols) as [Hin | Hout]; [exact Hin | ].
  exfalso. apply H. apply count_label_zero. intros c Hc ->. contradiction.
Qed.

Section Quality.

Variable str_to_float : string -> spec_float.
Variable to_timestamp : Series -> nat -> option Timestamp.
Variable nansum : list spec_float -> spec_float.
Variable group_nansum : list spec_float -> spec_float.


End Quality.

(** ** The aggregates (lines 133-147) *)

Lemma string_ltb_lt (s t : string) : String.ltb s t = true <-> String_as_OT.lt s t.
Proof.
  rewrite <- String_as_OT.cmp_lt. unfold String.ltb, String_as_OT.cmp.
  destruct (String.compare s t); split; intros H; try discriminate; reflexivity.
Qed.

Lemma cell_ltb_irrefl (c : cell) : cell_ltb c c = false.
Proof.
  destruct c as [s | z | x | t | ]; simpl.
  - destruct (String.ltb s s) eqn:E; [ | reflexivity].
    apply string_ltb_lt in E. exfalso. apply (String_as_OT.lt_not_eq _ _ E). reflexivity.
  - apply Z.ltb_irrefl.
  - apply ltb_irrefl.
  - apply ts_ltb_irrefl.
  - reflexivity.
Qed.

Lemma cell_ltb_trans (a b c : cell) :
  cell_ltb a b = true -> cell_ltb b c = true -> cell_ltb a c = true.
Proof.
  destruct a as [s | i | x | t | ], b as [s' | i' | y | t' | ],
    c as [s'' | i'' | z | t'' | ];
    simpl; try discriminate; try reflexivity.
  - rewrite !string_ltb_lt. apply String_as_OT.lt_trans.
  - rewrite !Z.ltb_lt. lia.
  - apply ltb_trans.
  - apply ts_ltb_trans.
Qed.

Lemma add_to_group_keeps {K} (ltb : K -> K -> bool) (k : K) (v : cell)
    (groups : list (K * Series)) (k0 : K) :
  In k0 (map fst groups) -> In k0 (map fst (add_to_group ltb k v groups)).
Proof.
  induction groups as [ | [k' acc] rest IH]; simpl; [intros [] | ].
  destruct (ltb k k'); [ | destruct (ltb k' k)]; simpl; intros [<- | H]; auto.
Qed.

Lemma add_to_group_has {K} (ltb : K -> K -> bool) (k : K) (v : cell)
    (groups : list (K * Series)) :
  ltb k k = false ->
  exists k0, In k0 (map fst (add_to_group ltb k v groups))
             /\ ltb k k0 = false /\ ltb k0 k = false.
Proof.
  intros Hirr. induction groups as [ | [k' acc] rest IH]; simpl.
  - exists k. auto.
  - destruct (ltb k k') eqn:E1; [ | destruct (ltb k' k) eqn:E2]; simpl.
    + exists k. auto.
    + destruct IH as [k0 [Hin H]]. exists k0. auto.
    + exists k'. auto.
Qed.

Lemma groupby_has_key {K} (ltb : K -> K -> bool) (kvs : list (option K * cell))
    (groups : list (K * Series)) (k : K) :
  ltb k k = false ->
  In (Some k) (map fst kvs) ->
  exists k0,
    In k0 (map fst (fold_left (fun g (kv : option K * cell) =>
                                 match fst kv with
                                 | Some k => add_to_group ltb k (snd kv) g
                                 | None => g
                                 end) kvs groups))
    /\ ltb k k0 = false /\ ltb k0 k = false.
Proof.
  intros Hirr. revert groups.
  assert (Hkeep : forall (l : list (option K * cell)) g k0,
            In k0 (map fst g) ->
            In k0 (map fst (fold_left (fun g (kv : option K * cell) =>
                                         match fst kv with
                                         | Some k => add_to_group ltb k (snd kv) g
                                         | None => g
                                         end) l g))).
  { induction l as [ | [[k1 | ] v] l IHl]; intros g k0 Hin; simpl; auto.
    apply IHl, add_to_group_keeps, Hin. }
  induction kvs as [ | [[k1 | ] v] l IH]; intros groups Hin; simpl in *.
  - contradiction.
  - destruct Hin as [E | Hin]; [ | apply IH, Hin].
    inversion E; subst k1.
    destruct (add_to_group_has ltb k v groups Hirr) as [k0 [H0 H1]].
    exists k0. split; [apply Hkeep, H0 | exact H1].
  - destruct Hin as [E | Hin]; [discriminate | apply IH, Hin].
Qed.

Lemma group_key_some (c k : cell) : group_key c = Some k -> c = k /\ isna k = false.
Proof.
  unfold group_key. destruct (isna c) eqn:E; intros H; inversion H; subst. auto.
Qed.

(** X12. An aggregate by Product or by Region has one entry per value:
    no key occurs twice, every key is a present value of the column, and
    every present value of the column has an entry with an equal key (for
    a text value, that very text). *)
Theorem aggregates_have_one_entry_per_value
    (group_nansum : list spec_float -> spec_float)
    (filtered_df : DataFrame) (label : string) :
  List.NoDup (map fst (revenue_by group_nansum filtered_df label))
  /\ (forall k, In k (map fst (revenue_by group_nansum filtered_df label)) ->
        In k (column filtered_df label) /\ isna k = false)
  /\ (forall c, In c (column filtered_df label) -> isna c = false ->
        exists k, In k (map fst (revenue_by group_nansum filtered_df label))
                  /\ cell_ltb c k = false /\ cell_ltb k c = false)
  /\ (forall s, In (CStr s) (column filtered_df label) ->
        In (CStr s) (map fst (revenue_by group_nansum filtered_df label))).
Proof.
  set (groups := groupby cell_ltb (map group_key (column filtered_df label))
                   (column filtered_df "Revenue")).
  assert (Hperm : Permutation (map fst (revenue_by group_nansum filtered_df label))
                    (map fst groups)).
  { unfold revenue_by, groups. rewrite map_map.
    change (fun x : cell * cell => fst (shown x)) with (@fst cell cell).
    rewrite <- (groupby_cells_keys group_nansum).
    apply Permutation_map. unfold sort_values_desc. apply sort_by_perm. }
  assert (Hcover : forall c, In c (column filtered_df label) -> isna c = false ->
            exists k, In k (map fst (revenue_by group_nansum filtered_df label))
                      /\ cell_ltb c k = false /\ cell_ltb k c = false).
  { intros c Hin Hna.
    destruct (groupby_has_key cell_ltb
                (combine (map group_key (column filtered_df label))
                         (column filtered_df "Revenue")) [] c (cell_ltb_irrefl c))
      as [k [Hk Hsame]].
    - assert (Hlen : length (map group_key (column filtered_df label))
                     = length (column filtered_df "Revenue")).
      { rewrite length_map. unfold column. rewrite !length_map. reflexivity. }
      clear -Hin Hna Hlen. revert Hlen.
      generalize (column filtered_df "Revenue") as vs.
      induction (column filtered_df label) as [ | c' l IH]; intros vs Hlen; [contradiction | ].
      destruct vs as [ | v vs]; [discriminate | ]. simpl.
      destruct Hin as [-> | Hin].
      + left. unfold group_key. rewrite Hna. reflexivity.
      + right. apply IH; [exact Hin | ]. simpl in Hlen. lia.
    - exists k. split; [ | exact Hsame].
      apply (Permutation_in _ (Permutation_sym Hperm)). exact Hk. }
  split; [ | split; [ | split]].
  - apply (Permutation_NoDup (Permutation_sym Hperm)).
    apply (sorted_NoDup cell_ltb cell_ltb_irrefl).
    apply groupby_sorted. apply cell_ltb_trans.
  - intros k Hk. apply (Permutation_in _ Hperm) in Hk.
    apply groupby_keys in Hk. apply in_map_iff in Hk.
    destruct Hk as [c [Hkey Hc]]. apply group_key_some in Hkey.
    destruct Hkey as [-> Hna]. auto.
  - exact Hcover.
  - intros s Hin. destruct (Hcover (CStr s) Hin eq_refl) as [k [Hk [H1 H2]]].
    destruct k as [t | z | x | t | ]; simpl in H1, H2; try discriminate.
    assert (E : s = t).
    { apply String.compare_eq_iff. unfold String.ltb in H1, H2.
      rewrite String.compare_antisym in H2.
      destruct (String.compare s t); simpl in *; try discriminate; reflexivity. }
    subst t. exact Hk.
Qed.

(** ** Top N (lines 133-138) *)

Lemma StronglySorted_app_cross {A} (R : A -> A -> Prop) (l1 l2 : list A) :
  StronglySorted R (l1 ++ l2) -> forall x y, In x l1 -> In y l2 -> R x y.
Proof.
  induction l1 as [ | a l1 IH]; simpl; intros Hs x y Hx Hy; [contradiction | ].
  inversion Hs as [ | ? ? Hl Ha]; subst.
  destruct Hx as [<- | Hx].
  - rewrite List.Forall_forall in Ha. apply Ha. apply in_or_app. auto.
  - apply (IH Hl x y Hx Hy).
Qed.

(** X13. [head(top_n)] keeps the largest sums: the Product aggregate is
    the first N entries of the sorted aggregate, every entry it leaves out
    has a sum that is missing or at most the sum of every entry it keeps,
    and nothing is left out when there are at most N products. *)
Theorem top_n_keeps_the_largest (group_nansum : list spec_float -> spec_float)
    (filtered_df : DataFrame) (n : nat) :
  prod_rev group_nansum filtered_df n
    ++ skipn n (revenue_by group_nansum filtered_df "Product")
  = revenue_by group_nansum filtered_df "Product"
  /\ length (prod_rev group_nansum filtered_df n)
     = Nat.min n (length (revenue_by group_nansum filtered_df "Product"))
  /\ (forall kept dropped,
        In kept (prod_rev group_nansum filtered_df n) ->
        In dropped (skipn n (revenue_by group_nansum filtered_df "Product")) ->
        F64.is_nan (snd dropped) = true \/ F64.le (snd dropped) (snd kept))
  /\ ((length (revenue_by group_nansum filtered_df "Product") <= n)%nat ->
      prod_rev group_nansum filtered_df n = revenue_by group_nansum filtered_df "Product").
Proof.
  unfold prod_rev.
  split; [apply firstn_skipn | ].
  split; [apply length_firstn | ].
  split.
  - intros kept dropped Hk Hd.
    assert (Hs : StronglySorted
                   (fun a b : cell * spec_float =>
                      F64.is_nan (snd b) = true \/ F64.le (snd b) (snd a))
                   (firstn n (revenue_by group_nansum filtered_df "Product")
                    ++ skipn n (revenue_by group_nansum filtered_df "Product"))).
    { rewrite firstn_skipn. unfold revenue_by. apply StronglySorted_map.
      eapply StronglySorted_weaken; [ | apply sort_values_desc_sorted].
      intros a b H. simpl. apply desc_cells_spec, H. }
    apply (StronglySorted_app_cross _ _ _ Hs kept dropped Hk Hd).
  - intros Hlen. apply firstn_all2, Hlen.
Qed.

(** ** The sum of a group (lines 153-158) *)

Section GroupSums.

Context {K : Type} (ltb : K -> K -> bool).
Hypothesis ltb_irreflexive : forall k, ltb k k = false.
Hypothesis ltb_transitive :
  forall a b c, ltb a b = true -> ltb b c = true -> ltb a c = true.
Hypothesis ltb_total : forall a b, ltb a b = false -> ltb b a = false -> a = b.

Let before (a b : K) : Prop := ltb a b = true.

Let same (a b : K) : bool := negb (ltb a b) && negb (ltb b a).

Lemma same_eq (a b : K) : same a b = true <-> a = b.
Proof.
  unfold same. rewrite andb_true_iff, !negb_true_iff. split.
  - intros [H1 H2]. apply ltb_total; assumption.
  - intros ->. rewrite ltb_irreflexive. auto.
Qed.

(** What adding a row does to the groups. *)
Lemma add_to_group_entries (k : K) (c : cell) (groups : list (K * Series))
    (k0 : K) (v : Series) :
  StronglySorted before (map fst groups) ->
  In (k0, v) (add_to_group ltb k c groups) ->
  (k0 = k /\ ((exists v0, In (k, v0) groups /\ v = v0 ++ [c])
              \/ (~ In k (map fst groups) /\ v = [c])))
  \/ (k0 <> k /\ In (k0, v) groups).
Proof.
  induction groups as [ | [k' acc] rest IH]; simpl; intros Hs Hin.
  - destruct Hin as [E | []]. injection E as <- <-.
    left. split; [reflexivity | ]. right. auto.
  - inversion Hs as [ | ? ? Hrest Hk']; subst.
    rewrite List.Forall_forall in Hk'. unfold before in Hk'.
    destruct (ltb k k') eqn:E1; [ | destruct (ltb k' k) eqn:E2].
    + destruct Hin as [E | Hin].
      * injection E as <- <-. left. split; [reflexivity | ]. right. split; [ | reflexivity].
        intros [Ek | Hin'].
        -- rewrite Ek, ltb_irreflexive in E1. discriminate.
        -- pose proof (ltb_transitive _ _ _ E1 (Hk' k Hin')) as F.
           rewrite ltb_irreflexive in F. discriminate.
      * right. split; [ | exact Hin].
        intros Ek. subst k0. destruct Hin as [E | Hin].
        -- injection E as Ek _. rewrite Ek, ltb_irreflexive in E1. discriminate.
        -- pose proof (ltb_transitive _ _ _ E1 (Hk' k (in_map fst _ _ Hin))) as F.
           rewrite ltb_irreflexive in F. discriminate.
    + destruct Hin as [E | Hin].
      * injection E as <- <-. right. split; [ | auto].
        intros Ek. rewrite Ek, ltb_irreflexive in E2. discriminate.
      * destruct (IH Hrest Hin) as [[-> [[v0 [H0 Hv]] | [Hout Hv]]] | [Hne Hold]].
        -- left. split; [reflexivity | ]. left. exists v0. auto.
        -- left. split; [reflexivity | ]. right. split; [ | exact Hv].
           intros [Ek | Hin'].
           ++ rewrite Ek, ltb_irreflexive in E2. discriminate.
           ++ contradiction.
        -- right. auto.
    + assert (E : k' = k) by (apply ltb_total; assumption). subst k'.
      destruct Hin as [E | Hin].
      * injection E as <- <-. left. split; [reflexivity | ]. left. exists acc. auto.
      * right. split; [ | auto]. intros Ek. subst k0.
        pose proof (Hk' k (in_map fst _ _ Hin)) as F.
        rewrite ltb_irreflexive in F. discriminate.
Qed.

Lemma group_values_cons_same (k : K) (c : cell) (kvs : list (option K * cell)) :
  group_values same k ((Some k, c) :: kvs) = c :: group_values same k kvs.
Proof.
  unfold group_values. simpl. rewrite (proj2 (same_eq k k) eq_refl). reflexivity.
Qed.

Lemma group_values_cons_other (k k1 : K) (c : cell) (kvs : list (option K * cell)) :
  k <> k1 -> group_values same k ((Some k1, c) :: kvs) = group_values same k kvs.
Proof.
  intros Hne. unfold group_values. simpl.
  destruct (same k1 k) eqn:E; [ | reflexivity].
  apply same_eq in E. congruence.
Qed.

Lemma groupby_from_entries (kvs : list (option K * cell)) (groups : list (K * Series))
    (k : K) (v : Series) :
  StronglySorted before (map fst groups) ->
  In (k, v) (fold_left (fun g (kv : option K * cell) =>
                          match fst kv with
                          | Some k => add_to_group ltb k (snd kv) g
                          | None => g
                          end) kvs groups) ->
  (exists v0, In (k, v0) groups /\ v = v0 ++ group_values same k kvs)
  \/ (~ In k (map fst groups) /\ v = group_values same k kvs).
Proof.
  revert groups. induction kvs as [ | [[k1 | ] c] l IH]; intros groups Hs Hin; simpl in Hin.
  - left. exists v. rewrite app_nil_r. auto.
  - assert (Hs' : StronglySorted before (map fst (add_to_group ltb k1 c groups))).
    { apply add_to_group_sorted; [exact ltb_transitive | exact Hs]. }
    destruct (IH _ Hs' Hin) as [[v0 [H0 Hv]] | [Hout Hv]].
    + destruct (add_to_group_entries _ _ _ _ _ Hs H0)
        as [[-> [[v1 [H1 E]] | [Hout E]]] | [Hne Hold]].
      * left. exists v1. split; [exact H1 | ].
        rewrite group_values_cons_same, Hv, E, <- app_assoc. reflexivity.
      * right. split; [exact Hout | ].
        rewrite group_values_cons_same, Hv, E. reflexivity.
      * left. exists v0. split; [exact Hold | ].
        rewrite group_values_cons_other by exact Hne. exact Hv.
    + right. split.
      * intros Hk. apply Hout. apply add_to_group_keeps, Hk.
      * rewrite group_values_cons_other; [exact Hv | ].
        intros E. apply Hout. rewrite E.
        destruct (add_to_group_has ltb k1 c groups (ltb_irreflexive k1)) as [k0 [Hk0 [E1 E2]]].
        pose proof (ltb_total _ _ E1 E2) as Ek. subst k0. exact Hk0.
  - apply (IH groups Hs Hin).
Qed.

Lemma groupby_entries (keys : list (option K)) (values : Series)
    (k : K) (v : Series) :
  In (k, v) (groupby ltb keys values) ->
  v = group_values same k (combine keys values).
Proof.
  unfold groupby. intros Hin.
  destruct (groupby_from_entries _ [] k v (SSorted_nil _) Hin) as [[v0 [[] _]] | [_ Hv]].
  exact Hv.
Qed.

End GroupSums.

Lemma ts_compare_eq (a b : Timestamp) : ts_compare a b = Eq -> a = b.
Proof.
  destruct a as [[ya ma da] na], b as [[yb mb db] nb].
  unfold ts_compare, date_compare, lex; simpl.
  destruct (Z.compare_spec ya yb); try discriminate.
  destruct (Z.compare_spec ma mb); try discriminate.
  destruct (Z.compare_spec da db); try discriminate.
  destruct (Z.compare_spec na nb); try discriminate.
  intros _. subst. reflexivity.
Qed.

Lemma ts_ltb_total (a b : Timestamp) : ts_ltb a b = false -> ts_ltb b a = false -> a = b.
Proof.
  unfold ts_ltb. rewrite (ts_compare_antisym a b). intros H1 H2.
  apply ts_compare_eq. destruct (ts_compare a b); simpl in *; try discriminate; reflexivity.
Qed.

Lemma ts_same_eqb (a b : Timestamp) :
  negb (ts_ltb a b) && negb (ts_ltb b a) = ts_eqb a b.
Proof.
  unfold ts_ltb, ts_eqb. rewrite (ts_compare_antisym a b).
  destruct (ts_compare a b); reflexivity.
Qed.

Lemma combine_map_same {A B C} (f : A -> B) (g : A -> C) (l : list A) :
  combine (map f l) (map g l) = map (fun x => (f x, g x)) l.
Proof. induction l as [ | x l IH]; simpl; [reflexivity | rewrite IH; reflexivity]. Qed.

Lemma group_values_map {A K} (same : K -> K -> bool) (k : K)
    (f : A -> option K) (g : A -> cell) (l : list A) :
  group_values same k (map (fun x => (f x, g x)) l)
  = map g (List.filter (fun x => match f x with Some k' => same k' k | None => false end) l).
Proof.
  unfold group_values. induction l as [ | x l IH]; simpl; [reflexivity | ].
  destruct (f x) as [k' | ]; [destruct (same k' k) | ]; simpl; rewrite IH; reflexivity.
Qed.

Lemma filter_filter_and {A} (p q : A -> bool) (l : list A) :
  List.filter p (List.filter q l) = List.filter (fun x => q x && p x) l.
Proof.
  induction l as [ | x l IH]; simpl; [reflexivity | ].
  destruct (q x); simpl; [destruct (p x) | ]; rewrite IH; reflexivity.
Qed.

(** X14. Every point of the monthly trend carries the sum of the Revenue
    of the rows dated in its month, these rows and no other, taken in
    the order of the table: their int64 sum when Revenue is int64, and
    otherwise the float64 sum that [groupby().sum()] makes of them. *)
Theorem trend_point_sums_its_month (group_nansum : list spec_float -> spec_float)
    (filtered_df : DataFrame) :
  List.Forall
    (fun point : Timestamp * spec_float =>
       snd point
       = num (sum_cells group_nansum
                (map (Revenue filtered_df)
                     (List.filter (in_month filtered_df (fst point))
                                  (rows filtered_df)))))
    (trend_df group_nansum filtered_df).
Proof.
  rewrite List.Forall_forall. intros point Hin.
  unfold trend_df, groupby_sum, groupby_cells in Hin. rewrite map_map in Hin.
  apply in_map_iff in Hin. destruct Hin as [[first_day vs] [<- Hin]]. simpl.
  apply (groupby_entries ts_ltb ts_ltb_irrefl ts_ltb_trans ts_ltb_total) in Hin.
  rewrite Hin. do 2 f_equal.
  unfold column. rewrite !map_map, combine_map_same, group_values_map.
  rewrite boolean_index_map. cbn [boolean_index columns].
  rewrite filter_filter_and. unfold Revenue. f_equal.
  apply filter_ext. intros r. unfold in_month, DateOf.
  destruct (cell_at "Date" (columns filtered_df) r) as [s | z | x | t | ]; simpl;
    rewrite ?andb_false_r; try reflexivity.
  apply ts_same_eqb.
Qed.

(** ** The sum of a Product or of a Region (lines 133-147) *)

Lemma string_ltb_irrefl (s : string) : String.ltb s s = false.
Proof. apply (cell_ltb_irrefl (CStr s)). Qed.

Lemma string_ltb_trans (a b c : string) :
  String.ltb a b = true -> String.ltb b c = true -> String.ltb a c = true.
Proof. apply (cell_ltb_trans (CStr a) (CStr b) (CStr c)). Qed.

Lemma string_ltb_total (a b : string) :
  String.ltb a b = false -> String.ltb b a = false -> a = b.
Proof.
  unfold String.ltb. rewrite (String.compare_antisym a b). intros H1 H2.
  symmetry. apply String.compare_eq_iff.
  destruct (String.compare b a); simpl in *; try discriminate; reflexivity.
Qed.

Lemma string_same_eqb (a b : string) :
  negb (String.ltb a b) && negb (String.ltb b a) = String.eqb a b.
Proof.
  destruct (String.eqb a b) eqn:E.
  - apply String.eqb_eq in E. subst b. rewrite string_ltb_irrefl. reflexivity.
  - apply String.eqb_neq in E.
    destruct (String.ltb a b) eqn:E1; [reflexivity | ].
    destruct (String.ltb b a) eqn:E2; [reflexivity | ].
    exfalso. apply E. apply string_ltb_total; assumption.
Qed.

Lemma add_to_group_text (k : string) (v : cell) (groups : list (string * Series)) :
  add_to_group cell_ltb (CStr k) v (map as_text_group groups)
  = map as_text_group (add_to_group String.ltb k v groups).
Proof.
  induction groups as [ | [k' acc] rest IH]; simpl; [reflexivity | ].
  destruct (String.ltb k k'); [reflexivity | ].
  destruct (String.ltb k' k); simpl; [ | reflexivity].
  unfold as_text_group at 1. simpl. f_equal. exact IH.
Qed.

Lemma groupby_text (keys : list (option string)) (values : Series) :
  groupby cell_ltb (map (option_map CStr) keys) values
  = map as_text_group (groupby String.ltb keys values).
Proof.
  unfold groupby. change (@nil (cell * Series)) with (map as_text_group []).
  generalize (@nil (string * Series)) as groups. revert values.
  induction keys as [ | [k | ] keys IH]; intros values groups; simpl; [reflexivity | | ];
    destruct values as [ | v values]; simpl; try reflexivity.
  - rewrite add_to_group_text. apply IH.
  - apply IH.
Qed.

(** X15. When the grouping column holds text (or nothing), every entry
    of the aggregate carries the sum of the Revenue of the rows that bear
    its key, these rows and no other, taken in the order of the table:
    their int64 sum when Revenue is int64, and otherwise the float64 sum
    that [groupby().sum()] makes of them. *)
Theorem aggregate_entry_sums_its_group (group_nansum : list spec_float -> spec_float)
    (filtered_df : DataFrame) (label : string) :
  (forall c, In c (column filtered_df label) -> isna c = true \/ exists s, c = CStr s) ->
  List.Forall
    (fun entry : cell * spec_float =>
       snd entry
       = num (sum_cells group_nansum
                (map (Revenue filtered_df)
                     (List.filter (in_group filtered_df label (fst entry))
                                  (rows filtered_df)))))
    (revenue_by group_nansum filtered_df label).
Proof.
  intros Htext. rewrite List.Forall_forall. intros entry Hin.
  unfold revenue_by in Hin.
  apply in_map_iff in Hin. destruct Hin as [e [<- Hin]].
  unfold sort_values_desc in Hin.
  apply (Permutation_in _ (sort_by_perm _ _)) in Hin.
  unfold groupby_cells in Hin.
  apply in_map_iff in Hin. destruct Hin as [g [<- Hin]].
  assert (Hkeys : map group_key (column filtered_df label)
                  = map (option_map CStr) (map text_of (column filtered_df label))).
  { rewrite map_map. apply map_ext_in. intros c Hc.
    destruct (Htext c Hc) as [Hna | [s ->]]; [ | reflexivity].
    unfold group_key. rewrite Hna.
    destruct c as [s | z | x | t | ]; try discriminate; reflexivity. }
  rewrite Hkeys, groupby_text in Hin.
  apply in_map_iff in Hin. destruct Hin as [[s v] [<- Hin]].
  apply (groupby_entries String.ltb string_ltb_irrefl string_ltb_trans string_ltb_total)
    in Hin.
  simpl. rewrite Hin. do 2 f_equal.
  unfold column. rewrite !map_map, combine_map_same, group_values_map.
  unfold Revenue. f_equal. apply filter_ext. intros r. unfold in_group.
  destruct (cell_at label (columns filtered_df) r) as [s' | z | x | t | ]; simpl;
    try reflexivity.
  apply string_same_eqb.
Qed.

(** ** The default mapping (lines 31-67) *)

Lemma has_label_In (name : string) (cols : list string) :
  has_label name cols = true <-> In name cols.
Proof.
  unfold has_label. rewrite existsb_exists. split.
  - intros [c [Hin E]]. apply String.eqb_eq in E. subst c. exact Hin.
  - intros Hin. exists name. split; [exact Hin | apply String.eqb_refl].
Qed.

Lemma default_col_absent (name : string) (cols : list string) :
  ~ In name cols -> default_col name cols = List.hd name cols.
Proof.
  intros H. unfold default_col. destruct (has_label name cols) eqn:E; [ | reflexivity].
  apply has_label_In in E. contradiction.
Qed.

Lemma default_col_present (name : string) (cols : list string) :
  In name cols -> default_col name cols = name.
Proof.
  intros H. unfold default_col. rewrite (proj2 (has_label_In name cols) H). reflexivity.
Qed.

Section Defaults.

Variable str_to_float : string -> spec_float.
Variable to_timestamp : Series -> nat -> option Timestamp.
Variable nansum : list spec_float -> spec_float.
Variable group_nansum : list spec_float -> spec_float.

(** X16. An upload whose header has neither a Price nor a Quantity
    column stops the script at its first run, when the selectboxes still
    hold their defaults: both roles default to the first column, the
    rename calls it Quantity, and reading Price raises [KeyError]. *)
Theorem upload_without_price_stops (csv : DataFrame) (ui : Widgets) :
  ~ In "Price" (columns (normalize_columns csv)) ->
  ~ In "Quantity" (columns (normalize_columns csv)) ->
  dashboard str_to_float to_timestamp nansum group_nansum csv
    (default_mapping (columns (normalize_columns csv))) ui
  = inl (KeyError "Price").
Proof.
  intros HP HQ. apply dashboard_prepare_error, prepare_KeyError_Price.
  apply count_label_zero. intros c' Hin. unfold renamed_header in Hin.
  apply in_map_iff in Hin. destruct Hin as [c [<- Hc]].
  rewrite rename_label_spec. unfold default_mapping.
  cbn [region_col product_col price_col quantity_col].
  rewrite (default_col_absent "Price" _ HP), (default_col_absent "Quantity" _ HQ).
  destruct (columns (normalize_columns csv)) as [ | h t]; [contradiction | ]. simpl.
  repeat case_decide; try discriminate; congruence.
Qed.

Lemma rename_canonical (cols : list string) (c : string) :
  In "Region" cols -> In "Product" cols -> In "Price" cols -> In "Quantity" cols ->
  rename_label (rename_dict (default_mapping cols)) c = c.
Proof.
  intros H1 H2 H3 H4. rewrite rename_label_spec. unfold default_mapping.
  cbn [region_col product_col price_col quantity_col].
  rewrite !default_col_present by assumption.
  repeat case_decide; congruence.
Qed.

Lemma prepare_length (raw_df : DataFrame) (m : ColumnMapping) (df : DataFrame) :
  prepare str_to_float to_timestamp raw_df m = inr df ->
  length (rows df) = length (rows raw_df).
Proof.
  intros Hp. pose proof (prepare_steps _ _ _ _ _ Hp) as Hsteps. cbv zeta in Hsteps.
  set (df0 := rename raw_df (rename_dict m)) in *.
  set (P := map (to_numeric str_to_float) (column df0 "Price")) in *.
  set (df1 := setitem df0 "Price" P) in *.
  set (Q := map (to_numeric str_to_float) (column df1 "Quantity")) in *.
  set (df2 := setitem df1 "Quantity" Q) in *.
  set (R := series_mul (column df2 "Price") (column df2 "Quantity")) in *.
  set (df3 := setitem df2 "Revenue" R) in *.
  assert (L0 : length (rows df0) = length (rows raw_df)) by reflexivity.
  assert (L1 : length (rows df1) = length (rows df0)).
  { apply rows_setitem. unfold P. rewrite length_map. apply length_column. }
  assert (L2 : length (rows df2) = length (rows df1)).
  { apply rows_setitem. unfold Q. rewrite length_map. apply length_column. }
  assert (L3 : length (rows df3) = length (rows df2)).
  { apply rows_setitem. unfold R.
    rewrite length_series_mul; rewrite !length_column; reflexivity. }
  destruct Hsteps as [[_ ->] | [_ ->]]; [congruence | ].
  rewrite rows_setitem; [congruence | ].
  rewrite length_map, length_seq, length_column. congruence.
Qed.

(** X17. An upload whose header names Region, Product, Price and
    Quantity, each once, reaches the sliders with the default mapping: no
    lookup of a column fails, the rename changes no label, and the
    canonical table is the upload with Revenue added, row for row. There
    the script stops with a [StreamlitAPIException] when the least Price
    is not below the greatest, or the least Quantity not below the
    greatest; otherwise the filtered table is computed, and with every
    filter left alone it is the rows in which none of the four is
    missing. *)
Theorem canonical_upload_reaches_the_sliders (csv : DataFrame) (ui : Widgets) :
  rectangular csv ->
  (forall name, In name access_order ->
     count_label name (columns (normalize_columns csv)) = 1%nat) ->
  exists df defaults,
    prepare str_to_float to_timestamp (normalize_columns csv)
      (default_mapping (columns (normalize_columns csv))) = inr df
    /\ default_filters df = inr defaults
    /\ columns df = put_label "Revenue" (columns (normalize_columns csv))
    /\ length (rows df) = length (rows csv)
    /\ (slider_accepts (fst (price_range defaults)) (snd (price_range defaults))
        && slider_accepts (fst (qty_range defaults)) (snd (qty_range defaults)) = false ->
        dashboard str_to_float to_timestamp nansum group_nansum csv
          (default_mapping (columns (normalize_columns csv))) ui
        = inl StreamlitAPIException)
    /\ (slider_accepts (fst (price_range defaults)) (snd (price_range defaults))
        && slider_accepts (fst (qty_range defaults)) (snd (qty_range defaults)) = true ->
        filtered_table str_to_float to_timestamp csv
          (default_mapping (columns (normalize_columns csv))) ui
        = inr (df, apply_filters df (pick_filters ui defaults))
        /\ (pick_filters ui defaults = defaults ->
            rows (apply_filters df (pick_filters ui defaults))
            = List.filter (complete df) (rows df))).
Proof.
  intros Hrect Hcount.
  set (raw_df := normalize_columns csv) in *.
  set (m := default_mapping (columns raw_df)).
  assert (Hin : forall name, In name access_order -> In name (columns raw_df)).
  { intros name Hn. apply count_label_in. rewrite (Hcount name Hn). discriminate. }
  assert (Hsame : renamed_header raw_df m = columns raw_df).
  { unfold renamed_header. rewrite <- (map_id (columns raw_df)) at 2.
    apply map_ext. intros c. apply rename_canonical; apply Hin; simpl; auto. }
  assert (Hdate : has_date m = false) by reflexivity.
  destruct (prepare_succeeds str_to_float to_timestamp raw_df m) as [df Hp].
  { rewrite Hsame. apply Hcount. simpl; auto. }
  { rewrite Hsame. apply Hcount. simpl; auto. }
  { rewrite Hdate. discriminate. }
  destruct (prepare_inr _ _ _ _ _ Hp) as [_ [_ [Hcols Hrows]]].
  destruct (Hrows (rectangular_normalize _ Hrect)) as [Hr Hcells].
  unfold canonical_header in Hcols. rewrite Hdate, Hsame in Hcols.
  destruct (default_filters df) as [e | defaults] eqn:Hd.
  { exfalso. unfold default_filters, getitem in Hd. rewrite Hcols in Hd.
    rewrite !count_label_put_other in Hd by discriminate.
    rewrite !Hcount in Hd by (simpl; auto). discriminate. }
  exists df, defaults.
  split; [exact Hp | ]. split; [exact Hd | ]. split; [exact Hcols | ].
  split; [apply (prepare_length _ _ _ Hp) | ].
  split.
  - intros Hs. unfold dashboard, filtered_table. fold raw_df. fold m.
    rewrite Hp. cbn [bind]. rewrite Hd. cbn [bind].
    apply andb_false_iff in Hs.
    destruct (slider_accepts (fst (price_range defaults)) (snd (price_range defaults)))
      eqn:S1.
    + destruct Hs as [Hs | Hs]; [discriminate | ].
      rewrite (st_slider_accepts _ S1), (st_slider_refuses _ Hs). reflexivity.
    + rewrite (st_slider_refuses _ S1). reflexivity.
  - intros Hs. apply andb_true_iff in Hs. destruct Hs as [S1 S2].
    split.
    + rewrite (filtered_table_inr str_to_float to_timestamp csv m ui df defaults Hp Hd S1 S2).
      * unfold date_step. rewrite Hdate. reflexivity.
      * unfold date_guard. rewrite Hdate. reflexivity.
    + intros Hui. rewrite Hui.
      rewrite apply_filters_rows. apply filter_ext_in. intros r Hr'.
      destruct (Hcells r Hr') as [Hprice [Hqty _]].
      apply (default_filters_keep df defaults r Hd Hr'); assumption.
Qed.

End Defaults.

(** ** Trimmed headers (lines 22-25) *)

Lemma drop_prefix_spec (p l rest : list ascii) :
  drop_prefix p l = Some rest <-> l = p ++ rest.
Proof.
  revert l. induction p as [ | a p IH]; intros l; simpl.
  - split; [intros H; inversion H; reflexivity | intros ->; reflexivity].
  - destruct l as [ | b l]; [split; discriminate | ].
    destruct (Ascii.eqb a b) eqn:E.
    + apply Ascii.eqb_eq in E. subst b. rewrite IH. split; intros H; [subst; reflexivity | ].
      inversion H. reflexivity.
    + apply Ascii.eqb_neq in E. split; [discriminate | ].
      intros H. inversion H. congruence.
Qed.

Lemma drop_one_none (chars : list (list ascii)) (l : list ascii) :
  drop_one chars l = None <-> forall p, In p chars -> drop_prefix p l = None.
Proof.
  unfold drop_one. induction chars as [ | c chars IH]; simpl.
  - split; [intros _ p [] | reflexivity].
  - destruct (drop_prefix c l) as [rest | ] eqn:E.
    + split; [discriminate | ]. intros H. rewrite <- E. apply H. auto.
    + rewrite IH. split.
      * intros H p [<- | Hp]; [exact E | apply H, Hp].
      * intros H p Hp. apply H. auto.
Qed.

Lemma drop_one_some (chars : list (list ascii)) (l rest : list ascii) :
  drop_one chars l = Some rest -> exists p, In p chars /\ l = p ++ rest.
Proof.
  unfold drop_one. induction chars as [ | c chars IH]; simpl; [discriminate | ].
  destruct (drop_prefix c l) as [rest' | ] eqn:E.
  - intros H. inversion H; subst. exists c. split; [auto | ].
    apply drop_prefix_spec, E.
  - intros H. destruct (IH H) as [p [Hp Hl]]. exists p. auto.
Qed.

(** With fuel for every byte, no character of [chars] is left at the
    start. *)
Lemma drop_leading_clean (chars : list (list ascii)) (fuel : nat) (l : list ascii) :
  (forall p, In p chars -> p <> []) ->
  (length l <= fuel)%nat ->
  drop_one chars (drop_leading chars fuel l) = None.
Proof.
  intros Hne. revert l. induction fuel as [ | fuel IH]; intros l Hlen; simpl.
  - destruct l; [ | simpl in Hlen; lia].
    apply drop_one_none. intros p Hp. specialize (Hne p Hp).
    destruct p; [congruence | reflexivity].
  - destruct (drop_one chars l) as [rest | ] eqn:E; [ | exact E].
    apply IH. destruct (drop_one_some _ _ _ E) as [p [Hp ->]].
    specialize (Hne p Hp). rewrite length_app in Hlen.
    destruct p; [congruence | simpl in Hlen; lia].
Qed.

Lemma drop_leading_fixed (chars : list (list ascii)) (fuel : nat) (l : list ascii) :
  drop_one chars l = None -> drop_leading chars fuel l = l.
Proof. intros H. destruct fuel; simpl; [ | rewrite H]; reflexivity. Qed.

(** What is left is the end of the text. *)
Lemma drop_leading_suffix (chars : list (list ascii)) (fuel : nat) (l : list ascii) :
  exists dropped, l = dropped ++ drop_leading chars fuel l.
Proof.
  revert l. induction fuel as [ | fuel IH]; intros l; simpl; [exists []; reflexivity | ].
  destruct (drop_one chars l) as [rest | ] eqn:E; [ | exists []; reflexivity].
  destruct (drop_one_some _ _ _ E) as [p [_ ->]].
  destruct (IH rest) as [dropped Hd]. exists (p ++ dropped).
  rewrite <- app_assoc, <- Hd. reflexivity.
Qed.

Lemma whitespace_not_empty (p : list ascii) : In p whitespace -> p <> [].
Proof.
  intros Hin. vm_compute in Hin.
  repeat (destruct Hin as [<- | Hin]; [discriminate | ]). destruct Hin.
Qed.

Lemma reversed_whitespace_not_empty (p : list ascii) :
  In p (map (@rev ascii) whitespace) -> p <> [].
Proof.
  intros Hin. apply in_map_iff in Hin. destruct Hin as [w [<- Hw]].
  intros E. apply (whitespace_not_empty w Hw).
  rewrite <- (rev_involutive w), E. reflexivity.
Qed.

Lemma lstrip_bytes_clean (l : list ascii) : drop_one whitespace (lstrip_bytes l) = None.
Proof.
  apply drop_leading_clean; [apply whitespace_not_empty | apply Nat.le_refl].
Qed.

Lemma rstrip_bytes_clean (l : list ascii) :
  drop_one (map (@rev ascii) whitespace) (rev (rstrip_bytes l)) = None.
Proof.
  unfold rstrip_bytes. rewrite rev_involutive.
  apply drop_leading_clean; [apply reversed_whitespace_not_empty | ].
  rewrite length_rev. apply Nat.le_refl.
Qed.

(** Trimming the end leaves the start as it is. *)
Lemma rstrip_bytes_prefix (l : list ascii) :
  exists dropped, l = rstrip_bytes l ++ dropped.
Proof.
  unfold rstrip_bytes.
  destruct (drop_leading_suffix (map (@rev ascii) whitespace) (length l) (rev l))
    as [dropped Hd].
  exists (rev dropped). rewrite <- rev_app_distr, <- Hd, rev_involutive. reflexivity.
Qed.

Lemma rstrip_bytes_keeps_clean (l : list ascii) :
  drop_one whitespace l = None -> drop_one whitespace (rstrip_bytes l) = None.
Proof.
  intros H. apply drop_one_none. intros p Hp.
  destruct (drop_prefix p (rstrip_bytes l)) as [rest | ] eqn:E; [ | reflexivity].
  apply drop_prefix_spec in E. destruct (rstrip_bytes_prefix l) as [dropped Hd].
  rewrite E, <- app_assoc in Hd. apply drop_prefix_spec in Hd.
  rewrite (proj1 (drop_one_none whitespace l) H p Hp) in Hd. discriminate.
Qed.

Lemma bytes_strip (s : string) :
  bytes (strip s) = rstrip_bytes (lstrip_bytes (bytes s)).
Proof.
  unfold strip, rstrip, lstrip, bytes.
  rewrite !list_ascii_of_string_of_list_ascii. reflexivity.
Qed.

Lemma strip_clean (s : string) :
  drop_one whitespace (bytes (strip s)) = None
  /\ drop_one (map (@rev ascii) whitespace) (rev (bytes (strip s))) = None.
Proof.
  rewrite bytes_strip. split.
  - apply rstrip_bytes_keeps_clean, lstrip_bytes_clean.
  - apply rstrip_bytes_clean.
Qed.

Lemma strip_strip (s : string) : strip (strip s) = strip s.
Proof.
  destruct (strip_clean s) as [Hstart Hend].
  rewrite <- (string_of_list_ascii_of_string (strip (strip s))).
  rewrite <- (string_of_list_ascii_of_string (strip s)) at 2.
  f_equal. change (bytes (strip (strip s)) = bytes (strip s)).
  rewrite (bytes_strip (strip s)).
  unfold lstrip_bytes. rewrite (drop_leading_fixed _ _ _ Hstart).
  unfold rstrip_bytes. rewrite (drop_leading_fixed _ _ _ Hend).
  apply rev_involutive.
Qed.

(** X18. Trimming a header leaves no whitespace character, of those
    [str.strip()] removes, at either end of it, and trimming again changes
    nothing; [normalize_columns] keeps the rows and the number of columns,
    and applied twice it does what it does once. *)
Theorem normalize_columns_trims_once (frame : DataFrame) :
  List.Forall (fun label =>
                 (forall w rest, In w whitespace -> bytes label <> w ++ rest)
                 /\ (forall w rest, In w whitespace -> bytes label <> rest ++ w)
                 /\ strip label = label)
              (columns (normalize_columns frame))
  /\ rows (normalize_columns frame) = rows frame
  /\ length (columns (normalize_columns frame)) = length (columns frame)
  /\ normalize_columns (normalize_columns frame) = normalize_columns frame.
Proof.
  split; [ | split; [reflexivity | split; [apply length_map | ]]].
  - rewrite List.Forall_forall. intros label Hin. simpl in Hin.
    apply in_map_iff in Hin. destruct Hin as [s [<- _]].
    destruct (strip_clean s) as [Hstart Hend].
    split; [ | split; [ | apply strip_strip]].
    + intros w rest Hw E. apply drop_prefix_spec in E.
      rewrite (proj1 (drop_one_none _ _) Hstart w Hw) in E. discriminate.
    + intros w rest Hw E.
      assert (E' : rev (bytes (strip s)) = rev w ++ rev rest).
      { rewrite E. apply rev_app_distr. }
      apply drop_prefix_spec in E'.
      rewrite (proj1 (drop_one_none _ _) Hend (rev w) (in_map _ _ _ Hw)) in E'.
      discriminate.
  - unfold normalize_columns. simpl. f_equal. rewrite map_map.
    apply map_ext. intros s. apply strip_strip.
Qed.

(** ** The age calculator ([ass2.py], lines 15-18) *)

(** X20. The arithmetic of the age calculator, lines 15 to 18: the
    years, months and days computed from a number of days add up to it
    with years of 365 and months of 30 days; the days are 0 to 29 and the
    months 0 to 12, twelve months being computed for the last five days
    of a year; an age of no day or more has no negative part. *)
Theorem age_breakdown_adds_up (age : Z) :
  let '(year_, month_, day_) := age_breakdown age in
  age = 365 * year_ + 30 * month_ + day_
  /\ 0 <= day_ < 30
  /\ 0 <= month_ <= 12
  /\ (month_ = 12 <-> 360 <= age mod 365)
  /\ (0 <= age -> 0 <= year_)
  /\ (0 <= age < 365 -> year_ = 0).
Proof.
  unfold age_breakdown. cbv zeta. Z.div_mod_to_equations. lia.
Qed.

(** ** The further properties on written-out tables *)

(** The multiselects of the two-row table. *)
Lemma multiselects_offer_the_values_on_two_rows :
  (forall v, In v (region_filter two_rows_defaults) ->
     In v (column two_rows_canonical "Region") /\ isna v = false)
  /\ (forall v, In v (product_filter two_rows_defaults) ->
        In v (column two_rows_canonical "Product") /\ isna v = false)
  /\ List.NoDup (region_filter two_rows_defaults)
  /\ List.NoDup (product_filter two_rows_defaults)
  /\ (forall a b, In a (region_filter two_rows_defaults) ->
        In b (region_filter two_rows_defaults) -> a <> b -> cell_eqb a b = false)
  /\ (forall a b, In a (product_filter two_rows_defaults) ->
        In b (product_filter two_rows_defaults) -> a <> b -> cell_eqb a b = false)
  /\ (forall c, In c (column two_rows_canonical "Region") -> isna c = false ->
        selected c (region_filter two_rows_defaults))
  /\ (forall c, In c (column two_rows_canonical "Product") -> isna c = false ->
        selected c (product_filter two_rows_defaults)).
Proof.
  apply (multiselects_offer_the_values two_rows_canonical two_rows_defaults).
  vm_compute. reflexivity.
Defined.

(** The three sales under the default filters. *)
Lemma untouched_filters_on_three_sales :
  rows (apply_filters three_sales_canonical three_sales_defaults)
  = List.filter (complete three_sales_canonical) (rows three_sales_canonical).
Proof.
  apply (untouched_filters_keep_complete_rows parse_decimal read_dates
           three_sales map_when three_sales_canonical three_sales_defaults).
  - repeat constructor.
  - vm_compute. reflexivity.
  - vm_compute. reflexivity.
Defined.

(** No date column mapped. *)
Lemma date_step_skipped_on_two_rows :
  date_step two_rows_mapping untouched two_rows_canonical = two_rows_canonical.
Proof.
  apply (date_step_skipped two_rows_mapping untouched two_rows_canonical).
  left. reflexivity.
Defined.

(** Three sales, two of them dated by a day. *)
Lemma default_date_range_on_three_sales :
  rows (date_step map_when untouched three_sales_canonical)
  = List.filter (dated three_sales_canonical) (rows three_sales_canonical).
Proof.
  apply (default_date_range_on_days map_when three_sales_canonical).
  - reflexivity.
  - intros r t Hin Ht. simpl in Hin.
    destruct Hin as [<- | [<- | [<- | []]]]; vm_compute in Ht; inversion Ht; reflexivity.
  - exists [CStr "East"; CStr "Pen"; whole 2; whole 10; CStr "2024-01-05"; whole 20;
            CTime (mkTimestamp (mkDate 2024 1 5) 0)].
    split; [vm_compute; auto | vm_compute; reflexivity].
Defined.

(** Revenue written into the two-row table and read back. *)
Lemma setitem_then_getitem_on_two_rows :
  getitem (setitem two_rows "Revenue" [whole 20; missing]) "Revenue"
  = inr (OneColumn [whole 20; missing])
  /\ length (rows (setitem two_rows "Revenue" [whole 20; missing])) = length (rows two_rows)
  /\ rectangular (setitem two_rows "Revenue" [whole 20; missing])
  /\ forall other, other <> "Revenue" ->
       getitem (setitem two_rows "Revenue" [whole 20; missing]) other
       = getitem two_rows other.
Proof.
  apply (setitem_then_getitem two_rows "Revenue" [whole 20; missing]).
  - repeat constructor.
  - reflexivity.
  - vm_compute. lia.
Defined.



(** Revenue by Product on the two-row table. *)
Lemma aggregate_of_two_rows_sums_its_groups :
  List.Forall
    (fun entry : cell * spec_float =>
       snd entry
       = num (sum_cells plain_sum
                (map (Revenue two_rows_canonical)
                     (List.filter (in_group two_rows_canonical "Product" (fst entry))
                                  (rows two_rows_canonical)))))
    (revenue_by plain_sum two_rows_canonical "Product").
Proof.
  apply (aggregate_entry_sums_its_group plain_sum two_rows_canonical "Product").
  intros c Hin. vm_compute in Hin.
  destruct Hin as [<- | [<- | []]]; right; eexists; reflexivity.
Defined.

(** A table with columns A, B and C. *)
Lemma upload_without_price_stops_on_plain :
  dashboard parse_decimal read_dates plain_sum plain_sum plain
    (default_mapping (columns (normalize_columns plain))) untouched
  = inl (KeyError "Price").
Proof.
  apply (upload_without_price_stops parse_decimal read_dates plain_sum plain_sum
           plain untouched).
  - vm_compute. intros [H | [H | [H | []]]]; discriminate.
  - vm_compute. intros [H | [H | [H | []]]]; discriminate.
Defined.

(** The three sales have the four canonical names, and their prices and
    quantities differ. *)
Lemma canonical_upload_reaches_the_sliders_on_three_sales :
  exists df defaults,
    prepare parse_decimal read_dates (normalize_columns three_sales)
      (default_mapping (columns (normalize_columns three_sales))) = inr df
    /\ default_filters df = inr defaults
    /\ columns df = put_label "Revenue" (columns (normalize_columns three_sales))
    /\ length (rows df) = length (rows three_sales)
    /\ (slider_accepts (fst (price_range defaults)) (snd (price_range defaults))
        && slider_accepts (fst (qty_range defaults)) (snd (qty_range defaults)) = false ->
        dashboard parse_decimal read_dates plain_sum plain_sum three_sales
          (default_mapping (columns (normalize_columns three_sales))) untouched
        = inl StreamlitAPIException)
    /\ (slider_accepts (fst (price_range defaults)) (snd (price_range defaults))
        && slider_accepts (fst (qty_range defaults)) (snd (qty_range defaults)) = true ->
        filtered_table parse_decimal read_dates three_sales
          (default_mapping (columns (normalize_columns three_sales))) untouched
        = inr (df, apply_filters df (pick_filters untouched defaults))
        /\ (pick_filters untouched defaults = defaults ->
            rows (apply_filters df (pick_filters untouched defaults))
            = List.filter (complete df) (rows df))).
Proof.
  apply (canonical_upload_reaches_the_sliders parse_decimal read_dates plain_sum plain_sum
           three_sales untouched).
  - repeat constructor.
  - intros name Hin. simpl in Hin.
    destruct Hin as [<- | [<- | [<- | [<- | []]]]]; vm_compute; reflexivity.
Defined.
